(** * Hola-Doc: the SEACE tender cache and its filtering pipeline

    A shallow embedding of [engine/seace_exports.py], [engine/seace_db.py]
    and [engine/seace_ocds.py], with the filtering stage of
    [engine/seace_cron.py], and the properties of the tender cache that
    hold (or fail) on that code.

    Conventions of the embedding.
    - A Python value is a [pyval]; a Python [dict] with string keys is a
      [gmap string pyval].  Python [int] and [float] are both [VNum] over
      the rationals [Qc]: rounding, infinities and NaN are not modelled.
    - Dict objects are mutable and shared: they live in a [heap], and a
      Python list of dicts is a list of heap locations.
    - A raised exception is the [None] of an [option].
    - Conversions between text and numbers that Python and SQLite provide,
      and the repository only calls, are the fields of the class
      [Builtins], and the thousands format of an amount is the field of
      [Formato]; every property holds for all of them. *)

From Stdlib Require Import ZArith QArith Qcanon String Ascii List Lia Bool.
From stdpp Require Import gmap strings list fin_maps functions pretty.
From stdpp Require Import sorting.

Set Warnings "-register-all".
Local Open Scope string_scope.
Local Open Scope Z_scope.

(** ** Python values *)

Inductive pyval : Type :=
| VNone
| VBool (b : bool)
| VNum (q : Qc)
| VStr (s : string)
| VList (l : list pyval)
| VDict (d : gmap string pyval).

Abbreviation dict := (gmap string pyval).

(** [bool(v)]: the truth value Python gives [v] in [if v], [not v],
    [v and _], [v or _]. *)
Definition truthy (v : pyval) : bool :=
  match v with
  | VNone => false
  | VBool b => b
  | VNum q => negb (bool_decide (q = Qc_of_Z 0))
  | VStr s => negb (String.eqb s "")
  | VList l => match l with [] => false | _ :: _ => true end
  | VDict d => negb (Nat.eqb (size d) 0)
  end.

(** [a or b] *)
Definition py_or (a b : pyval) : pyval := if truthy a then a else b.

(** [d.get(k, dflt)] on a dict *)
Definition get (d : dict) (k : string) (dflt : pyval) : pyval :=
  default dflt (d !! k).

(** Hashable values as a set or dict key sees them: compared with [==], so
    [True], [1] and [1.0] are one key. *)
Inductive clave : Type :=
| KNone
| KNum (q : Qc)
| KStr (s : string).

Global Instance clave_eq_dec : EqDecision clave.
Proof. solve_decision. Defined.

Global Instance clave_countable : Countable clave.
Proof.
  refine (inj_countable'
    (λ k, match k with
          | KNone => inl ()
          | KNum q => inr (inl q)
          | KStr s => inr (inr s)
          end)
    (λ x, match x with
          | inl _ => KNone
          | inr (inl q) => KNum q
          | inr (inr s) => KStr s
          end) _).
  by intros [].
Defined.

(** [hash(v)]: [None] is the [TypeError] of an unhashable list or dict. *)
Definition py_hash_key (v : pyval) : option clave :=
  match v with
  | VNone => Some KNone
  | VBool b => Some (KNum (Qc_of_Z (if b then 1 else 0)))
  | VNum q => Some (KNum q)
  | VStr s => Some (KStr s)
  | VList _ | VDict _ => None
  end.

(** ** Strings *)

(** [s.split(sep)] for a one-character separator: never empty. *)
Fixpoint split (sep : ascii) (s : string) : list string :=
  match s with
  | EmptyString => [EmptyString]
  | String c r =>
      if Ascii.eqb c sep then EmptyString :: split sep r
      else match split sep r with
           | [] => [String c EmptyString]
           | w :: ws => String c w :: ws
           end
  end.

Definition es_espacio (c : ascii) : bool :=
  let n := nat_of_ascii c in
  ((9 <=? n) && (n <=? 13) || (28 <=? n) && (n <=? 32))%nat.

Definition digito (c : ascii) : option Z :=
  let n := nat_of_ascii c in
  if ((48 <=? n) && (n <=? 57))%nat then Some (Z.of_nat n - 48) else None.

Fixpoint quitar_espacios (l : list ascii) : list ascii :=
  match l with
  | c :: r => if es_espacio c then quitar_espacios r else l
  | [] => []
  end.

(** Decimal digits with single underscores between digits. *)
Fixpoint leer_digitos (l : list ascii) (acc : Z) (tras_digito : bool) : option Z :=
  match l with
  | [] => if tras_digito then Some acc else None
  | c :: r =>
      match digito c with
      | Some d => leer_digitos r (10 * acc + d) true
      | None =>
          if Ascii.eqb c "_" && tras_digito then leer_digitos r acc false
          else None
      end
  end.

(** [int(s)] on a [str], base 10: surrounding whitespace, an optional sign,
    ASCII digits.  [None] is [ValueError].  Digits and spaces outside ASCII
    are not modelled. *)
Definition py_int (s : string) : option Z :=
  let l := rev (quitar_espacios (rev (quitar_espacios (list_ascii_of_string s)))) in
  match l with
  | c :: r =>
      if Ascii.eqb c "-" then Z.opp <$> leer_digitos r 0 false
      else if Ascii.eqb c "+" then leer_digitos r 0 false
      else leer_digitos l 0 false
  | [] => None
  end.

(** ** Calendar dates *)

Record fecha : Type := Fecha { anio : Z; mes : Z; dia : Z }.

Definition es_bisiesto (y : Z) : bool :=
  (y mod 4 =? 0) && (negb (y mod 100 =? 0) || (y mod 400 =? 0)).

Definition dias_del_mes (y m : Z) : Z :=
  if m =? 2 then (if es_bisiesto y then 29 else 28)
  else if (m =? 4) || (m =? 6) || (m =? 9) || (m =? 11) then 30
  else 31.

Definition fecha_valida (f : fecha) : bool :=
  (1 <=? anio f) && (anio f <=? 9999) &&
  (1 <=? mes f) && (mes f <=? 12) &&
  (1 <=? dia f) && (dia f <=? dias_del_mes (anio f) (mes f)).

(** [datetime(y, m, d)]: [None] is the [ValueError] of an out-of-range
    field. *)
Definition datetime_ymd (y m d : Z) : option fecha :=
  let f := Fecha y m d in if fecha_valida f then Some f else None.

Definition dias_antes_del_anio (y : Z) : Z :=
  let y' := y - 1 in y' * 365 + y' / 4 - y' / 100 + y' / 400.

Fixpoint dias_antes_del_mes_aux (y : Z) (n : nat) : Z :=
  match n with
  | O => 0
  | S k => dias_antes_del_mes_aux y k + dias_del_mes y (Z.of_nat (S k))
  end.

Definition dias_antes_del_mes (y m : Z) : Z :=
  dias_antes_del_mes_aux y (Z.to_nat (m - 1)).

(** [date.toordinal()]: 1 for 0001-01-01. *)
Definition toordinal (f : fecha) : Z :=
  dias_antes_del_anio (anio f) + dias_antes_del_mes (anio f) (mes f) + dia f.

(** ** Date and time *)

(** A naive [datetime], by its fields. *)
Record datetime : Type := DateTime {
  dt_fecha : fecha;
  hora : Z;
  minuto : Z;
  segundo : Z;
  microsegundo : Z
}.

Definition datetime_valida (t : datetime) : bool :=
  fecha_valida (dt_fecha t) &&
  (0 <=? hora t) && (hora t <? 24) &&
  (0 <=? minuto t) && (minuto t <? 60) &&
  (0 <=? segundo t) && (segundo t <? 60) &&
  (0 <=? microsegundo t) && (microsegundo t <? 1000000).

(** Microseconds since the start of day 0 of the proleptic calendar: the
    scale on which [datetime] differences and [timedelta] are measured. *)
Definition a_microsegundos (t : datetime) : Z :=
  (((toordinal (dt_fecha t) * 24 + hora t) * 60 + minuto t) * 60
   + segundo t) * 1000000 + microsegundo t.

Definition cifra (d : Z) : ascii := ascii_of_nat (48 + Z.to_nat d).

(** ["%0wd" % n] for [0 <= n < 10^w]. *)
Fixpoint relleno (w : nat) (n : Z) : string :=
  match w with
  | O => ""
  | S k => relleno k (n / 10) ++ String (cifra (n mod 10)) ""
  end.

(** [t.isoformat()]: the fraction is printed only when it is not zero. *)
Definition isoformat (t : datetime) : string :=
  relleno 4 (anio (dt_fecha t)) ++ "-" ++ relleno 2 (mes (dt_fecha t)) ++ "-"
  ++ relleno 2 (dia (dt_fecha t)) ++ "T" ++ relleno 2 (hora t) ++ ":"
  ++ relleno 2 (minuto t) ++ ":" ++ relleno 2 (segundo t)
  ++ (if microsegundo t =? 0 then "" else "." ++ relleno 6 (microsegundo t)).

(** [f.strftime("%d/%m/%Y")] *)
Definition strftime_dmy (f : fecha) : string :=
  relleno 2 (dia f) ++ "/" ++ relleno 2 (mes f) ++ "/" ++ relleno 4 (anio f).

Definition dia_anterior (f : fecha) : option fecha :=
  if 1 <? dia f then Some (Fecha (anio f) (mes f) (dia f - 1))
  else if 1 <? mes f
  then Some (Fecha (anio f) (mes f - 1) (dias_del_mes (anio f) (mes f - 1)))
  else if 1 <? anio f then Some (Fecha (anio f - 1) 12 31)
  else None.

Definition dia_siguiente (f : fecha) : option fecha :=
  if dia f <? dias_del_mes (anio f) (mes f)
  then Some (Fecha (anio f) (mes f) (dia f + 1))
  else if mes f <? 12 then Some (Fecha (anio f) (mes f + 1) 1)
  else if anio f <? 9999 then Some (Fecha (anio f + 1) 1 1)
  else None.

Definition hora_anterior (t : datetime) : option datetime :=
  if 0 <? hora t
  then Some (DateTime (dt_fecha t) (hora t - 1) (minuto t) (segundo t) (microsegundo t))
  else f ← dia_anterior (dt_fecha t);
       Some (DateTime f 23 (minuto t) (segundo t) (microsegundo t)).

Definition hora_siguiente (t : datetime) : option datetime :=
  if hora t <? 23
  then Some (DateTime (dt_fecha t) (hora t + 1) (minuto t) (segundo t) (microsegundo t))
  else f ← dia_siguiente (dt_fecha t);
       Some (DateTime f 0 (minuto t) (segundo t) (microsegundo t)).

Fixpoint repetir (n : nat) (paso : datetime → option datetime)
    (t : datetime) : option datetime :=
  match n with
  | O => Some t
  | S k => t' ← paso t; repetir k paso t'
  end.

(** [t - timedelta(hours=horas)], one hour at a time; [None] is the
    [OverflowError] of leaving the years 1 to 9999. *)
Definition restar_horas (t : datetime) (horas : Z) : option datetime :=
  if 0 <=? horas then repetir (Z.to_nat horas) hora_anterior t
  else repetir (Z.to_nat (- horas)) hora_siguiente t.

(** ** Case and patterns *)

Definition mayuscula (c : ascii) : ascii :=
  let n := nat_of_ascii c in
  if ((97 <=? n) && (n <=? 122))%nat then ascii_of_nat (n - 32) else c.

Definition minuscula (c : ascii) : ascii :=
  let n := nat_of_ascii c in
  if ((65 <=? n) && (n <=? 90))%nat then ascii_of_nat (n + 32) else c.

Fixpoint mapa_cadena (f : ascii → ascii) (s : string) : string :=
  match s with
  | EmptyString => EmptyString
  | String c r => String (f c) (mapa_cadena f r)
  end.

(** [s.upper()] and SQLite's [UPPER(s)].  SQLite folds ASCII letters only;
    Python also folds letters outside ASCII, which is not modelled. *)
Definition upper (s : string) : string := mapa_cadena mayuscula s.
Definition lower (s : string) : string := mapa_cadena minuscula s.

Fixpoint es_prefijo (p s : string) : bool :=
  match p, s with
  | EmptyString, _ => true
  | String _ _, EmptyString => false
  | String a p', String b s' => Ascii.eqb a b && es_prefijo p' s'
  end.

(** [sub in s] on two [str] *)
Fixpoint contiene (sub s : string) : bool :=
  es_prefijo sub s ||
  match s with
  | EmptyString => false
  | String _ s' => contiene sub s'
  end.

(** The rest of a UTF-8 character whose first byte was [c]. *)
Fixpoint saltar_continuacion (l : list ascii) : list ascii :=
  match l with
  | c :: r =>
      if ((128 <=? nat_of_ascii c) && (nat_of_ascii c <=? 191))%nat
      then saltar_continuacion r else l
  | [] => []
  end.

(** SQLite's [texto LIKE patron]: [%] is any run, [_] one character, ASCII
    letters match without case. *)
Fixpoint like (patron texto : list ascii) : bool :=
  match patron with
  | [] => match texto with [] => true | _ :: _ => false end
  | c :: patron' =>
      if Ascii.eqb c "%" then
        (fix cualquiera (t : list ascii) : bool :=
           like patron' t ||
           match t with [] => false | _ :: t' => cualquiera t' end) texto
      else if Ascii.eqb c "_" then
        match texto with
        | [] => false
        | d :: t' =>
            like patron'
              (if (192 <=? nat_of_ascii d)%nat then saltar_continuacion t' else t')
        end
      else
        match texto with
        | [] => false
        | d :: t' => Ascii.eqb (mayuscula c) (mayuscula d) && like patron' t'
        end
  end.

(** ** Builtins taken as given *)

(** Conversions between text and numbers that Python and SQLite provide and
    the repository only calls. *)
Class Builtins : Type := {
  (** Python's [float(s)] on a [str]; [None] is [ValueError]. *)
  float_de_str : string → option Qc;
  (** The date of [datetime.fromisoformat(s)]; [None] is [ValueError]. *)
  fromisoformat : string → option fecha;
  (** Python's [str(v)] for a value that is not a [str]. *)
  str_de : pyval → string;
  (** SQLite's rendering of a number stored in a TEXT column. *)
  sqlite_texto : Qc → string;
  (** SQLite's reading of a text stored in a REAL column, when the text looks
      like a number. *)
  sqlite_numero : string → option Qc
}.

(** ** seace_exports.py *)

Definition UIT_2026 : Z := 5350.
Definition MONTO_MINIMO_8_UIT : Z := 8 * UIT_2026.

(** The date a [DD/MM/YYYY] or [DD/MM/YYYY HH:MM] text denotes, as the body
    of [calcular_dias_restantes] reads it. *)
Definition analizar_fecha (fecha_str : string) : option fecha :=
  let fecha_parte := hd "" (split " " fecha_str) in
  match split "/" fecha_parte with
  | [d; m; a] =>
      y ← py_int a; m' ← py_int m; d' ← py_int d;
      datetime_ymd y m' d'
  | _ => None
  end.

(** [calcular_dias_restantes(fecha_str)], with today's date [hoy] for
    [datetime.now()] at midnight.  The bare [except] turns every failure
    into [None]. *)
Definition calcular_dias_restantes (hoy : fecha) (fecha_str : pyval) : option Z :=
  if negb (truthy fecha_str) then None
  else match fecha_str with
       | VStr s => f ← analizar_fecha s; Some (toordinal f - toordinal hoy)
       | _ => None
       end.

(** *** The heap of dict objects *)

Abbreviation loc := nat.
Abbreviation heap := (loc → dict).

(** A computation that reads and writes dict objects and may raise. *)
Definition M (A : Type) : Type := heap → option A * heap.

Global Instance M_ret : MRet M := λ A a h, (Some a, h).
Global Instance M_bind : MBind M := λ A B f m h,
  match m h with
  | (Some a, h') => f a h'
  | (None, h') => (None, h')
  end.

(** An exception of a pure builtin, raised in [M]. *)
Definition o_raise {A} (o : option A) : M A := λ h, (o, h).

(** [p.get(k, dflt)] *)
Definition dict_get (p : loc) (k : string) (dflt : pyval) : M pyval :=
  λ h, (Some (get (h p) k dflt), h).

(** [p[k] = v] *)
Definition dict_setitem (p : loc) (k : string) (v : pyval) : M unit :=
  λ h, (Some (), <[p := <[k := v]> (h p)]> h).

Section Exports.

Context `{Builtins}.

(** [float(v)]; [None] is [TypeError] or [ValueError]. *)
Definition py_float (v : pyval) : option Qc :=
  match v with
  | VBool b => Some (Qc_of_Z (if b then 1 else 0))
  | VNum q => Some q
  | VStr s => float_de_str s
  | VNone | VList _ | VDict _ => None
  end.

Fixpoint filtrar_por_monto (procesos : list loc) (monto_minimo : Qc) : M (list loc) :=
  match procesos with
  | [] => mret []
  | p :: resto =>
      v ← dict_get p "valor_referencial" (VNum (Qc_of_Z 0));
      x ← o_raise (py_float (py_or v (VNum (Qc_of_Z 0))));
      r ← filtrar_por_monto resto monto_minimo;
      mret (if bool_decide (monto_minimo ≤ x)%Qc then p :: r else r)
  end.

End Exports.

Fixpoint filtrar_urgentes_desde (hoy : fecha) (procesos : list loc)
    (dias_limite : Z) (urgentes : list loc) : M (list loc) :=
  match procesos with
  | [] => mret urgentes
  | p :: resto =>
      v ← dict_get p "fecha_presentacion_propuestas" VNone;
      match calcular_dias_restantes hoy v with
      | Some dias =>
          if (0 <=? dias) && (dias <=? dias_limite) then
            _ ← dict_setitem p "dias_restantes" (VNum (Qc_of_Z dias));
            filtrar_urgentes_desde hoy resto dias_limite (urgentes ++ [p])
          else filtrar_urgentes_desde hoy resto dias_limite urgentes
      | None => filtrar_urgentes_desde hoy resto dias_limite urgentes
      end
  end.

Definition filtrar_urgentes (hoy : fecha) (procesos : list loc)
    (dias_limite : Z) : M (list loc) :=
  filtrar_urgentes_desde hoy procesos dias_limite [].

Fixpoint deduplicar_desde (procesos : list loc) (vistos : gset clave)
    (unicos : list loc) : M (list loc) :=
  match procesos with
  | [] => mret unicos
  | p :: resto =>
      nom ← dict_get p "nomenclatura" (VStr "");
      if truthy nom then
        k ← o_raise (py_hash_key nom);
        if decide (k ∈ vistos) then deduplicar_desde resto vistos unicos
        else deduplicar_desde resto ({[k]} ∪ vistos) (unicos ++ [p])
      else deduplicar_desde resto vistos unicos
  end.

Definition deduplicar_procesos (procesos : list loc) : M (list loc) :=
  deduplicar_desde procesos ∅ [].

(** ** seace_db.py *)

(** A row of [procesos] is the dict that [dict(row)] gives, keyed by column
    name, with [VNone] for NULL.  [procesos] lists the rows in rowid order;
    [secuencia] is the last rowid that AUTOINCREMENT gave out. *)
Record sync_metadata : Type := SyncMetadata {
  ultima_sincronizacion : pyval;
  total_procesos : Z;
  duracion_segundos : Qc;
  sync_estado : string;
  sync_mensaje : pyval
}.

Record db : Type := DB {
  procesos : list dict;
  secuencia : Z;
  sync : sync_metadata
}.

(** The store after [_init_db] on a new file. *)
Definition db_inicial : db :=
  DB [] 0 (SyncMetadata VNone 0 (Qc_of_Z 0) "pendiente" (VStr "Nunca sincronizado")).

(** The value SQLite receives for a Python parameter; [None] is the error of
    a type the driver cannot bind. *)
Definition sqlite_bind (v : pyval) : option pyval :=
  match v with
  | VNone => Some VNone
  | VBool b => Some (VNum (Qc_of_Z (if b then 1 else 0)))
  | VNum q => Some (VNum q)
  | VStr s => Some (VStr s)
  | VList _ | VDict _ => None
  end.

(** The TEXT columns bound with [proceso.get(c)], in statement order around
    [valor_referencial] and [moneda]. *)
Definition columnas_texto : list string :=
  [ "nomenclatura"; "entidad"; "descripcion"; "tipo_objeto";
    "tipo_procedimiento"; "departamento"; "estado"; "fecha_publicacion";
    "fecha_registro_participantes"; "fecha_consultas"; "fecha_observaciones";
    "fecha_integracion_bases"; "fecha_presentacion_propuestas";
    "fecha_buena_pro"; "url_ficha" ].

Definition sql_compare (a b : pyval) : comparison :=
  match a, b with
  | VNum x, VNum y => (x ?= y)%Qc
  | VStr x, VStr y => String.compare x y
  | VNum _, VStr _ => Lt
  | VStr _, VNum _ => Gt
  | (VNum _ | VStr _), _ => Gt
  | _, (VNum _ | VStr _) => Lt
  | _, _ => Eq
  end.

(** [a >= b] in a WHERE clause: NULL on either side is not true. *)
Definition sql_ge (a b : pyval) : bool :=
  match a, b with
  | (VNum _ | VStr _), (VNum _ | VStr _) =>
      match sql_compare a b with Lt => false | _ => true end
  | _, _ => false
  end.

(** [ORDER BY fecha_publicacion DESC, actualizado_en DESC]: may [f] stand
    before [g]. *)
Definition antes (f g : dict) : bool :=
  match sql_compare (get f "fecha_publicacion" VNone)
                    (get g "fecha_publicacion" VNone) with
  | Gt => true
  | Lt => false
  | Eq =>
      match sql_compare (get f "actualizado_en" VNone)
                        (get g "actualizado_en" VNone) with
      | Lt => false
      | _ => true
      end
  end.

Fixpoint insertar (f : dict) (l : list dict) : list dict :=
  match l with
  | [] => [f]
  | g :: r => if antes f g then f :: l else g :: insertar f r
  end.

(** The ORDER BY of [buscar].  SQL leaves the order of rows that agree on
    both keys open; here they stay in rowid order. *)
Definition ordenar (l : list dict) : list dict := foldr insertar [] l.

(** [LIMIT n]: a negative [n] is no limit. *)
Definition limitar (n : Z) (l : list dict) : list dict :=
  if n <? 0 then l else take (Z.to_nat n) l.

(** A [str = None] parameter under [if param:]. *)
Definition dado (o : option string) : option string :=
  match o with
  | Some s => if String.eqb s "" then None else Some s
  | None => None
  end.

Definition tipo_map (t : string) : option string :=
  if String.eqb t "obras" then Some "Obra"
  else if String.eqb t "servicios" then Some "Servicio"
  else if String.eqb t "consultoria_obras" then Some "Consultoría de Obra"
  else None.

Section SeaceDB.

Context `{Builtins}.

Definition afinidad_text (v : pyval) : pyval :=
  match v with
  | VNum q => VStr (sqlite_texto q)
  | _ => v
  end.

Definition afinidad_real (v : pyval) : pyval :=
  match v with
  | VStr s => match sqlite_numero s with Some q => VNum q | None => v end
  | _ => v
  end.

(** The values of a TEXT expression as text; [None] is NULL. *)
Definition sql_texto (v : pyval) : option string :=
  match v with
  | VStr s => Some s
  | VNum q => Some (sqlite_texto q)
  | _ => None
  end.

Definition sql_like (v : pyval) (patron : string) : bool :=
  match sql_texto v with
  | Some s => like (list_ascii_of_string patron) (list_ascii_of_string s)
  | None => false
  end.

(** The columns of the row that the INSERT of [guardar_proceso] binds from
    [proceso] at time [ahora], without its rowid; [None] when a parameter
    cannot be bound. *)
Definition fila_de (proceso : dict) (ahora : datetime) : option dict :=
  textos ← mapM (λ c, v ← sqlite_bind (get proceso c VNone);
                      Some (c, afinidad_text v)) columnas_texto;
  valor ← sqlite_bind (get proceso "valor_referencial" (VNum (Qc_of_Z 0)));
  moneda ← sqlite_bind (get proceso "moneda" (VStr "PEN"));
  fuente ← sqlite_bind (get proceso "fuente" (VStr "selenium"));
  Some (<["valor_referencial" := afinidad_real valor]>
       (<["moneda" := afinidad_text moneda]>
       (<["actualizado_en" := VStr (isoformat ahora)]>
       (<["fuente" := afinidad_text fuente]>
       (list_to_map textos))))).

Definition nomenclatura_es (s : string) (fila : dict) : bool :=
  match fila !! "nomenclatura" with
  | Some (VStr s') => String.eqb s' s
  | _ => false
  end.

(** [INSERT OR REPLACE INTO procesos (...) VALUES (...)]: [None] is the
    exception of a parameter that cannot be bound or of a NULL
    [nomenclatura].  The row that held the same [nomenclatura] is deleted and
    the new row takes the next rowid. *)
Definition insert_or_replace (proceso : dict) (ahora : datetime) (s : db) : option db :=
  fila ← fila_de proceso ahora;
  match fila !! "nomenclatura" with
  | Some (VStr nom) =>
      let id := secuencia s + 1 in
      Some (DB (filter (λ f, nomenclatura_es nom f = false) (procesos s)
                ++ [<["id" := VNum (Qc_of_Z id)]> fila])
               id (sync s))
  | _ => None
  end.

Definition guardar_proceso (proceso : dict) (ahora : datetime) (s : db) : bool * db :=
  match insert_or_replace proceso ahora s with
  | Some s' => (true, s')
  | None => (false, s)
  end.

(** One transaction, one clock reading [ahora] for all its rows. *)
Fixpoint guardar_procesos_batch (lote : list dict) (ahora : datetime)
    (s : db) : Z * db :=
  match lote with
  | [] => (0, s)
  | proceso :: resto =>
      match insert_or_replace proceso ahora s with
      | Some s' =>
          let '(guardados, s'') := guardar_procesos_batch resto ahora s' in
          (guardados + 1, s'')
      | None => guardar_procesos_batch resto ahora s
      end
  end.

(** The WHERE clause that [buscar] builds. *)
Definition coincide (departamento tipo_objeto estado texto : option string)
    (corte : option string) (fila : dict) : bool :=
  match dado departamento with
  | Some d =>
      match sql_texto (get fila "departamento" VNone) with
      | Some x => String.eqb (upper x) (upper d)
      | None => false
      end
  | None => true
  end &&
  match dado tipo_objeto with
  | Some t =>
      let tipo_nombre := default t (tipo_map (lower t)) in
      sql_like (get fila "tipo_objeto" VNone) ("%" ++ t ++ "%")
      || sql_like (get fila "tipo_objeto" VNone) ("%" ++ tipo_nombre ++ "%")
  | None => true
  end &&
  match dado estado with
  | Some e =>
      match sql_texto (get fila "estado" VNone) with
      | Some x => like (list_ascii_of_string (upper ("%" ++ e ++ "%")))
                       (list_ascii_of_string (upper x))
      | None => false
      end
  | None => true
  end &&
  match dado texto with
  | Some t =>
      sql_like (get fila "nomenclatura" VNone) ("%" ++ t ++ "%")
      || sql_like (get fila "entidad" VNone) ("%" ++ t ++ "%")
      || sql_like (get fila "descripcion" VNone) ("%" ++ t ++ "%")
  | None => true
  end &&
  match corte with
  | Some fecha_limite => sql_ge (get fila "actualizado_en" VNone) (VStr fecha_limite)
  | None => true
  end.

(** [buscar(...)] at time [ahora]; [None] is the [OverflowError] of the
    cut-off date. *)
Definition buscar (s : db) (ahora : datetime)
    (departamento tipo_objeto estado texto : option string)
    (limite : Z) (solo_frescos : bool) (horas_frescura : Z) : option (list dict) :=
  corte ← (if solo_frescos
           then t ← restar_horas ahora horas_frescura; Some (Some (isoformat t))
           else Some None);
  Some (limitar limite
          (ordenar (filter (λ f, coincide departamento tipo_objeto estado texto corte f)
                           (procesos s)))).

Definition actualizar_sync_metadata (estado : string) (mensaje : pyval)
    (duracion : option Qc) (ahora : datetime) (s : db) : db :=
  DB (procesos s) (secuencia s)
     (SyncMetadata
        (VStr (isoformat ahora))
        (Z.of_nat (length (procesos s)))
        (default (duracion_segundos (sync s)) duracion)
        estado
        (if truthy mensaje then mensaje else sync_mensaje (sync s))).

Definition datos_frescos_disponibles (s : db) (ahora : datetime) (horas : Z) : option bool :=
  t ← restar_horas ahora horas;
  Some (0 <? Z.of_nat (length
          (filter (λ f, sql_ge (get f "actualizado_en" VNone) (VStr (isoformat t)))
                  (procesos s)))).

End SeaceDB.

(** ** seace_ocds.py *)

Definition OCDS_BASE_URL : string := "https://contratacionesabiertas.oece.gob.pe".

Definition TIPOS_OCDS_MAP (k : clave) : option string :=
  match k with
  | KStr "goods" => Some "Bien"
  | KStr "works" => Some "Obra"
  | KStr "services" => Some "Servicio"
  | KStr "consultingServices" => Some "Consultoría de Obra"
  | _ => None
  end.

Definition TIPOS_INTERNOS_MAP (t : string) : option (list string) :=
  if String.eqb t "obras" then Some ["works"]
  else if String.eqb t "servicios" then Some ["services"]
  else if String.eqb t "consultoria_obras" then Some ["consultingServices"]
  else if String.eqb t "bienes" then Some ["goods"]
  else None.

Definition status_map (k : clave) : option string :=
  match k with
  | KStr "active" => Some "Convocado"
  | KStr "complete" => Some "Adjudicado"
  | KStr "cancelled" => Some "Cancelado"
  | KStr "unsuccessful" => Some "Desierto"
  | _ => None
  end.

(** *** Operations on values of unknown type; [None] is the exception. *)

(** [v.get(k, dflt)]: only a dict has [get]. *)
Definition py_get (v : pyval) (k : string) (dflt : pyval) : option pyval :=
  match v with
  | VDict d => Some (get d k dflt)
  | _ => None
  end.

Definition py_lower (v : pyval) : option string :=
  match v with VStr s => Some (lower s) | _ => None end.

Definition py_upper (v : pyval) : option string :=
  match v with VStr s => Some (upper s) | _ => None end.

Fixpoint caracteres (s : string) : list pyval :=
  match s with
  | EmptyString => []
  | String c r => VStr (String c "") :: caracteres r
  end.

(** The elements [for x in v] visits.  A text yields its bytes and a dict its
    keys in key order: neither Unicode characters nor insertion order are
    modelled. *)
Definition py_iter (v : pyval) : option (list pyval) :=
  match v with
  | VList l => Some l
  | VStr s => Some (caracteres s)
  | VDict d => Some (VStr <$> (map_to_list d).*1)
  | _ => None
  end.

Definition es_texto (s : string) (v : pyval) : bool :=
  match v with VStr s' => String.eqb s' s | _ => false end.

(** [s in v] for a text [s] *)
Definition py_in (s : string) (v : pyval) : option bool :=
  match v with
  | VStr t => Some (contiene s t)
  | VList l => Some (existsb (es_texto s) l)
  | VDict d => Some (bool_decide (is_Some (d !! s)))
  | _ => None
  end.

(** [v[0]] *)
Definition py_primero (v : pyval) : option pyval :=
  match v with
  | VList (x :: _) => Some x
  | VStr (String c _) => Some (VStr (String c ""))
  | _ => None
  end.

(** [s.replace("Z", "+00:00")] *)
Fixpoint reemplazar_Z (s : string) : string :=
  match s with
  | EmptyString => EmptyString
  | String c r =>
      if Ascii.eqb c "Z" then "+00:00" ++ reemplazar_Z r
      else String c (reemplazar_Z r)
  end.

(** The loop over [parties] of [_extraer_ubicacion]: [Some (Some v)] when it
    returns [v], [Some None] when it runs to its end. *)
Fixpoint buscar_buyer (parties : list pyval) : option (option pyval) :=
  match parties with
  | [] => Some None
  | party :: resto =>
      roles ← py_get party "roles" (VList []);
      es_buyer ← py_in "buyer" roles;
      if (es_buyer : bool) then
        addr ← py_get party "address" (VDict ∅);
        locality ← py_get addr "locality" (VStr "");
        region ← py_get addr "region" locality;
        Some (Some region)
      else buscar_buyer resto
  end.

Definition _extraer_ubicacion (release : pyval) : pyval :=
  default (VStr "LIMA")
    (tender ← py_get release "tender" (VDict ∅);
     addresses ← py_get tender "deliveryAddresses" (VList []);
     if truthy addresses then
       a ← py_primero addresses; py_get a "region" (VStr "")
     else
       parties ← py_get release "parties" (VList []);
       ps ← py_iter parties;
       encontrado ← buscar_buyer ps;
       match encontrado with
       | Some region => Some region
       | None =>
           buyer ← py_get release "buyer" (VDict ∅);
           address ← py_get buyer "address" (VDict ∅);
           py_get address "region" (VStr "LIMA")
       end).

Definition _extraer_tipo (release : pyval) : pyval :=
  default (VStr "works")
    (tender ← py_get release "tender" (VDict ∅);
     categoria ← py_get tender "mainProcurementCategory" (VStr "");
     if truthy categoria then Some categoria
     else
       d ← py_get tender "procurementMethodDetails" (VStr "");
       details ← py_lower d;
       Some (VStr (if contiene "obra" details then "works"
                   else if contiene "consultor" details then "consultingServices"
                   else if contiene "servicio" details then "services"
                   else "works"))).

(** The loop over [milestones] of [convertir_a_proceso]. *)
Fixpoint leer_milestones (milestones : list pyval) (fechas : dict) : option dict :=
  match milestones with
  | [] => Some fechas
  | m :: resto =>
      c ← py_get m "code" (VStr "");
      code ← py_lower c;
      due ← py_get m "dueDate" (VStr "");
      leer_milestones resto
        (if contiene "consulta" code then <["consultas" := due]> fechas
         else if contiene "observacion" code then <["observaciones" := due]> fechas
         else if contiene "propuesta" code || contiene "oferta" code
              then <["propuestas" := due]> fechas
         else fechas)
  end.

(** What the server answers to the request for one page. *)
Inductive respuesta : Type :=
| ErrorDeRed
| Respuesta (status_code : Z) (json : option pyval).

(** The loop over the releases of one page, with the filters of
    [_obtener_desde_api]: the grown [releases] and count, and [false] when an
    exception cut the page short. *)
Fixpoint filtrar_pagina (departamentos tipos_ocds : list string) (limite : Z)
    (pagina : list pyval) (releases : list pyval) (total : Z)
    : bool * list pyval * Z :=
  match pagina with
  | [] => (true, releases, total)
  | release :: resto =>
      let ubicacion := _extraer_ubicacion release in
      let tipo := _extraer_tipo release in
      let sigue := filtrar_pagina departamentos tipos_ocds limite resto in
      let por_tipo :=
        if match tipos_ocds with [] => false | _ :: _ => true end
           && negb (existsb (λ t, es_texto t tipo) tipos_ocds)
        then sigue releases total
        else if limite <=? total + 1 then (true, (releases ++ [release])%list, total + 1)
        else sigue (releases ++ [release])%list (total + 1) in
      if match departamentos with [] => false | _ :: _ => true end
         && negb (existsb (String.eqb "TODOS") (upper <$> departamentos))
      then match py_upper ubicacion with
           | Some u =>
               if existsb (λ d, contiene (upper d) u) departamentos
               then por_tipo else sigue releases total
           | None => (false, releases, total)
           end
      else por_tipo
  end.

(** The [while] loop of [_obtener_desde_api]; [None] when [fuel] pages were
    not enough for it to end. *)
Fixpoint paginar (fuel : nat) (servidor : Z → Z → respuesta)
    (departamentos tipos_ocds : list string) (limite page_size page : Z)
    (releases : list pyval) (total : Z) : option (list pyval) :=
  match fuel with
  | O => None
  | S fuel' =>
      if total <? limite then
        match servidor page page_size with
        | ErrorDeRed => Some releases
        | Respuesta status_code json =>
            if status_code =? 200 then
              match data ← json; py_get data "releases" (VList []) with
              | None => Some releases
              | Some releases_page =>
                  if negb (truthy releases_page) then Some releases
                  else
                    match py_iter releases_page with
                    | None => Some releases
                    | Some pagina =>
                        let '(ok, releases', total') :=
                          filtrar_pagina departamentos tipos_ocds limite
                            pagina releases total in
                        if negb ok then Some releases'
                        else
                          match data ← json;
                                links ← py_get data "links" (VDict ∅);
                                py_get links "next" VNone with
                          | None => Some releases'
                          | Some next =>
                              if truthy next
                              then paginar fuel' servidor departamentos
                                     tipos_ocds limite page_size (page + 1)
                                     releases' total'
                              else Some releases'
                          end
                    end
              end
            else Some releases
        end
      else Some releases
  end.

Definition _obtener_desde_api (fuel : nat) (servidor : Z → Z → respuesta)
    (departamentos tipos_ocds : list string) (limite : Z) : option (list pyval) :=
  paginar fuel servidor departamentos tipos_ocds limite (Z.min limite 100) 1 [] 0.

Definition descargar_releases (fuel : nat) (servidor : Z → Z → respuesta)
    (limite : Z) (departamentos tipos_objeto : option (list string))
    : option (list pyval) :=
  let departamentos := default ["ANCASH"; "LIMA"] departamentos in
  let tipos_objeto := default ["obras"; "consultoria_obras"] tipos_objeto in
  let tipos_ocds :=
    concat ((λ tipo, default [] (TIPOS_INTERNOS_MAP (lower tipo))) <$> tipos_objeto) in
  _obtener_desde_api fuel servidor departamentos tipos_ocds limite.

(** The report that [sincronizar_sqlite] returns. *)
Record resultado : Type := Resultado {
  exito : bool;
  procesados : Z;
  guardados : Z;
  errores : Z;
  r_duracion_segundos : Qc;
  mensaje : string
}.

Section SeaceOCDS.

Context `{Builtins}.

(** [str(v)], as an f-string formats [v]. *)
Definition py_str (v : pyval) : string :=
  match v with VStr s => s | _ => str_de v end.

(** [convertir_a_proceso(release)]: the [ProcesoSEACE] as the dict its
    [to_dict()] gives; [None] when the body raised. *)
Definition convertir_a_proceso (release : pyval) : option dict :=
  tender ← py_get release "tender" (VDict ∅);
  buyer ← py_get release "buyer" (VDict ∅);
  ocid ← py_get release "ocid" (VStr "");
  tender_id ← py_get tender "id" ocid;
  value ← py_get tender "value" (VDict ∅);
  amount ← py_get value "amount" (VNum (Qc_of_Z 0));
  valor_ref ← py_float (py_or amount (VNum (Qc_of_Z 0)));
  moneda ← py_get value "currency" (VStr "PEN");
  periodo ← py_get tender "tenderPeriod" (VDict ∅);
  inicio ← py_get periodo "startDate" (VStr "");
  let fecha_pub :=
    match inicio with
    | VStr s =>
        if truthy inicio
        then match fromisoformat (reemplazar_Z s) with
             | Some f => VStr (strftime_dmy f)
             | None => inicio
             end
        else inicio
    | _ => inicio
    end in
  milestones ← py_get tender "milestones" (VList []);
  ms ← py_iter milestones;
  fechas ← leer_milestones ms ∅;
  tipo_ocds ← py_hash_key (_extraer_tipo release);
  let tipo_interno := default "Obra" (TIPOS_OCDS_MAP tipo_ocds) in
  status ← py_get tender "status" (VStr "active");
  status_k ← py_hash_key status;
  let estado := default "Convocado" (status_map status_k) in
  entidad ← py_get buyer "name" (VStr "Sin entidad");
  description ← py_get tender "description" (VStr "");
  descripcion ← py_get tender "title" description;
  tipo_procedimiento ← py_get tender "procurementMethod" (VStr "");
  Some (list_to_map
    [ ("nomenclatura", tender_id);
      ("entidad", entidad);
      ("descripcion", descripcion);
      ("tipo_objeto", VStr tipo_interno);
      ("tipo_procedimiento", tipo_procedimiento);
      ("departamento", _extraer_ubicacion release);
      ("valor_referencial", VNum valor_ref);
      ("moneda", moneda);
      ("estado", VStr estado);
      ("fecha_publicacion", fecha_pub);
      ("fecha_registro_participantes", VNone);
      ("fecha_consultas", get fechas "consultas" VNone);
      ("fecha_observaciones", get fechas "observaciones" VNone);
      ("fecha_integracion_bases", VNone);
      ("fecha_presentacion_propuestas", get fechas "propuestas" VNone);
      ("fecha_buena_pro", VNone);
      ("url_ficha", VStr (OCDS_BASE_URL ++ "/process/" ++ py_str ocid)) ]).

(** The conversion loop of [buscar_procesos]. *)
Fixpoint convertir_hasta (limite : Z) (releases : list pyval)
    (procesos : list dict) : list dict :=
  match releases with
  | [] => procesos
  | release :: resto =>
      match convertir_a_proceso release with
      | Some proceso =>
          let procesos' := (procesos ++ [proceso])%list in
          if limite <=? Z.of_nat (length procesos') then procesos'
          else convertir_hasta limite resto procesos'
      | None => convertir_hasta limite resto procesos
      end
  end.

Definition buscar_procesos (fuel : nat) (servidor : Z → Z → respuesta)
    (departamentos tipos_objeto : option (list string)) (limite : Z)
    : option (list dict) :=
  let departamentos := Some (default ["ANCASH"; "LIMA"] departamentos) in
  let tipos_objeto := Some (default ["obras"; "consultoria_obras"] tipos_objeto) in
  releases ← descargar_releases fuel servidor (limite * 2) departamentos tipos_objeto;
  Some (convertir_hasta limite releases []).

(** [sincronizar_sqlite(...)] on the store [s], started at [inicio], with
    [ahora] the clock once the fetch is over.  [None] when [fuel] pages were
    not enough.  The [except] branch answers failures of the database file,
    which are not modelled; it fills [errores] and [mensaje] and, like the
    early return, leaves [sync_metadata] alone. *)
Definition sincronizar_sqlite (fuel : nat) (servidor : Z → Z → respuesta)
    (departamentos tipos_objeto : option (list string)) (limite : Z)
    (inicio ahora : datetime) (s : db) : option (resultado * db) :=
  let duracion :=
    (Qc_of_Z (a_microsegundos ahora - a_microsegundos inicio)
     / Qc_of_Z 1000000)%Qc in
  procesos ← buscar_procesos fuel servidor departamentos tipos_objeto limite;
  match procesos with
  | [] =>
      Some (Resultado false 0 0 0 duracion "No se encontraron procesos en OCDS", s)
  | _ :: _ =>
      let datos_guardar := (λ d : dict, <["fuente" := VStr "ocds"]> d) <$> procesos in
      let '(guardados, s') := guardar_procesos_batch datos_guardar ahora s in
      let s'' :=
        actualizar_sync_metadata "completado"
          (VStr ("Sincronizados " ++ pretty guardados ++ " procesos desde OCDS"))
          (Some duracion) ahora s' in
      Some (Resultado true (Z.of_nat (length procesos)) guardados 0 duracion
              ("Sincronizados " ++ pretty guardados ++ " procesos exitosamente"),
            s'')
  end.

End SeaceOCDS.

(** ** seace_db.py: counting, statistics and purge *)

(** [a < b] in a WHERE clause: NULL on either side is not true. *)
Definition sql_lt (a b : pyval) : bool :=
  match a, b with
  | (VNum _ | VStr _), (VNum _ | VStr _) =>
      match sql_compare a b with Lt => true | _ => false end
  | _, _ => false
  end.

(** The value a column contributes to GROUP BY, as the key of the Python
    dict built from the groups: NULL is [None]. *)
Definition clave_sql (v : pyval) : clave :=
  match v with
  | VStr s => KStr s
  | VNum q => KNum q
  | _ => KNone
  end.

(** [SELECT col, COUNT( * ) FROM procesos GROUP BY col], as the dict
    [{row[0]: row[1] for row in cursor.fetchall()}]. *)
Definition agrupar (col : string) (filas : list dict) : gmap clave Z :=
  foldr (λ f m, let k := clave_sql (get f col VNone) in
                <[k := default 0 (m !! k) + 1]> m) ∅ filas.

(** The dict that [obtener_estadisticas] returns. *)
Record estadisticas : Type := Estadisticas {
  e_total_procesos : Z;
  e_por_departamento : gmap clave Z;
  e_por_tipo : gmap clave Z;
  e_ultima_sincronizacion : pyval;
  e_estado_sync : string
}.

Definition obtener_estadisticas (s : db) : estadisticas :=
  Estadisticas
    (Z.of_nat (length (procesos s)))
    (agrupar "departamento" (procesos s))
    (agrupar "tipo_objeto" (procesos s))
    (ultima_sincronizacion (sync s))
    (sync_estado (sync s)).

Section SeaceDBConsultas.

Context `{Builtins}.

(** The WHERE clause that [contar_procesos] builds. *)
Definition coincide_conteo (departamento tipo_objeto : option string)
    (fila : dict) : bool :=
  match dado departamento with
  | Some d =>
      match sql_texto (get fila "departamento" VNone) with
      | Some x => String.eqb (upper x) (upper d)
      | None => false
      end
  | None => true
  end &&
  match dado tipo_objeto with
  | Some t => sql_like (get fila "tipo_objeto" VNone) ("%" ++ t ++ "%")
  | None => true
  end.

Definition contar_procesos (s : db) (departamento tipo_objeto : option string) : Z :=
  Z.of_nat (length (filter (λ f, coincide_conteo departamento tipo_objeto f)
                           (procesos s))).

(** [limpiar_datos_antiguos(dias)] at time [ahora]: the number of rows
    deleted and the store left.  [timedelta(days=dias)] is [24 * dias]
    hours; [None] is the [OverflowError] of the cut-off date. *)
Definition limpiar_datos_antiguos (s : db) (ahora : datetime) (dias : Z)
    : option (Z * db) :=
  t ← restar_horas ahora (24 * dias);
  let borra := λ f : dict, sql_lt (get f "actualizado_en" VNone) (VStr (isoformat t)) in
  Some (Z.of_nat (length (filter (λ f, borra f = true) (procesos s))),
        DB (filter (λ f, borra f = false) (procesos s)) (secuencia s) (sync s)).

End SeaceDBConsultas.

(** ** seace_exports.py: the daily summary *)




Section Resumen.

Context `{Builtins} `{Formato}.



(** ** seace_cron.py *)

(** The filtering stage of [ejecutar_sincronizacion_diaria] on the rows that
    [buscar] gave it: the deduplicated rows, those of at least 8 UIT, and
    the urgent ones among them. *)
Definition etapa_filtrar (hoy : fecha) (procesos : list loc)
    : M (list loc * list loc * list loc) :=
  procesos ← deduplicar_procesos procesos;
  procesos_filtrados ← filtrar_por_monto procesos (Qc_of_Z MONTO_MINIMO_8_UIT);
  urgentes ← filtrar_urgentes hoy procesos_filtrados 3;
  mret (procesos, procesos_filtrados, urgentes).

End Resumen.

(** * Vocabulary of the properties *)

(** The amount the filter compares: [float(p.get('valor_referencial', 0) or 0)]. *)
Definition monto `{Builtins} (h : heap) (p : loc) : option Qc :=
  py_float
    (py_or (get (h p) "valor_referencial" (VNum (Qc_of_Z 0))) (VNum (Qc_of_Z 0))).

(** Days left for the tender at [p], as [filtrar_urgentes] computes them. *)
Definition dias_de (hoy : fecha) (h : heap) (p : loc) : option Z :=
  calcular_dias_restantes hoy (get (h p) "fecha_presentacion_propuestas" VNone).

Definition es_urgente (hoy : fecha) (dias_limite : Z) (h : heap) (p : loc) : bool :=
  match dias_de hoy h p with
  | Some d => (0 <=? d) && (d <=? dias_limite)
  | None => false
  end.

(** The dict at [p] after the call: [dias_restantes] set when urgent. *)
Definition marcado (hoy : fecha) (dias_limite : Z) (h : heap) (p : loc) : dict :=
  match dias_de hoy h p with
  | Some d =>
      if (0 <=? d) && (d <=? dias_limite)
      then <["dias_restantes" := VNum (Qc_of_Z d)]> (h p) else h p
  | None => h p
  end.

(** No space in [s]: the text is a date without a time of day. *)
Definition sin_espacio (s : string) : bool :=
  forallb (λ c, negb (Ascii.eqb c " ")) (list_ascii_of_string s).

(** The identifier of the tender at [p]: its [nomenclatura] text. *)
Definition identificador (h : heap) (p : loc) : string :=
  match h p !! "nomenclatura" with
  | Some (VStr s) => s
  | _ => ""
  end.

(** The data-model invariant of a tender: a non-empty identifier. *)
Definition tiene_identificador (h : heap) (p : loc) : Prop :=
  ∃ s, h p !! "nomenclatura" = Some (VStr s) ∧ s ≠ "".

(** The specification's reading of deduplication: the head of the list is
    kept and every later record with its identifier is dropped. *)
Fixpoint primeras_ocurrencias (h : heap) (l : list loc) : list loc :=
  match l with
  | [] => []
  | p :: resto =>
      p :: filter (λ q, identificador h q ≠ identificador h p)
             (primeras_ocurrencias h resto)
  end.

(** Comparison by a first key, then a second. *)
Definition lex (c1 c2 : comparison) : comparison :=
  match c1 with Eq => c2 | _ => c1 end.

Definition dias_del_anio (y : Z) : Z := if es_bisiesto y then 366 else 365.

(** One hour, in microseconds. *)
Definition una_hora : Z := 3600 * 1000000.

(** One column of a query result. *)
Definition columna (c : string) (res : option (list dict)) : option (list pyval) :=
  option_map (List.map (λ f : dict, get f c VNone)) res.

(** The identifier and the rowid of a stored row. *)
Definition nomenclatura_de (f : dict) : option string :=
  match f !! "nomenclatura" with
  | Some (VStr s) => Some s
  | _ => None
  end.

Definition id_de (f : dict) : option Z :=
  match f !! "id" with
  | Some (VNum q) => Some (Qnum (this q))
  | _ => None
  end.

(** What the schema of [procesos] promises: [nomenclatura TEXT UNIQUE NOT
    NULL] and an AUTOINCREMENT primary key. *)
Definition db_ok (s : db) : Prop :=
  0 ≤ secuencia s
  ∧ Forall (λ f, is_Some (nomenclatura_de f)) (procesos s)
  ∧ NoDup (nomenclatura_de <$> procesos s)
  ∧ Forall (λ f, ∃ i, id_de f = Some i ∧ 1 ≤ i ≤ secuencia s) (procesos s)
  ∧ NoDup (id_de <$> procesos s).

(** A tender the INSERT accepts: every parameter binds and the identifier
    is not NULL. *)
Definition almacenable `{Builtins} (ahora : datetime) (proceso : dict) : bool :=
  match fila_de proceso ahora with
  | Some fila =>
      match fila !! "nomenclatura" with
      | Some (VStr _) => true
      | _ => false
      end
  | None => false
  end.




(** The rows of the store filed under identifier [x]. *)
Definition filas_de (x : string) (s : db) : list dict :=
  filter (λ f, nomenclatura_es x f = true) (procesos s).

(** The rows a query with these filters selects, before ORDER BY and LIMIT. *)
Definition seleccion `{Builtins} (departamento tipo_objeto estado texto : option string)
    (corte : option string) (s : db) : list dict :=
  filter (λ f, coincide departamento tipo_objeto estado texto corte f) (procesos s).

Definition no_vacia {A} (l : list A) : bool :=
  match l with
  | [] => false
  | _ :: _ => true
  end.

(** The sum of the counts of a GROUP BY. *)
Definition suma (m : gmap clave Z) : Z := map_fold (λ _ n acc, n + acc) 0 m.

(** The rows whose column [col] falls in group [k]. *)
Definition grupo (col : string) (k : clave) (filas : list dict) : list dict :=
  filter (λ f, clave_sql (get f col VNone) = k) filas.

(** What [_obtener_desde_api] asks of a release before it keeps it: the
    department filter, unless the list is empty or names ["TODOS"], and the
    type filter, unless the list is empty. *)
Definition pasa_filtros (departamentos tipos_ocds : list string)
    (release : pyval) : bool :=
  (if match departamentos with [] => false | _ :: _ => true end
      && negb (existsb (String.eqb "TODOS") (upper <$> departamentos))
   then match py_upper (_extraer_ubicacion release) with
        | Some u => existsb (λ d, contiene (upper d) u) departamentos
        | None => false
        end
   else true)
  && negb (match tipos_ocds with [] => false | _ :: _ => true end
           && negb (existsb (λ t, es_texto t (_extraer_tipo release)) tipos_ocds)).

(** The release was in a page that the server answered with status 200. *)
Definition servido (servidor : Z → Z → respuesta) (page_size : Z)
    (release : pyval) : Prop :=
  ∃ page data releases_page pagina,
    servidor page page_size = Respuesta 200 (Some data)
    ∧ py_get data "releases" (VList []) = Some releases_page
    ∧ py_iter releases_page = Some pagina
    ∧ release ∈ pagina.

(** An answer after which the loop of [_obtener_desde_api] asks for no
    further page, whatever the page holds: anything but a 200 whose body
    links to a next page. *)
Definition ultima_pagina (r : respuesta) : bool :=
  match r with
  | ErrorDeRed => true
  | Respuesta status_code json =>
      if status_code =? 200 then
        match data ← json;
              links ← py_get data "links" (VDict ∅);
              py_get links "next" VNone with
        | Some next => negb (truthy next)
        | None => true
        end
      else true
  end.

(** The keys of the dict that [ProcesoSEACE.to_dict()] gives. *)
Definition campos_proceso : list string :=
  [ "nomenclatura"; "entidad"; "descripcion"; "tipo_objeto";
    "tipo_procedimiento"; "departamento"; "valor_referencial"; "moneda";
    "estado"; "fecha_publicacion"; "fecha_registro_participantes";
    "fecha_consultas"; "fecha_observaciones"; "fecha_integracion_bases";
    "fecha_presentacion_propuestas"; "fecha_buena_pro"; "url_ficha" ].


(** Whether [filtrar_por_monto] keeps the tender at [p] for the floor [F]. *)
Definition alcanza_monto `{Builtins} (F : Qc) (h : heap) (p : loc) : bool :=
  match monto h p with
  | Some x => bool_decide (F ≤ x)%Qc
  | None => false
  end.

(** No slash in [s]: the text is not a [DD/MM/YYYY] date. *)
Definition sin_barra (s : string) : bool :=
  forallb (λ c, negb (Ascii.eqb c "/")) (list_ascii_of_string s).

(** * Inputs of the examples *)

(** ISO dates of the form [YYYY-MM-DD], whatever follows the day. *)
Definition fromisoformat_fecha (s : string) : option fecha :=
  if String.eqb (substring 4 1 s) "-" && String.eqb (substring 7 1 s) "-"
  then y ← py_int (substring 0 4 s);
       m ← py_int (substring 5 2 s);
       d ← py_int (substring 8 2 s);
       datetime_ymd y m d
  else None.

(** Builtins for the examples below, none of which converts between text and
    numbers. *)
Definition builtins_ejemplo : Builtins := {|
  float_de_str := λ _, None;
  fromisoformat := fromisoformat_fecha;
  str_de := λ _, "";
  sqlite_texto := λ _, "";
  sqlite_numero := λ _, None
|}.

(** Three instants of one day. *)
Definition t_manana : datetime := DateTime (Fecha 2026 1 15) 8 0 0 0.
Definition t_mediodia : datetime := DateTime (Fecha 2026 1 15) 12 0 0 250000.
Definition t_tarde : datetime := DateTime (Fecha 2026 1 15) 20 0 0 0.

(** Two tenders with one identifier, and a third one. *)
Definition tender_A : dict :=
  {[ "nomenclatura" := VStr "X"; "entidad" := VStr "MUNICIPALIDAD A";
     "valor_referencial" := VNum (Qc_of_Z 100) ]}.

Definition tender_B : dict :=
  {[ "nomenclatura" := VStr "X"; "valor_referencial" := VNum (Qc_of_Z 200) ]}.

Definition tender_Y : dict :=
  {[ "nomenclatura" := VStr "Y"; "valor_referencial" := VNum (Qc_of_Z 300) ]}.

(** The row the store builds from [tender_A] written at [t_manana]. *)
Definition fila_A : dict :=
  default ∅ (fila_de (H := builtins_ejemplo) tender_A t_manana).

(** A tender due in two days, in a list of its own. *)
Definition heap_urgente : heap := λ _,
  {[ "nomenclatura" := VStr "AS-1";
     "fecha_presentacion_propuestas" := VStr "17/01/2026" ]}.

(** Three tenders, the third a duplicate of the first. *)
Definition heap_ejemplo : heap := λ p,
  match p with
  | O => {[ "nomenclatura" := VStr "AS-1";
            "valor_referencial" := VNum (Qc_of_Z 50000);
            "fecha_presentacion_propuestas" := VStr "17/01/2026 10:00" ]}
  | 1%nat => {[ "nomenclatura" := VStr "AS-2";
                "valor_referencial" := VNum (Qc_of_Z 10000);
                "fecha_presentacion_propuestas" := VStr "25/01/2026" ]}
  | _ => {[ "nomenclatura" := VStr "AS-1";
            "valor_referencial" := VNum (Qc_of_Z 55000) ]}
  end.

(** Their amounts. *)
Definition montos_ejemplo (p : loc) : Qc :=
  match p with
  | O => Qc_of_Z 50000
  | 1%nat => Qc_of_Z 10000
  | _ => Qc_of_Z 55000
  end.

(** Rows as the store receives them, published on two consecutive days. *)
Definition publicado_31_enero : dict :=
  {[ "nomenclatura" := VStr "LP-1"; "fecha_publicacion" := VStr "31/01/2026" ]}.

Definition publicado_1_febrero : dict :=
  {[ "nomenclatura" := VStr "LP-2"; "fecha_publicacion" := VStr "01/02/2026" ]}.

(** A release with an identifier and a publication date. *)
Definition release_de (id inicio : string) : pyval :=
  VDict {[ "ocid" := VStr id;
           "tender" := VDict {[ "id" := VStr id;
                                "tenderPeriod" := VDict {[ "startDate" := VStr inicio ]} ]} ]}.

(** A server whose first page holds one tender and whose second request
    fails. *)
Definition servidor_cae_en_pagina_2 : Z → Z → respuesta := λ page _,
  if page =? 1
  then Respuesta 200 (Some (VDict
         {[ "releases" := VList [release_de "LP-1" "2026-01-31T00:00:00Z"];
            "links" := VDict {[ "next" := VStr "page=2" ]} ]}))
  else ErrorDeRed.

(** A release with no field at all, and one whose identifier is blank. *)
Definition release_vacio : pyval := VDict ∅.

Definition release_en_blanco : pyval :=
  VDict {[ "tender" := VDict {[ "id" := VStr "   " ]} ]}.

(** A store of two tenders written in one batch at [t_manana]. *)
Definition almacen_ejemplo : db :=
  snd (guardar_procesos_batch (H := builtins_ejemplo)
         [tender_A; tender_Y] t_manana db_inicial).

(** A row for a public work, and a store that holds it alone. *)
Definition fila_obra : dict :=
  {[ "id" := VNum (Qc_of_Z 1); "nomenclatura" := VStr "LP-3";
     "tipo_objeto" := VStr "Obra" ]}.

Definition almacen_obras : db := DB [fila_obra] 1 (sync db_inicial).


(** The rows a query returns from [almacen_ejemplo], as the dicts the
    caller receives. *)
Definition filas_ejemplo : list dict :=
  default [] (buscar (H := builtins_ejemplo) almacen_ejemplo t_tarde
                None None None None 50 false 12).

Definition heap_filas : heap := λ p, default ∅ (filas_ejemplo !! p).

(** A tender whose deadline is an ISO date, as the OCDS feed writes it. *)
Definition heap_iso : heap := λ _,
  {[ "nomenclatura" := VStr "LP-1";
     "fecha_presentacion_propuestas" := VStr "2026-01-20T00:00:00Z" ]}.

(** A release that names its category. *)
Definition release_bienes : pyval :=
  VDict {[ "ocid" := VStr "LP-9";
           "tender" := VDict {[ "id" := VStr "LP-9";
                                "mainProcurementCategory" := VStr "goods" ]} ]}.

(** * Properties of the business filters *)

Ltac m_unfold :=
  unfold mbind, mret, M_bind, M_ret, dict_get, dict_setitem, o_raise; simpl.

(** ** filtrar_por_monto *)

Section ExportsSpec.

Context `{Builtins}.

Lemma filtrar_por_monto_cons h p resto F x :
  monto h p = Some x →
  filtrar_por_monto (p :: resto) F h =
    match filtrar_por_monto resto F h with
    | (Some r, h') => (Some (if bool_decide (F ≤ x)%Qc then p :: r else r), h')
    | (None, h') => (None, h')
    end.
Proof.
  intros Hx. simpl. m_unfold. unfold monto in Hx. rewrite Hx. reflexivity.
Qed.

Lemma filtrar_por_monto_heap l F h :
  snd (filtrar_por_monto l F h) = h.
Proof.
  induction l as [|p l IH]; [reflexivity|].
  simpl. m_unfold.
  destruct (py_float _); [|reflexivity].
  destruct (filtrar_por_monto l F h) as [[r|] h'] eqn:E;
    simpl in IH; subst; reflexivity.
Qed.

(** C4. For a list of tenders whose amounts [amt] are what the filter reads
    (an absent, [None], zero or empty amount reads as 0), [filtrar_por_monto]
    returns exactly the tenders with [monto_minimo <= amt], in input order,
    and leaves every dict as it was; a tender whose amount equals the floor
    is kept. *)
Theorem filtrar_por_monto_correcto (h : heap) (l : list loc) (F : Qc) (amt : loc → Qc) :
  (∀ p, p ∈ l → monto h p = Some (amt p)) →
  filtrar_por_monto l F h = (Some (filter (λ p, (F ≤ amt p)%Qc) l), h)
  ∧ (∀ p, p ∈ l → amt p = F → p ∈ filter (λ p, (F ≤ amt p)%Qc) l).
Proof.
  intros Hamt. split.
  - induction l as [|p l IH]; [reflexivity|].
    rewrite (filtrar_por_monto_cons h p l F (amt p)) by (apply Hamt; left).
    rewrite IH by (intros q Hq; apply Hamt; by right).
    rewrite filter_cons. by case_bool_decide; case_decide.
  - intros p Hp Heq. apply list_elem_of_filter. split; [|done].
    rewrite Heq. apply Qcle_refl.
Qed.

End ExportsSpec.

(** [filtrar_por_monto_correcto] on three tenders and a floor of 50000. *)
Lemma filtrar_por_monto_correcto_ejemplo :
  filtrar_por_monto (H := builtins_ejemplo) [0; 1; 2]%nat (Qc_of_Z 50000) heap_ejemplo
  = (Some (filter (λ p, (Qc_of_Z 50000 ≤ montos_ejemplo p)%Qc) [0; 1; 2]%nat),
     heap_ejemplo)
  ∧ (∀ p, p ∈ [0; 1; 2]%nat → montos_ejemplo p = Qc_of_Z 50000 →
       p ∈ filter (λ p, (Qc_of_Z 50000 ≤ montos_ejemplo p)%Qc) [0; 1; 2]%nat).
Proof.
  apply (filtrar_por_monto_correcto (H := builtins_ejemplo)).
  intros p Hp.
  repeat (apply elem_of_cons in Hp as [->|Hp]); [by vm_compute..|].
  by apply elem_of_nil in Hp.
Defined.

Lemma monto_num `{Builtins} (h : heap) p q :
  h p !! "valor_referencial" = Some (VNum q) → monto h p = Some q.
Proof.
  intros Hq. unfold monto, get, py_or. rewrite Hq. simpl.
  by case_bool_decide; subst.
Qed.

Lemma monto_ausente `{Builtins} (h : heap) p :
  h p !! "valor_referencial" = None ∨ h p !! "valor_referencial" = Some VNone →
  monto h p = Some (Qc_of_Z 0).
Proof. intros [Hq|Hq]; unfold monto, get, py_or; by rewrite Hq. Qed.

(** ** filtrar_urgentes *)

Section Urgentes.

Variable hoy : fecha.
Variable dias_limite : Z.

Lemma marcado_fecha (h : heap) p :
  marcado hoy dias_limite h p !! "fecha_presentacion_propuestas" =
  h p !! "fecha_presentacion_propuestas".
Proof.
  unfold marcado. destruct (dias_de hoy h p) as [d|]; [|done].
  destruct (_ && _); [|done]. by rewrite lookup_insert_ne.
Qed.

Lemma marcado_no_urgente (h : heap) p :
  es_urgente hoy dias_limite h p = false → marcado hoy dias_limite h p = h p.
Proof.
  unfold es_urgente, marcado. destruct (dias_de hoy h p) as [d|]; [|done].
  by intros ->.
Qed.

Lemma dias_de_marca (h : heap) p q :
  dias_de hoy (<[p := marcado hoy dias_limite h p]> h) q = dias_de hoy h q.
Proof.
  unfold dias_de, get. destruct (decide (p = q)) as [->|Hne].
  - by rewrite fn_lookup_insert, marcado_fecha.
  - by rewrite fn_lookup_insert_ne.
Qed.

Lemma es_urgente_marca (h : heap) p q :
  es_urgente hoy dias_limite (<[p := marcado hoy dias_limite h p]> h) q = es_urgente hoy dias_limite h q.
Proof. unfold es_urgente. by rewrite dias_de_marca. Qed.

Lemma marcado_marca (h : heap) p q :
  marcado hoy dias_limite (<[p := marcado hoy dias_limite h p]> h) q =
  if decide (p = q) then marcado hoy dias_limite h p else marcado hoy dias_limite h q.
Proof.
  unfold marcado at 1. rewrite dias_de_marca.
  destruct (decide (p = q)) as [->|Hne].
  - rewrite fn_lookup_insert. unfold marcado.
    destruct (dias_de hoy h q) as [d|]; [|done].
    destruct (_ && _); [|done]. by rewrite insert_insert_eq.
  - rewrite fn_lookup_insert_ne by done. reflexivity.
Qed.

Lemma filtrar_urgentes_desde_cons p l urgentes (h : heap) :
  filtrar_urgentes_desde hoy (p :: l) dias_limite urgentes h =
  if es_urgente hoy dias_limite h p
  then filtrar_urgentes_desde hoy l dias_limite (urgentes ++ [p])
         (<[p := marcado hoy dias_limite h p]> h)
  else filtrar_urgentes_desde hoy l dias_limite urgentes h.
Proof.
  simpl. m_unfold. unfold es_urgente, marcado. fold (dias_de hoy h p).
  destruct (dias_de hoy h p) as [d|]; [|done]. by destruct (_ && _).
Qed.

Lemma filtrar_urgentes_desde_spec (l : list loc) : ∀ (urgentes : list loc) (h : heap),
  ∃ h', filtrar_urgentes_desde hoy l dias_limite urgentes h =
          (Some (urgentes ++ filter (λ p, es_urgente hoy dias_limite h p) l)%list, h')
        ∧ ∀ q, h' q = if decide (q ∈ l) then marcado hoy dias_limite h q else h q.
Proof.
  induction l as [|p l IH]; intros urgentes h.
  - exists h. simpl. rewrite app_nil_r. split; [reflexivity|].
    intros q. destruct (decide (q ∈ [])) as [Hq|Hq]; [by apply elem_of_nil in Hq|done].
  - rewrite filtrar_urgentes_desde_cons, filter_cons.
    destruct (es_urgente hoy dias_limite h p) eqn:Hu.
    + destruct (IH (urgentes ++ [p])%list (<[p := marcado hoy dias_limite h p]> h))
        as (h' & Hrun & Hh').
      exists h'. rewrite Hrun. split.
      * rewrite <- app_assoc. simpl.
        do 4 f_equal. apply list_filter_iff. intros q.
        by rewrite es_urgente_marca.
      * intros q. rewrite Hh', marcado_marca.
        destruct (decide (p = q)) as [->|Hne].
        -- rewrite fn_lookup_insert.
           rewrite (decide_True (P := q ∈ q :: l)) by left.
           by case_decide.
        -- rewrite fn_lookup_insert_ne by done.
           destruct (decide (q ∈ l)) as [Hq|Hq].
           ++ by rewrite decide_True by (by right).
           ++ rewrite decide_False; [done|].
              intros [->|?]%elem_of_cons; done.
    + destruct (IH urgentes h) as (h' & Hrun & Hh').
      exists h'. rewrite Hrun. split.
      * done.
      * intros q. rewrite Hh'.
        destruct (decide (q ∈ l)) as [Hq|Hq].
        -- by rewrite decide_True by (by right).
        -- destruct (decide (q = p)) as [->|Hne].
           ++ rewrite decide_True by left. by rewrite marcado_no_urgente.
           ++ rewrite decide_False; [done|].
              intros [->|?]%elem_of_cons; done.
Qed.

End Urgentes.

(** *** What [calcular_dias_restantes] returns *)

Lemma split_primera_parte (s t : string) :
  sin_espacio s = true → hd "" (split " " (s ++ " " ++ t)) = s.
Proof.
  unfold sin_espacio. induction s as [|c s IH]; simpl; [done|].
  intros [Hc Hs]%andb_prop. apply negb_true_iff in Hc. rewrite Hc.
  specialize (IH Hs). destruct (split " " _); simpl in *; by subst.
Qed.

Lemma analizar_fecha_sin_hora (s t : string) :
  sin_espacio s = true → analizar_fecha (s ++ " " ++ t) = analizar_fecha s.
Proof.
  intros Hs. unfold analizar_fecha. rewrite split_primera_parte by done.
  replace (hd "" (split " " s)) with s; [done|].
  clear t. unfold sin_espacio in Hs. induction s as [|c s IH]; simpl in *; [done|].
  apply andb_prop in Hs as [Hc Hs]. apply negb_true_iff in Hc. rewrite Hc.
  specialize (IH Hs). destruct (split " " s); simpl in *; by subst.
Qed.

Lemma analizar_fecha_vacia : analizar_fecha "" = None.
Proof. reflexivity. Qed.

Lemma calcular_dias_restantes_Some hoy v d :
  calcular_dias_restantes hoy v = Some d ↔
  ∃ s f, v = VStr s ∧ analizar_fecha s = Some f
         ∧ d = toordinal f - toordinal hoy.
Proof.
  unfold calcular_dias_restantes. split.
  - destruct (truthy v); simpl; [|done].
    destruct v as [| | |s| |]; try done.
    destruct (analizar_fecha s) as [f|] eqn:Hf; simpl; [|done].
    intros [= <-]. by exists s, f.
  - intros (s & f & -> & Hf & ->). simpl.
    destruct (String.eqb_spec s "") as [->|_]; simpl; [done|].
    by rewrite Hf.
Qed.

Lemma es_urgente_iff hoy lim (h : heap) p :
  es_urgente hoy lim h p = true ↔
  ∃ s f, h p !! "fecha_presentacion_propuestas" = Some (VStr s)
         ∧ analizar_fecha s = Some f
         ∧ 0 ≤ toordinal f - toordinal hoy ≤ lim.
Proof.
  unfold es_urgente, dias_de. split.
  - destruct (calcular_dias_restantes _ _) as [d|] eqn:Hd; [|done].
    apply calcular_dias_restantes_Some in Hd as (s & f & Hv & Hf & ->).
    intros [H0 H1]%andb_prop. exists s, f. split_and!; [|done|lia..].
    unfold get in Hv. destruct (h p !! _) as [v|]; simpl in Hv; by subst.
  - intros (s & f & Hv & Hf & Hr).
    assert (calcular_dias_restantes hoy
              (get (h p) "fecha_presentacion_propuestas" VNone)
            = Some (toordinal f - toordinal hoy)) as ->.
    { apply calcular_dias_restantes_Some. exists s, f.
      unfold get. by rewrite Hv. }
    apply andb_true_intro. split; lia.
Qed.

(** C3. [filtrar_urgentes] returns, in input order, exactly the tenders whose
    [fecha_presentacion_propuestas] is a text that parses to a date [f] with
    [0 <= f - hoy <= dias_limite] in calendar days.  Only the part before the
    first space is read; a deadline [dias_limite] days out is kept, one day
    beyond is dropped, and an absent, [None] or unparseable deadline is
    never kept. *)
Theorem filtrar_urgentes_correcto (hoy : fecha) (dias_limite : Z)
    (h : heap) (l : list loc) :
  ∃ out h',
    filtrar_urgentes hoy l dias_limite h = (Some out, h')
    ∧ out = filter (λ p, es_urgente hoy dias_limite h p) l
    ∧ (∀ p, p ∈ out ↔
         p ∈ l ∧ ∃ s f,
           h p !! "fecha_presentacion_propuestas" = Some (VStr s)
           ∧ analizar_fecha s = Some f
           ∧ 0 ≤ toordinal f - toordinal hoy ≤ dias_limite)
    ∧ (∀ s t, sin_espacio s = true →
         analizar_fecha (s ++ " " ++ t) = analizar_fecha s)
    ∧ (∀ p s f, p ∈ l →
         h p !! "fecha_presentacion_propuestas" = Some (VStr s) →
         analizar_fecha s = Some f → 0 ≤ dias_limite →
         (toordinal f = toordinal hoy + dias_limite → p ∈ out)
         ∧ (toordinal f = toordinal hoy + dias_limite + 1 → p ∉ out))
    ∧ (∀ p, h p !! "fecha_presentacion_propuestas" = None
            ∨ h p !! "fecha_presentacion_propuestas" = Some VNone
            ∨ (∃ s, h p !! "fecha_presentacion_propuestas" = Some (VStr s)
                    ∧ analizar_fecha s = None) →
            p ∉ out).
Proof.
  destruct (filtrar_urgentes_desde_spec hoy dias_limite l [] h)
    as (h' & Hrun & _).
  exists (filter (λ p, es_urgente hoy dias_limite h p) l), h'.
  assert (Hiff : ∀ p, p ∈ filter (λ p, es_urgente hoy dias_limite h p) l ↔
         p ∈ l ∧ ∃ s f,
           h p !! "fecha_presentacion_propuestas" = Some (VStr s)
           ∧ analizar_fecha s = Some f
           ∧ 0 ≤ toordinal f - toordinal hoy ≤ dias_limite).
  { intros p. rewrite list_elem_of_filter, Is_true_true, es_urgente_iff.
    tauto. }
  split_and!; [done|done|done|apply analizar_fecha_sin_hora|..].
  - intros p s f Hp Hv Hf Hlim. split; intros Hord.
    + apply Hiff. split; [done|]. exists s, f. split_and!; [done|done|lia..].
    + intros (_ & s' & f' & Hv' & Hf' & Hr)%Hiff.
      rewrite Hv in Hv'. injection Hv' as <-. rewrite Hf in Hf'.
      injection Hf' as <-. lia.
  - intros p Hp (_ & s' & f' & Hv' & Hf' & Hr)%Hiff.
    destruct Hp as [Hp|[Hp|(s & Hp & Hs)]]; rewrite Hp in Hv'; try done.
    injection Hv' as <-. by rewrite Hs in Hf'.
Qed.

(** ** deduplicar_procesos *)

Lemma deduplicar_desde_cons (h : heap) p resto vistos unicos s :
  h p !! "nomenclatura" = Some (VStr s) → s ≠ "" →
  deduplicar_desde (p :: resto) vistos unicos h =
  if decide (KStr s ∈ vistos) then deduplicar_desde resto vistos unicos h
  else deduplicar_desde resto ({[KStr s]} ∪ vistos) (unicos ++ [p]) h.
Proof.
  intros Hs Hne. simpl. m_unfold. unfold get. rewrite Hs. simpl.
  destruct (String.eqb_spec s "") as [->|_]; [done|]. simpl.
  by case_decide.
Qed.

Lemma deduplicar_desde_primeras (h : heap) (l : list loc) :
  Forall (tiene_identificador h) l →
  ∀ vistos unicos,
    deduplicar_desde l vistos unicos h =
    (Some (unicos ++ filter (λ q, KStr (identificador h q) ∉ vistos)
                       (primeras_ocurrencias h l))%list, h).
Proof.
  induction 1 as [|p l (s & Hs & Hne) _ IH]; intros vistos unicos.
  - simpl. by rewrite app_nil_r.
  - rewrite (deduplicar_desde_cons h p l vistos unicos s) by done.
    assert (Hid : identificador h p = s) by (unfold identificador; by rewrite Hs).
    simpl. rewrite filter_cons, list_filter_filter, Hid.
    destruct (decide (KStr s ∈ vistos)) as [Hin|Hnin].
    + rewrite IH, decide_False by (intros ?; done).
      do 3 f_equal. apply list_filter_iff. intros q. split; [|tauto].
      intros Hq. split; [done|]. intros Heq. by rewrite Heq in Hq.
    + rewrite IH, decide_True by done. rewrite <- app_assoc. simpl.
      do 4 f_equal. apply list_filter_iff. intros q.
      rewrite not_elem_of_union, not_elem_of_singleton. split.
      * intros [Hq ?]. split; [done|]. intros Heq. by rewrite Heq in Hq.
      * intros [? Hq]. split; [|done]. intros [= Heq]. done.
Qed.

(** C2. On tenders (records with a non-empty identifier),
    [deduplicar_procesos] returns the first occurrence of each identifier in
    input order and drops every later record with an identifier already
    seen, without touching any dict; for [T1(id=a); T2(id=b); T3(id=a)] the
    result is [T1; T2]. *)
Theorem deduplicar_procesos_primeras (h : heap) (l : list loc) :
  Forall (tiene_identificador h) l →
  deduplicar_procesos l h = (Some (primeras_ocurrencias h l), h)
  ∧ (∀ T1 T2 T3 a b, l = [T1; T2; T3] → a ≠ b →
       identificador h T1 = a → identificador h T2 = b →
       identificador h T3 = a →
       deduplicar_procesos l h = (Some [T1; T2], h)).
Proof.
  intros Hl.
  assert (Hrun : deduplicar_procesos l h = (Some (primeras_ocurrencias h l), h)).
  { unfold deduplicar_procesos. rewrite deduplicar_desde_primeras by done.
    simpl. do 2 f_equal. induction (primeras_ocurrencias h l) as [|q r IH];
      [done|]. rewrite filter_cons, decide_True by set_solver. by f_equal. }
  split; [done|].
  intros T1 T2 T3 a b -> Hab H1 H2 H3. rewrite Hrun. simpl.
  rewrite !filter_cons, !filter_nil, H1, H2, H3.
  rewrite (decide_True (P := b ≠ a)) by done.
  rewrite (decide_True (P := a ≠ b)) by done.
  rewrite filter_cons, filter_nil, H3.
  rewrite (decide_False (P := a ≠ a)) by (intros ?; done). done.
Qed.

(** [deduplicar_procesos_primeras] on three tenders, the third a duplicate. *)
Lemma deduplicar_procesos_primeras_ejemplo :
  deduplicar_procesos [0; 1; 2]%nat heap_ejemplo =
    (Some (primeras_ocurrencias heap_ejemplo [0; 1; 2]%nat), heap_ejemplo)
  ∧ (∀ T1 T2 T3 a b, [0; 1; 2]%nat = [T1; T2; T3] → a ≠ b →
       identificador heap_ejemplo T1 = a → identificador heap_ejemplo T2 = b →
       identificador heap_ejemplo T3 = a →
       deduplicar_procesos [0; 1; 2]%nat heap_ejemplo = (Some [T1; T2], heap_ejemplo)).
Proof.
  apply deduplicar_procesos_primeras.
  repeat constructor.
  - exists "AS-1". split; [reflexivity|discriminate].
  - exists "AS-2". split; [reflexivity|discriminate].
  - exists "AS-1". split; [reflexivity|discriminate].
Defined.

Lemma primeras_ocurrencias_sublist (h : heap) l :
  primeras_ocurrencias h l `sublist_of` l.
Proof.
  induction l as [|p l IH]; simpl; [done|].
  apply sublist_skip. etrans; [apply sublist_filter|done].
Qed.

Lemma primeras_ocurrencias_NoDup (h : heap) l :
  NoDup (identificador h <$> primeras_ocurrencias h l).
Proof.
  induction l as [|p l IH]; simpl; [constructor|].
  constructor.
  - intros (q & Hq & [Hne _]%list_elem_of_filter)%list_elem_of_fmap. done.
  - eapply sublist_NoDup; [exact IH|]. apply fmap_sublist, sublist_filter.
Qed.

Lemma primeras_ocurrencias_cubre (h : heap) l p :
  p ∈ l → ∃ q, q ∈ primeras_ocurrencias h l ∧ identificador h q = identificador h p.
Proof.
  induction l as [|p0 l IH]; simpl; [by intros ?%elem_of_nil|].
  intros [->|Hp]%elem_of_cons.
  - exists p0. split; [left|done].
  - destruct (IH Hp) as (q & Hq & Heq).
    destruct (decide (identificador h q = identificador h p0)) as [Hq0|Hq0].
    + exists p0. split; [left|congruence].
    + exists q. split; [|done]. right. by apply list_elem_of_filter.
Qed.

Lemma deduplicar_desde_heap l : ∀ vistos unicos (h : heap),
  snd (deduplicar_desde l vistos unicos h) = h.
Proof.
  induction l as [|p l IH]; intros vistos unicos h; [done|].
  simpl. m_unfold. destruct (truthy _); [|apply IH].
  destruct (py_hash_key _); [|done]. case_decide; apply IH.
Qed.

(** Records kept by the loop come from the input and have a true
    [nomenclatura]; the loop raises only on an unhashable one. *)
Lemma deduplicar_desde_inv l : ∀ vistos unicos (h : heap),
  match fst (deduplicar_desde l vistos unicos h) with
  | Some out =>
      ∀ p, p ∈ out →
        p ∈ unicos ∨ (p ∈ l ∧ truthy (get (h p) "nomenclatura" (VStr "")) = true)
  | None =>
      ∃ p, p ∈ l ∧ truthy (get (h p) "nomenclatura" (VStr "")) = true
           ∧ py_hash_key (get (h p) "nomenclatura" (VStr "")) = None
  end.
Proof.
  induction l as [|p l IH]; intros vistos unicos h.
  - simpl. by left.
  - simpl. m_unfold.
    destruct (truthy (get (h p) "nomenclatura" (VStr ""))) eqn:Ht.
    + destruct (py_hash_key (get (h p) "nomenclatura" (VStr ""))) as [k|] eqn:Hk.
      * case_decide.
        -- specialize (IH vistos unicos h).
           destruct (fst (deduplicar_desde l vistos unicos h)) as [out|].
           ++ intros q [?|[? ?]]%IH; [by left|right]. split; [by right|done].
           ++ destruct IH as (q & ? & ? & ?). exists q. split; [by right|done].
        -- specialize (IH ({[k]} ∪ vistos) (unicos ++ [p])%list h).
           destruct (fst (deduplicar_desde l _ _ h)) as [out|].
           ++ intros q [[?| ->%list_elem_of_singleton]%elem_of_app|[? ?]]%IH.
              ** by left.
              ** right. split; [left|done].
              ** right. split; [by right|done].
           ++ destruct IH as (q & ? & ? & ?). exists q. split; [by right|done].
      * simpl. exists p. split; [left|done].
    + specialize (IH vistos unicos h).
      destruct (fst (deduplicar_desde l vistos unicos h)) as [out|].
      * intros q [?|[? ?]]%IH; [by left|right]. split; [by right|done].
      * destruct IH as (q & ? & ? & ?). exists q. split; [by right|done].
Qed.

(** C10. Whatever the input, every record [deduplicar_procesos] returns has
    a [nomenclatura] that is present and not empty; a record whose
    [nomenclatura] is missing or [""] is never returned, even when it is the
    only record.  The call raises only when some record carries a list or
    dict as its [nomenclatura]. *)
Theorem deduplicar_procesos_descarta_vacios (h : heap) (l : list loc) :
  match fst (deduplicar_procesos l h) with
  | Some out =>
      (∀ p, p ∈ out →
         p ∈ l ∧ ∃ v, h p !! "nomenclatura" = Some v ∧ v ≠ VStr ""
                      ∧ truthy v = true)
      ∧ (∀ p, h p !! "nomenclatura" = None
              ∨ h p !! "nomenclatura" = Some (VStr "") → p ∉ out)
  | None =>
      ∃ p, p ∈ l ∧ py_hash_key (get (h p) "nomenclatura" (VStr "")) = None
  end
  ∧ fst (deduplicar_procesos [0%nat] (λ _, ∅)) = Some []
  ∧ fst (deduplicar_procesos [0%nat] (λ _, {["nomenclatura" := VStr ""]}))
    = Some [].
Proof.
  split; [|split; reflexivity].
  unfold deduplicar_procesos.
  pose proof (deduplicar_desde_inv l ∅ [] h) as Hinv.
  destruct (fst (deduplicar_desde l ∅ [] h)) as [out|].
  - assert (Hout : ∀ p, p ∈ out →
       p ∈ l ∧ ∃ v, h p !! "nomenclatura" = Some v ∧ v ≠ VStr ""
                    ∧ truthy v = true).
    { intros p [?%elem_of_nil|[Hp Ht]]%Hinv; [done|]. split; [done|].
      unfold get in Ht. destruct (h p !! "nomenclatura") as [v|]; [|done].
      exists v. split_and!; [done| |done]. by intros ->. }
    split; [done|].
    intros p Hp (_ & v & Hv & Hne & _)%Hout.
    destruct Hp as [Hp|Hp]; rewrite Hp in Hv; [done|]. by injection Hv as <-.
  - destruct Hinv as (p & ? & ? & ?). by exists p.
Qed.

(** ** Effects of the three filters on their input *)

Lemma deduplicar_procesos_heap l (h : heap) :
  snd (deduplicar_procesos l h) = h.
Proof. apply deduplicar_desde_heap. Qed.

Lemma filtrar_urgentes_heap hoy lim l (h : heap) :
  ∃ out h',
    filtrar_urgentes hoy l lim h = (Some out, h')
    ∧ (∀ p, p ∉ out → h' p = h p)
    ∧ (∀ p, p ∈ out →
         ∃ d, dias_de hoy h p = Some d
              ∧ h' p = <["dias_restantes" := VNum (Qc_of_Z d)]> (h p)).
Proof.
  destruct (filtrar_urgentes_desde_spec hoy lim l [] h) as (h' & Hrun & Hh').
  exists (filter (λ p, es_urgente hoy lim h p) l), h'.
  split; [done|]. split; intros p Hp; rewrite Hh'.
  - destruct (decide (p ∈ l)) as [Hl|Hl]; [|done].
    apply marcado_no_urgente. apply not_true_is_false. intros Hu.
    apply Hp, list_elem_of_filter. by rewrite Is_true_true.
  - apply list_elem_of_filter in Hp as [Hu%Is_true_true Hl].
    rewrite decide_True by done. unfold marcado. unfold es_urgente in Hu.
    destruct (dias_de hoy h p) as [d|]; [|done]. exists d. by rewrite Hu.
Qed.

(** C8, as stated, fails: [filtrar_urgentes] adds the key [dias_restantes]
    to the input record it returns. *)
Lemma filtrar_urgentes_modifica_entrada :
  let r := filtrar_urgentes (Fecha 2026 1 15) [0%nat] 3 heap_urgente in
  fst r = Some [0%nat]
  ∧ heap_urgente 0%nat !! "dias_restantes" = None
  ∧ snd r 0%nat !! "dias_restantes" = Some (VNum (Qc_of_Z 2))
  ∧ snd r 0%nat ≠ heap_urgente 0%nat.
Proof.
  split_and!; [by vm_compute..|].
  intros Heq. apply (f_equal (λ d : dict, d !! "dias_restantes")) in Heq.
  by vm_compute in Heq.
Qed.

(** C8, amended.  [deduplicar_procesos] and [filtrar_por_monto] leave every
    dict as it was.  [filtrar_urgentes] leaves the dicts it does not return
    as they were and, on each dict it returns, sets the key [dias_restantes]
    to the days left and nothing else. *)
Theorem filtros_efectos `{Builtins} :
  (∀ l (h : heap), snd (deduplicar_procesos l h) = h)
  ∧ (∀ l F (h : heap), snd (filtrar_por_monto l F h) = h)
  ∧ (∀ hoy lim l (h : heap), ∃ out h',
       filtrar_urgentes hoy l lim h = (Some out, h')
       ∧ (∀ p, p ∉ out → h' p = h p)
       ∧ (∀ p, p ∈ out →
            ∃ d, dias_de hoy h p = Some d
                 ∧ h' p = <["dias_restantes" := VNum (Qc_of_Z d)]> (h p))).
Proof.
  split_and!.
  - apply deduplicar_procesos_heap.
  - apply filtrar_por_monto_heap.
  - apply filtrar_urgentes_heap.
Qed.

(** * Dates and timestamps *)

(** ** Text order of timestamps *)

Lemma compare_app (x y s t : string) :
  String.length x = String.length y →
  String.compare (x ++ s) (y ++ t) = lex (String.compare x y) (String.compare s t).
Proof.
  revert y. induction x as [|a x IH]; intros [|b y] Hlen; try done.
  simpl in *. destruct (Ascii.compare a b); [|done..].
  apply IH. congruence.
Qed.

Lemma compare_mismo_caracter (c : ascii) (s t : string) :
  String.compare (String c s) (String c t) = String.compare s t.
Proof.
  simpl. replace (Ascii.compare c c) with Eq; [done|].
  symmetry. unfold Ascii.compare. apply N.compare_refl.
Qed.

Lemma compare_separador (c : ascii) (s t : string) :
  String.compare (String c "" ++ s) (String c "" ++ t) = String.compare s t.
Proof. apply compare_mismo_caracter. Qed.

Lemma length_append (s t : string) :
  String.length (s ++ t) = (String.length s + String.length t)%nat.
Proof. induction s as [|c s IH]; simpl; [done|]. by rewrite IH. Qed.

Lemma length_relleno w n : String.length (relleno w n) = w.
Proof.
  revert n. induction w as [|w IH]; intros n; [done|].
  simpl. rewrite length_append, IH. simpl. lia.
Qed.

Lemma compare_cifra a b :
  0 ≤ a ≤ 9 → 0 ≤ b ≤ 9 → Ascii.compare (cifra a) (cifra b) = (a ?= b).
Proof.
  intros Ha Hb.
  assert (a = 0 ∨ a = 1 ∨ a = 2 ∨ a = 3 ∨ a = 4 ∨ a = 5 ∨ a = 6 ∨ a = 7
          ∨ a = 8 ∨ a = 9) as Ha' by lia.
  assert (b = 0 ∨ b = 1 ∨ b = 2 ∨ b = 3 ∨ b = 4 ∨ b = 5 ∨ b = 6 ∨ b = 7
          ∨ b = 8 ∨ b = 9) as Hb' by lia.
  clear Ha Hb.
  repeat (destruct Ha' as [->|Ha']); try subst a;
    repeat (destruct Hb' as [->|Hb']); try subst b; reflexivity.
Qed.

Lemma compare_lex_decimal a b :
  lex (a / 10 ?= b / 10) (a mod 10 ?= b mod 10) = (a ?= b).
Proof.
  unfold lex.
  destruct (Z.compare_spec (a / 10) (b / 10)) as [Hq|Hq|Hq].
  - destruct (Z.compare_spec (a mod 10) (b mod 10)) as [Hr|Hr|Hr]; symmetry.
    + apply Z.compare_eq_iff. Z.div_mod_to_equations. lia.
    + apply Z.compare_lt_iff. Z.div_mod_to_equations. lia.
    + apply Z.compare_gt_iff. Z.div_mod_to_equations. lia.
  - symmetry. apply Z.compare_lt_iff. Z.div_mod_to_equations. lia.
  - symmetry. apply Z.compare_gt_iff. Z.div_mod_to_equations. lia.
Qed.

Lemma compare_un_caracter (c d : ascii) :
  String.compare (String c "") (String d "") = Ascii.compare c d.
Proof. simpl. by destruct (Ascii.compare c d). Qed.

Lemma compare_relleno w : ∀ a b,
  0 ≤ a < 10 ^ Z.of_nat w → 0 ≤ b < 10 ^ Z.of_nat w →
  String.compare (relleno w a) (relleno w b) = (a ?= b).
Proof.
  induction w as [|w IH]; intros a b Ha Hb.
  - change (10 ^ Z.of_nat 0) with 1 in *.
    assert (a = 0) as -> by lia. by assert (b = 0) as -> by lia.
  - rewrite Nat2Z.inj_succ, Z.pow_succ_r in Ha, Hb by lia.
    change (relleno (S w) a)
      with (relleno w (a / 10) ++ String (cifra (a mod 10)) "").
    change (relleno (S w) b)
      with (relleno w (b / 10) ++ String (cifra (b mod 10)) "").
    rewrite compare_app by (by rewrite !length_relleno).
    rewrite IH by (Z.div_mod_to_equations; lia).
    rewrite compare_un_caracter.
    rewrite compare_cifra by (Z.div_mod_to_equations; lia).
    apply compare_lex_decimal.
Qed.

Lemma compare_relleno_app w a b s t :
  0 ≤ a < 10 ^ Z.of_nat w → 0 ≤ b < 10 ^ Z.of_nat w →
  String.compare (relleno w a ++ s) (relleno w b ++ t) =
  lex (a ?= b) (String.compare s t).
Proof.
  intros Ha Hb. rewrite compare_app by (by rewrite !length_relleno).
  by rewrite compare_relleno.
Qed.

(** The optional fraction of [isoformat] sorts like the microseconds. *)
Lemma compare_fraccion a b :
  0 ≤ a < 1000000 → 0 ≤ b < 1000000 →
  String.compare (if a =? 0 then "" else "." ++ relleno 6 a)
                 (if b =? 0 then "" else "." ++ relleno 6 b) = (a ?= b).
Proof.
  intros Ha Hb.
  destruct (Z.eqb_spec a 0) as [->|Ha0], (Z.eqb_spec b 0) as [->|Hb0].
  - done.
  - transitivity Lt; [reflexivity|]. symmetry. apply Z.compare_lt_iff. lia.
  - transitivity Gt; [reflexivity|]. symmetry. apply Z.compare_gt_iff. lia.
  - change ("." ++ relleno 6 a) with (String "." (relleno 6 a)).
    change ("." ++ relleno 6 b) with (String "." (relleno 6 b)).
    rewrite compare_mismo_caracter. by apply (compare_relleno 6).
Qed.

(** ** Calendar arithmetic *)

Lemma fecha_valida_rango f :
  fecha_valida f = true →
  1 ≤ anio f ≤ 9999 ∧ 1 ≤ mes f ≤ 12
  ∧ 1 ≤ dia f ≤ dias_del_mes (anio f) (mes f).
Proof. unfold fecha_valida. intros Hv. repeat (apply andb_prop in Hv as [Hv ?]). lia. Qed.

Lemma dias_del_mes_rango y m : 28 ≤ dias_del_mes y m ≤ 31.
Proof.
  unfold dias_del_mes. destruct (m =? 2); [destruct (es_bisiesto y); lia|].
  destruct (_ || _); lia.
Qed.

Lemma doce_meses m :
  1 ≤ m ≤ 12 →
  m = 1 ∨ m = 2 ∨ m = 3 ∨ m = 4 ∨ m = 5 ∨ m = 6 ∨ m = 7 ∨ m = 8 ∨ m = 9
  ∨ m = 10 ∨ m = 11 ∨ m = 12.
Proof. lia. Qed.

Lemma dias_antes_del_mes_sig y m :
  1 ≤ m → dias_antes_del_mes y (m + 1) = dias_antes_del_mes y m + dias_del_mes y m.
Proof.
  intros Hm. unfold dias_antes_del_mes.
  replace (Z.to_nat (m + 1 - 1)) with (S (Z.to_nat (m - 1))) by lia.
  cbn [dias_antes_del_mes_aux]. do 2 f_equal. lia.
Qed.

Lemma dias_antes_del_mes_no_neg y m : 0 ≤ dias_antes_del_mes y m.
Proof.
  unfold dias_antes_del_mes. induction (Z.to_nat (m - 1)) as [|k IH]; [done|].
  cbn [dias_antes_del_mes_aux].
  pose proof (dias_del_mes_rango y (Z.of_nat (S k))). lia.
Qed.

Lemma dias_antes_del_mes_mono y m1 m2 :
  1 ≤ m1 → m1 < m2 →
  dias_antes_del_mes y m1 + dias_del_mes y m1 ≤ dias_antes_del_mes y m2.
Proof.
  intros H1 Hlt.
  replace m2 with (m1 + 1 + Z.of_nat (Z.to_nat (m2 - m1 - 1))) by lia.
  induction (Z.to_nat (m2 - m1 - 1)) as [|k IH].
  - rewrite Z.add_0_r, dias_antes_del_mes_sig by lia. lia.
  - replace (m1 + 1 + Z.of_nat (S k)) with (m1 + 1 + Z.of_nat k + 1) by lia.
    rewrite dias_antes_del_mes_sig by lia.
    pose proof (dias_del_mes_rango y (m1 + 1 + Z.of_nat k)). lia.
Qed.

Lemma dias_antes_de_enero y : dias_antes_del_mes y 1 = 0.
Proof. reflexivity. Qed.

Lemma dias_hasta_diciembre y :
  dias_antes_del_mes y 12 + 31 = dias_del_anio y.
Proof.
  unfold dias_antes_del_mes, dias_del_anio.
  change (Z.to_nat (12 - 1)) with 11%nat.
  cbn [dias_antes_del_mes_aux]. unfold dias_del_mes.
  destruct (es_bisiesto y); reflexivity.
Qed.

Lemma dias_en_el_anio y m :
  1 ≤ m ≤ 12 → dias_antes_del_mes y m + dias_del_mes y m ≤ dias_del_anio y.
Proof.
  intros Hm. destruct (decide (m = 12)) as [->|Hne].
  - rewrite <- dias_hasta_diciembre. pose proof (dias_del_mes_rango y 12). lia.
  - pose proof (dias_antes_del_mes_mono y m 12). 
    pose proof (dias_hasta_diciembre y). lia.
Qed.

Lemma dias_antes_del_anio_sig y :
  dias_antes_del_anio (y + 1) = dias_antes_del_anio y + dias_del_anio y.
Proof.
  unfold dias_antes_del_anio, dias_del_anio, es_bisiesto.
  replace (y + 1 - 1) with y by lia.
  destruct (Z.eqb_spec (y mod 4) 0), (Z.eqb_spec (y mod 100) 0),
    (Z.eqb_spec (y mod 400) 0); simpl; Z.div_mod_to_equations; lia.
Qed.

Lemma dias_antes_del_anio_mono a b :
  a ≤ b → dias_antes_del_anio a ≤ dias_antes_del_anio b.
Proof.
  intros Hab. unfold dias_antes_del_anio. Z.div_mod_to_equations. lia.
Qed.

(** [toordinal] follows the order of (year, month, day). *)
Lemma toordinal_compare f g :
  fecha_valida f = true → fecha_valida g = true →
  lex (anio f ?= anio g) (lex (mes f ?= mes g) (dia f ?= dia g)) =
  (toordinal f ?= toordinal g).
Proof.
  intros (Hfy & Hfm & Hfd)%fecha_valida_rango (Hgy & Hgm & Hgd)%fecha_valida_rango.
  destruct f as [y1 m1 d1], g as [y2 m2 d2]. simpl in *.
  unfold toordinal. simpl.
  pose proof (dias_en_el_anio y1 m1 Hfm).
  pose proof (dias_en_el_anio y2 m2 Hgm).
  pose proof (dias_antes_del_mes_no_neg y1 m1).
  pose proof (dias_antes_del_mes_no_neg y2 m2).
  pose proof (dias_antes_del_anio_sig y1).
  pose proof (dias_antes_del_anio_sig y2).
  unfold lex. symmetry.
  destruct (Z.compare_spec y1 y2) as [->|Hy|Hy].
  - destruct (Z.compare_spec m1 m2) as [->|Hm|Hm].
    + destruct (Z.compare_spec d1 d2) as [->|Hd|Hd].
      * apply Z.compare_refl.
      * apply Z.compare_lt_iff. lia.
      * apply Z.compare_gt_iff. lia.
    + apply Z.compare_lt_iff.
      pose proof (dias_antes_del_mes_mono y2 m1 m2). lia.
    + apply Z.compare_gt_iff.
      pose proof (dias_antes_del_mes_mono y2 m2 m1). lia.
  - apply Z.compare_lt_iff.
    pose proof (dias_antes_del_anio_mono (y1 + 1) y2). lia.
  - apply Z.compare_gt_iff.
    pose proof (dias_antes_del_anio_mono (y2 + 1) y1). lia.
Qed.

Lemma datetime_valida_rango t :
  datetime_valida t = true →
  fecha_valida (dt_fecha t) = true
  ∧ 0 ≤ hora t < 24 ∧ 0 ≤ minuto t < 60 ∧ 0 ≤ segundo t < 60
  ∧ 0 ≤ microsegundo t < 1000000.
Proof.
  unfold datetime_valida. rewrite !andb_true_iff.
  intros [[[[[[[[? ?] ?] ?] ?] ?] ?] ?] ?]. split; [done|lia].
Qed.

(** [isoformat] sorts, as text, like the instants it prints. *)
Lemma isoformat_compare t u :
  datetime_valida t = true → datetime_valida u = true →
  String.compare (isoformat t) (isoformat u) =
  (a_microsegundos t ?= a_microsegundos u).
Proof.
  intros (Htf & Hth & Htm & Hts & Htu)%datetime_valida_rango
         (Huf & Huh & Hum & Hus & Huu)%datetime_valida_rango.
  pose proof (toordinal_compare _ _ Htf Huf) as Hord.
  apply fecha_valida_rango in Htf as (Hty & Htmo & Htd).
  apply fecha_valida_rango in Huf as (Huy & Humo & Hud).
  pose proof (dias_del_mes_rango (anio (dt_fecha t)) (mes (dt_fecha t))).
  pose proof (dias_del_mes_rango (anio (dt_fecha u)) (mes (dt_fecha u))).
  unfold isoformat.
  rewrite (compare_relleno_app 4) by (change (10 ^ Z.of_nat 4) with 10000; lia).
  rewrite (compare_separador "-").
  rewrite (compare_relleno_app 2) by (change (10 ^ Z.of_nat 2) with 100; lia).
  rewrite (compare_separador "-").
  rewrite (compare_relleno_app 2) by (change (10 ^ Z.of_nat 2) with 100; lia).
  rewrite (compare_separador "T").
  rewrite (compare_relleno_app 2) by (change (10 ^ Z.of_nat 2) with 100; lia).
  rewrite (compare_separador ":").
  rewrite (compare_relleno_app 2) by (change (10 ^ Z.of_nat 2) with 100; lia).
  rewrite (compare_separador ":").
  rewrite (compare_relleno_app 2) by (change (10 ^ Z.of_nat 2) with 100; lia).
  rewrite compare_fraccion by done.
  unfold a_microsegundos.
  set (ot := toordinal (dt_fecha t)) in *.
  set (ou := toordinal (dt_fecha u)) in *.
  assert (Hlex : ∀ a b c, lex a (lex b c) = lex (lex a b) c) by (by intros []).
  rewrite !Hlex. rewrite <- (Hlex (anio _ ?= _)), Hord.
  unfold lex. symmetry.
  destruct (Z.compare_spec ot ou) as [Ho|Ho|Ho];
    [|apply Z.compare_lt_iff; lia|apply Z.compare_gt_iff; lia].
  destruct (Z.compare_spec (hora t) (hora u)) as [Hh|Hh|Hh];
    [|apply Z.compare_lt_iff; lia|apply Z.compare_gt_iff; lia].
  destruct (Z.compare_spec (minuto t) (minuto u)) as [Hm|Hm|Hm];
    [|apply Z.compare_lt_iff; lia|apply Z.compare_gt_iff; lia].
  destruct (Z.compare_spec (segundo t) (segundo u)) as [Hs|Hs|Hs];
    [|apply Z.compare_lt_iff; lia|apply Z.compare_gt_iff; lia].
  rewrite Ho, Hh, Hm, Hs.
  destruct (Z.compare_spec (microsegundo t) (microsegundo u)) as [Hx|Hx|Hx];
    [apply Z.compare_eq_iff|apply Z.compare_lt_iff|apply Z.compare_gt_iff]; lia.
Qed.

(** ** Subtracting hours *)

Lemma fecha_valida_intro y m d :
  1 ≤ y ≤ 9999 → 1 ≤ m ≤ 12 → 1 ≤ d ≤ dias_del_mes y m →
  fecha_valida (Fecha y m d) = true.
Proof. intros. unfold fecha_valida. simpl. rewrite !andb_true_iff. lia. Qed.

Lemma dia_anterior_spec f f' :
  fecha_valida f = true → dia_anterior f = Some f' →
  fecha_valida f' = true ∧ toordinal f' = toordinal f - 1.
Proof.
  intros (Hy & Hm & Hd)%fecha_valida_rango. unfold dia_anterior.
  destruct f as [y m d]. simpl in *.
  destruct (Z.ltb_spec 1 d) as [Hd1|Hd1].
  { intros [= <-]. split; [apply fecha_valida_intro; lia|].
    unfold toordinal. simpl. lia. }
  destruct (Z.ltb_spec 1 m) as [Hm1|Hm1].
  { intros [= <-]. pose proof (dias_del_mes_rango y (m - 1)).
    split; [apply fecha_valida_intro; lia|].
    unfold toordinal. simpl.
    pose proof (dias_antes_del_mes_sig y (m - 1)).
    replace (m - 1 + 1) with m in * by lia. lia. }
  destruct (Z.ltb_spec 1 y) as [Hy1|Hy1]; [|done].
  intros [= <-]. split; [apply fecha_valida_intro; [lia|lia|by vm_compute]|].
  unfold toordinal. simpl.
  assert (m = 1) as -> by lia. rewrite dias_antes_de_enero.
  pose proof (dias_antes_del_anio_sig (y - 1)).
  pose proof (dias_hasta_diciembre (y - 1)).
  replace (y - 1 + 1) with y in * by lia. lia.
Qed.

Lemma dia_siguiente_spec f f' :
  fecha_valida f = true → dia_siguiente f = Some f' →
  fecha_valida f' = true ∧ toordinal f' = toordinal f + 1.
Proof.
  intros (Hy & Hm & Hd)%fecha_valida_rango. unfold dia_siguiente.
  destruct f as [y m d]. simpl in *.
  destruct (Z.ltb_spec d (dias_del_mes y m)) as [Hd1|Hd1].
  { intros [= <-]. split; [apply fecha_valida_intro; lia|].
    unfold toordinal. simpl. lia. }
  destruct (Z.ltb_spec m 12) as [Hm1|Hm1].
  { intros [= <-]. pose proof (dias_del_mes_rango y (m + 1)).
    split; [apply fecha_valida_intro; lia|].
    unfold toordinal. simpl. rewrite dias_antes_del_mes_sig by lia. lia. }
  destruct (Z.ltb_spec y 9999) as [Hy1|Hy1]; [|done].
  intros [= <-]. split; [apply fecha_valida_intro; [lia|lia|by vm_compute]|].
  unfold toordinal. simpl.
  assert (m = 12) as -> by lia. rewrite dias_antes_de_enero.
  pose proof (dias_antes_del_anio_sig y).
  pose proof (dias_hasta_diciembre y).
  assert (dias_del_mes y 12 = 31) by done. lia.
Qed.

Lemma datetime_valida_intro f h m s u :
  fecha_valida f = true → 0 ≤ h < 24 → 0 ≤ m < 60 → 0 ≤ s < 60 →
  0 ≤ u < 1000000 → datetime_valida (DateTime f h m s u) = true.
Proof.
  intros Hf ? ? ? ?. unfold datetime_valida. simpl.
  rewrite Hf, !andb_true_iff. lia.
Qed.

Lemma hora_anterior_spec t t' :
  datetime_valida t = true → hora_anterior t = Some t' →
  datetime_valida t' = true
  ∧ a_microsegundos t' = a_microsegundos t - una_hora.
Proof.
  intros (Hf & Hh & Hm & Hs & Hu)%datetime_valida_rango. unfold hora_anterior.
  destruct (Z.ltb_spec 0 (hora t)) as [Hh0|Hh0].
  { intros [= <-]. split; [apply datetime_valida_intro; [done|lia..]|].
    unfold a_microsegundos, una_hora. simpl. lia. }
  destruct (dia_anterior (dt_fecha t)) as [f|] eqn:Hd; [|done].
  intros [= <-]. apply dia_anterior_spec in Hd as [Hf' Ho]; [|done].
  split; [apply datetime_valida_intro; [done|lia..]|].
  unfold a_microsegundos, una_hora. simpl. lia.
Qed.

Lemma hora_siguiente_spec t t' :
  datetime_valida t = true → hora_siguiente t = Some t' →
  datetime_valida t' = true
  ∧ a_microsegundos t' = a_microsegundos t + una_hora.
Proof.
  intros (Hf & Hh & Hm & Hs & Hu)%datetime_valida_rango. unfold hora_siguiente.
  destruct (Z.ltb_spec (hora t) 23) as [Hh0|Hh0].
  { intros [= <-]. split; [apply datetime_valida_intro; [done|lia..]|].
    unfold a_microsegundos, una_hora. simpl. lia. }
  destruct (dia_siguiente (dt_fecha t)) as [f|] eqn:Hd; [|done].
  intros [= <-]. apply dia_siguiente_spec in Hd as [Hf' Ho]; [|done].
  split; [apply datetime_valida_intro; [done|lia..]|].
  unfold a_microsegundos, una_hora. simpl. lia.
Qed.

Lemma repetir_spec (paso : datetime → option datetime) (delta : Z) :
  (∀ t t', datetime_valida t = true → paso t = Some t' →
     datetime_valida t' = true
     ∧ a_microsegundos t' = a_microsegundos t + delta) →
  ∀ n t t', datetime_valida t = true → repetir n paso t = Some t' →
    datetime_valida t' = true
    ∧ a_microsegundos t' = a_microsegundos t + Z.of_nat n * delta.
Proof.
  intros Hpaso. induction n as [|n IH]; intros t t' Hv.
  - intros [= <-]. split; [done|lia].
  - simpl. destruct (paso t) as [t1|] eqn:Ht1; [|done]. simpl.
    destruct (Hpaso _ _ Hv Ht1) as [Hv1 Hus1].
    intros Hrun. destruct (IH _ _ Hv1 Hrun) as [Hv' Hus']. split; [done|lia].
Qed.

(** [t - timedelta(hours=horas)] is [horas] hours before [t]. *)
Lemma restar_horas_spec t horas t' :
  datetime_valida t = true → restar_horas t horas = Some t' →
  datetime_valida t' = true
  ∧ a_microsegundos t' = a_microsegundos t - horas * una_hora.
Proof.
  intros Hv. unfold restar_horas. destruct (Z.leb_spec 0 horas) as [Hh|Hh].
  - intros Hrun.
    eapply (repetir_spec hora_anterior (- una_hora)) in Hrun as [Hv' Hus];
      [|intros ? ? ? ?; rewrite Z.add_opp_r; by apply hora_anterior_spec|done].
    split; [done|]. rewrite Hus. unfold una_hora. lia.
  - intros Hrun.
    eapply (repetir_spec hora_siguiente una_hora) in Hrun as [Hv' Hus];
      [|intros ? ? ? ?; by apply hora_siguiente_spec|done].
    split; [done|]. rewrite Hus. unfold una_hora. lia.
Qed.

(** * Properties of the store *)

Lemma filter_ninguno {A} (P : A → Prop) `{!∀ x, Decision (P x)} (l : list A) :
  (∀ x, x ∈ l → ¬ P x) → filter P l = [].
Proof.
  induction l as [|x l IH]; intros Hl; [done|].
  rewrite filter_cons_False by (apply Hl; left).
  apply IH. intros y Hy. apply Hl. by right.
Qed.

Section Upsert.

Context `{Builtins}.

Lemma textos_lookup (proceso : dict) (cols : list string) textos c :
  mapM (λ c, v ← sqlite_bind (get proceso c VNone);
             Some (c, afinidad_text v)) cols = Some textos →
  c ∈ cols →
  ∃ v, sqlite_bind (get proceso c VNone) = Some v
       ∧ (list_to_map textos : dict) !! c = Some (afinidad_text v).
Proof.
  revert textos. induction cols as [|c0 cols IH]; intros textos Hm Hc.
  - by apply elem_of_nil in Hc.
  - simpl in Hm.
    destruct (sqlite_bind (get proceso c0 VNone)) as [v0|] eqn:Hv0; [|done].
    simpl in Hm. destruct (mapM _ cols) as [resto|] eqn:Hr; [|done].
    simpl in Hm. injection Hm as <-. simpl.
    destruct (decide (c0 = c)) as [->|Hne].
    + exists v0. by rewrite lookup_insert_eq.
    + rewrite lookup_insert_ne by done. apply IH; [done|].
      apply elem_of_cons in Hc as [->|?]; done.
Qed.

(** The identifier column of the row built from a tender whose
    [nomenclatura] is the text [x]. *)
Lemma fila_de_nomenclatura (proceso : dict) ahora fila x :
  fila_de proceso ahora = Some fila →
  get proceso "nomenclatura" VNone = VStr x →
  fila !! "nomenclatura" = Some (VStr x).
Proof.
  unfold fila_de. intros Hf Hx.
  destruct (mapM _ columnas_texto) as [textos|] eqn:Ht; [|done]. simpl in Hf.
  destruct (sqlite_bind (get proceso "valor_referencial" _)); [|done].
  destruct (sqlite_bind (get proceso "moneda" _)); [|done].
  destruct (sqlite_bind (get proceso "fuente" _)); [|done].
  simpl in Hf. injection Hf as <-.
  do 4 rewrite lookup_insert_ne by done.
  destruct (textos_lookup proceso columnas_texto textos "nomenclatura" Ht)
    as (v & Hv & ->); [left|].
  rewrite Hx in Hv. by injection Hv as <-.
Qed.

Lemma fila_de_actualizado (proceso : dict) ahora fila :
  fila_de proceso ahora = Some fila →
  fila !! "actualizado_en" = Some (VStr (isoformat ahora)).
Proof.
  unfold fila_de. intros Hf.
  destruct (mapM _ columnas_texto) as [textos|]; [|done]. simpl in Hf.
  destruct (sqlite_bind (get proceso "valor_referencial" _)); [|done].
  destruct (sqlite_bind (get proceso "moneda" _)); [|done].
  destruct (sqlite_bind (get proceso "fuente" _)); [|done].
  simpl in Hf. injection Hf as <-.
  do 2 rewrite lookup_insert_ne by done. by rewrite lookup_insert_eq.
Qed.

(** What one successful write leaves under its identifier. *)
Lemma insert_or_replace_filas (proceso : dict) ahora (s : db) fila x :
  fila_de proceso ahora = Some fila →
  get proceso "nomenclatura" VNone = VStr x →
  ∃ s', insert_or_replace proceso ahora s = Some s'
        ∧ procesos s' =
            (filter (λ f, nomenclatura_es x f = false) (procesos s)
             ++ [<["id" := VNum (Qc_of_Z (secuencia s + 1))]> fila])%list
        ∧ filter (λ f, nomenclatura_es x f = true) (procesos s') =
            [<["id" := VNum (Qc_of_Z (secuencia s + 1))]> fila]
        ∧ secuencia s' = secuencia s + 1
        ∧ sync s' = sync s.
Proof.
  intros Hf Hx. unfold insert_or_replace. rewrite Hf. simpl.
  rewrite (fila_de_nomenclatura _ _ _ _ Hf Hx).
  eexists. split; [reflexivity|]. simpl. split_and!; [done| |done|done].
  rewrite filter_app, list_filter_filter.
  rewrite filter_ninguno by (intros f _ [Ht Hfalse]; congruence).
  simpl. rewrite filter_cons, filter_nil, decide_True; [done|].
  unfold nomenclatura_es. rewrite lookup_insert_ne by done.
  rewrite (fila_de_nomenclatura _ _ _ _ Hf Hx). apply String.eqb_refl.
Qed.

(** C1. Writing tender A and then a bindable tender B with the same
    identifier leaves exactly one row with that identifier: the row built
    from B alone, stamped with the time of B's write. *)
Theorem guardar_proceso_ultimo_gana (s : db) (A B : dict) (tA tB : datetime)
    (x : string) :
  get A "nomenclatura" VNone = VStr x →
  get B "nomenclatura" VNone = VStr x →
  is_Some (fila_de B tB) →
  let s1 := snd (guardar_proceso A tA s) in
  let r := guardar_proceso B tB s1 in
  fst r = true
  ∧ ∃ fila,
      fila_de B tB = Some fila
      ∧ filter (λ f, nomenclatura_es x f = true) (procesos (snd r)) =
          [<["id" := VNum (Qc_of_Z (secuencia s1 + 1))]> fila]
      ∧ fila !! "actualizado_en" = Some (VStr (isoformat tB)).
Proof.
  intros _ HB [fila Hfila] s1 r. subst r.
  destruct (insert_or_replace_filas B tB s1 fila x Hfila HB)
    as (s2 & Hrun & _ & Hfilas & _).
  unfold guardar_proceso. rewrite Hrun. simpl. split; [done|].
  exists fila. split_and!; [done|done|].
  by apply (fila_de_actualizado B tB).
Qed.

End Upsert.

(** [guardar_proceso_ultimo_gana] on two tenders named X. *)
Lemma guardar_proceso_ultimo_gana_ejemplo :
  let s1 := snd (guardar_proceso (H := builtins_ejemplo) tender_A t_manana db_inicial) in
  let r := guardar_proceso (H := builtins_ejemplo) tender_B t_mediodia s1 in
  fst r = true
  ∧ ∃ fila,
      fila_de (H := builtins_ejemplo) tender_B t_mediodia = Some fila
      ∧ filter (λ f, nomenclatura_es "X" f = true) (procesos (snd r)) =
          [<["id" := VNum (Qc_of_Z (secuencia s1 + 1))]> fila]
      ∧ fila !! "actualizado_en" = Some (VStr (isoformat t_mediodia)).
Proof.
  apply (guardar_proceso_ultimo_gana (H := builtins_ejemplo) db_inicial tender_A tender_B
           t_manana t_mediodia "X").
  - reflexivity.
  - reflexivity.
  - (apply (@bool_decide_unpack _ (is_Some_dec _)); vm_compute; exact I).
Defined.

(** ** Freshness *)

Lemma sql_ge_isoformat t u :
  datetime_valida t = true → datetime_valida u = true →
  sql_ge (VStr (isoformat t)) (VStr (isoformat u)) = true ↔
  a_microsegundos u ≤ a_microsegundos t.
Proof.
  intros Ht Hu. unfold sql_ge, sql_compare. rewrite isoformat_compare by done.
  destruct (Z.compare_spec (a_microsegundos t) (a_microsegundos u));
    split; (done || lia).
Qed.

Lemma insertar_perm f l : insertar f l ≡ₚ f :: l.
Proof.
  induction l as [|g l IH]; simpl; [done|].
  destruct (antes f g); [done|]. rewrite IH. apply Permutation_swap.
Qed.

Lemma ordenar_perm l : ordenar l ≡ₚ l.
Proof.
  induction l as [|f l IH]; simpl; [done|].
  unfold ordenar in *. simpl. by rewrite insertar_perm, IH.
Qed.

Lemma limitar_elem n l (f : dict) : f ∈ limitar n l → f ∈ l.
Proof.
  unfold limitar. destruct (n <? 0); [done|].
  intros Hf. by eapply subseteq_take.
Qed.

Lemma limitar_todo n (l : list dict) :
  n < 0 ∨ Z.of_nat (length l) ≤ n → limitar n l = l.
Proof.
  unfold limitar. intros Hn. destruct (Z.ltb_spec n 0); [done|].
  apply take_ge. lia.
Qed.

Section Frescura.

Context `{Builtins}.

Lemma coincide_corte d t e x corte (f : dict) :
  coincide d t e x (Some corte) f =
  coincide d t e x None f && sql_ge (get f "actualizado_en" VNone) (VStr corte).
Proof. unfold coincide. by rewrite andb_true_r. Qed.

Lemma buscar_frescos s ahora d t e x limite W corte :
  restar_horas ahora W = Some corte →
  buscar s ahora d t e x limite true W =
  Some (limitar limite (ordenar (filter
          (λ f, coincide d t e x (Some (isoformat corte)) f) (procesos s)))).
Proof. intros Hc. unfold buscar. by rewrite Hc. Qed.

(** C7, amended. After a tender is written at [T], a query at [ahora] with
    the freshness filter on and a window of [W] hours never returns its row
    once [ahora - T > W] hours; when [ahora - T <= W] hours (the cut-off
    itself included) it returns the row, provided the row passes the other
    filters of the query and the limit does not truncate the result. *)
Theorem buscar_solo_frescos (s : db) (p : dict) (x : string)
    (T ahora corte : datetime) (W : Z) (fila : dict)
    (departamento tipo_objeto estado texto : option string) (limite : Z) :
  datetime_valida T = true → datetime_valida ahora = true →
  get p "nomenclatura" VNone = VStr x →
  fila_de p T = Some fila →
  restar_horas ahora W = Some corte →
  let s' := snd (guardar_proceso p T s) in
  let fila' := <["id" := VNum (Qc_of_Z (secuencia s + 1))]> fila in
  let edad := a_microsegundos ahora - a_microsegundos T in
  ∃ res,
    buscar s' ahora departamento tipo_objeto estado texto limite true W = Some res
    ∧ filter (λ f, nomenclatura_es x f = true) (procesos s') = [fila']
    ∧ (W * una_hora < edad → ∀ f, f ∈ res → nomenclatura_es x f = false)
    ∧ (edad ≤ W * una_hora →
       coincide departamento tipo_objeto estado texto None fila' = true →
       limite < 0 ∨
         Z.of_nat (length (filter
           (λ f, coincide departamento tipo_objeto estado texto
                   (Some (isoformat corte)) f) (procesos s'))) ≤ limite →
       fila' ∈ res).
Proof.
  intros HT Hahora Hx Hfila Hcorte s' fila' edad.
  destruct (insert_or_replace_filas p T s fila x Hfila Hx)
    as (s1 & Hrun & Hprocs & Hfilas & _).
  assert (Hs' : s' = s1) by (unfold s', guardar_proceso; by rewrite Hrun).
  rewrite Hs'. clear s' Hs'.
  destruct (restar_horas_spec _ _ _ Hahora Hcorte) as [Hvc Hus].
  assert (Hact : get fila' "actualizado_en" VNone = VStr (isoformat T)).
  { unfold get, fila'. rewrite lookup_insert_ne by done.
    by rewrite (fila_de_actualizado _ _ _ Hfila). }
  assert (Hin : fila' ∈ procesos s1).
  { rewrite Hprocs. apply elem_of_app. right. left. }
  rewrite (buscar_frescos _ _ _ _ _ _ _ _ _ Hcorte).
  eexists. split; [reflexivity|].
  split; [done|]. split.
  - intros Hedad f Hf%limitar_elem. rewrite ordenar_perm in Hf.
    apply list_elem_of_filter in Hf as [Hc Hf].
    destruct (nomenclatura_es x f) eqn:Hnom; [|done]. exfalso.
    assert (f ∈ filter (λ f, nomenclatura_es x f = true) (procesos s1)) as Hf'
      by (by apply list_elem_of_filter).
    rewrite Hfilas in Hf'. apply list_elem_of_singleton in Hf' as ->.
    fold fila' in Hc. rewrite coincide_corte, Hact in Hc.
    apply Is_true_true, andb_prop in Hc as [_ Hc].
    apply sql_ge_isoformat in Hc; [|done..]. unfold edad in Hedad. lia.
  - intros Hedad Hotros Hlim. rewrite limitar_todo.
    + rewrite ordenar_perm. apply list_elem_of_filter. split; [|done].
      rewrite coincide_corte, Hact, Hotros, andb_true_l. apply Is_true_true.
      apply sql_ge_isoformat; [done..|]. unfold edad in Hedad. lia.
    + by rewrite ordenar_perm.
Qed.

(** [datos_frescos_disponibles] sees a row written at most [W] hours ago. *)
Lemma datos_frescos_tras_guardar (s : db) (p : dict) (x : string)
    (T ahora corte : datetime) (W : Z) (fila : dict) :
  datetime_valida T = true → datetime_valida ahora = true →
  get p "nomenclatura" VNone = VStr x →
  fila_de p T = Some fila →
  restar_horas ahora W = Some corte →
  a_microsegundos ahora - a_microsegundos T ≤ W * una_hora →
  datos_frescos_disponibles (snd (guardar_proceso p T s)) ahora W = Some true.
Proof.
  intros HT Hahora Hx Hfila Hcorte Hedad.
  destruct (insert_or_replace_filas p T s fila x Hfila Hx)
    as (s1 & Hrun & Hprocs & _).
  unfold guardar_proceso. rewrite Hrun. cbn [snd].
  destruct (restar_horas_spec _ _ _ Hahora Hcorte) as [Hvc Hus].
  unfold datos_frescos_disponibles. rewrite Hcorte. cbn [mbind option_bind].
  f_equal. apply Z.ltb_lt. rewrite Hprocs, filter_app, length_app.
  rewrite filter_cons_True.
  - cbn [length]. lia.
  - unfold get. rewrite lookup_insert_ne by done.
    rewrite (fila_de_actualizado _ _ _ Hfila). cbn [default].
    apply Is_true_true, sql_ge_isoformat; [done..|]. lia.
Qed.

End Frescura.

(** C7, as stated, fails: with a limit of one row, a row written eight hours
    ago is missing from a query whose window is twelve hours, because a row
    written later takes the only place. *)
Lemma buscar_limite_oculta_fila_fresca :
  let s1 := snd (guardar_proceso (H := builtins_ejemplo) tender_A t_manana db_inicial) in
  let s2 := snd (guardar_proceso (H := builtins_ejemplo) tender_Y t_mediodia s1) in
  a_microsegundos t_tarde - a_microsegundos t_manana ≤ 12 * una_hora
  ∧ columna "nomenclatura"
      (buscar (H := builtins_ejemplo) s2 t_tarde None None None None 1 true 12)
    = Some [VStr "Y"]
  ∧ columna "nomenclatura"
      (buscar (H := builtins_ejemplo) s2 t_tarde None None None None 50 true 12)
    = Some [VStr "Y"; VStr "X"].
Proof. split_and!; by vm_compute. Qed.

Lemma Some_default_is_Some {A} (d : A) (o : option A) :
  is_Some o → o = Some (default d o).
Proof. by intros [a ->]. Qed.

(** [buscar_solo_frescos] on a row written twelve hours before the query. *)
Lemma buscar_solo_frescos_ejemplo :
  let s' := snd (guardar_proceso (H := builtins_ejemplo) tender_A t_manana db_inicial) in
  let fila' := <["id" := VNum (Qc_of_Z (secuencia db_inicial + 1))]> fila_A in
  let edad := a_microsegundos t_tarde - a_microsegundos t_manana in
  ∃ res,
    buscar (H := builtins_ejemplo) s' t_tarde None None None None 50 true 12 = Some res
    ∧ filter (λ f, nomenclatura_es "X" f = true) (procesos s') = [fila']
    ∧ (12 * una_hora < edad → ∀ f, f ∈ res → nomenclatura_es "X" f = false)
    ∧ (edad ≤ 12 * una_hora →
       coincide (H := builtins_ejemplo) None None None None None fila' = true →
       50 < 0 ∨
         Z.of_nat (length (filter
           (λ f, coincide (H := builtins_ejemplo) None None None None
                   (Some (isoformat t_manana)) f) (procesos s'))) ≤ 50 →
       fila' ∈ res).
Proof.
  apply (buscar_solo_frescos (H := builtins_ejemplo) db_inicial tender_A "X"
           t_manana t_tarde t_manana 12 fila_A None None None None 50).
  - reflexivity.
  - reflexivity.
  - reflexivity.
  - apply Some_default_is_Some, (@bool_decide_unpack _ (is_Some_dec _)).
    vm_compute. exact I.
  - vm_compute. reflexivity.
Defined.

(** ** Order of the results *)

(** C9 on the code: a tender published on 31 January is listed before one
    published on 1 February, because the column holds [DD/MM/YYYY] text and
    is sorted as text.  The same happens to tenders that went through
    [convertir_a_proceso], which writes the date in that form. *)
Theorem buscar_orden_de_texto :
  let s := snd (guardar_procesos_batch (H := builtins_ejemplo)
                  [publicado_31_enero; publicado_1_febrero] t_manana db_inicial) in
  columna "fecha_publicacion"
    (buscar (H := builtins_ejemplo) s t_manana None None None None 50 false 12)
  = Some [VStr "31/01/2026"; VStr "01/02/2026"]
  ∧ toordinal <$> analizar_fecha "31/01/2026" = Some 739647
  ∧ toordinal <$> analizar_fecha "01/02/2026" = Some 739648
  ∧ (λ d : dict, get d "fecha_publicacion" VNone) <$>
      convertir_a_proceso (H := builtins_ejemplo)
        (release_de "LP-1" "2026-01-31T00:00:00Z")
    = Some (VStr "31/01/2026").
Proof. split_and!; vm_compute; reflexivity. Qed.

(** * Properties of the normaliser *)

(** C6, as stated, fails: a release without [tender.id] and [ocid] is
    normalised to a tender whose identifier is the empty text, and the store
    writes it; a blank identifier is kept untrimmed. *)
Lemma convertir_a_proceso_sin_identificador :
  (λ d : dict, get d "nomenclatura" VNone) <$>
    convertir_a_proceso (H := builtins_ejemplo) release_vacio = Some (VStr "")
  ∧ (λ d : dict, get d "nomenclatura" VNone) <$>
      convertir_a_proceso (H := builtins_ejemplo) release_en_blanco
    = Some (VStr "   ")
  ∧ (let r := guardar_procesos_batch (H := builtins_ejemplo)
                (default [] (mapM (convertir_a_proceso (H := builtins_ejemplo))
                               [release_vacio; release_en_blanco]))
                t_manana db_inicial in
     fst r = 2
     ∧ columna "nomenclatura" (Some (procesos (snd r)))
       = Some [VStr ""; VStr "   "]).
Proof. cbv zeta. split_and!; vm_compute; reflexivity. Qed.

Section Normalizador.

Context `{Builtins}.

Lemma fila_de_nomenclatura_bind (proceso : dict) ahora fila :
  fila_de proceso ahora = Some fila →
  ∃ v, sqlite_bind (get proceso "nomenclatura" VNone) = Some v
       ∧ fila !! "nomenclatura" = Some (afinidad_text v).
Proof.
  unfold fila_de. intros Hf.
  destruct (mapM _ columnas_texto) as [textos|] eqn:Ht; [|done].
  cbn [mbind option_bind] in Hf.
  destruct (sqlite_bind (get proceso "valor_referencial" _)); [|done].
  destruct (sqlite_bind (get proceso "moneda" _)); [|done].
  destruct (sqlite_bind (get proceso "fuente" _)); [|done].
  cbn [mbind option_bind] in Hf. injection Hf as <-.
  do 4 rewrite lookup_insert_ne by done.
  apply (textos_lookup proceso columnas_texto textos "nomenclatura" Ht). left.
Qed.

Lemma guardar_proceso_sin_nomenclatura (s : db) (p : dict) t :
  get p "nomenclatura" VNone = VNone → guardar_proceso p t s = (false, s).
Proof.
  intros Hn. unfold guardar_proceso, insert_or_replace.
  destruct (fila_de p t) as [fila|] eqn:Hf; [|done].
  destruct (fila_de_nomenclatura_bind _ _ _ Hf) as (v & Hv & Hfila).
  rewrite Hn in Hv. injection Hv as <-.
  cbn [mbind option_bind]. by rewrite Hfila.
Qed.

Lemma convertir_a_proceso_nomenclatura (release : pyval) (p : dict) :
  convertir_a_proceso release = Some p →
  ∃ tender ocid,
    py_get release "tender" (VDict ∅) = Some tender
    ∧ py_get release "ocid" (VStr "") = Some ocid
    ∧ py_get tender "id" ocid = p !! "nomenclatura".
Proof.
  unfold convertir_a_proceso. intros Hp.
  destruct (py_get release "tender" _) as [tender|] eqn:Ht; [|done].
  cbn [mbind option_bind] in Hp.
  destruct (py_get release "buyer" _) as [buyer|]; [|done].
  cbn [mbind option_bind] in Hp.
  destruct (py_get release "ocid" _) as [ocid|] eqn:Ho; [|done].
  cbn [mbind option_bind] in Hp.
  destruct (py_get tender "id" ocid) as [tender_id|] eqn:Hi; [|done].
  cbn [mbind option_bind] in Hp.
  exists tender, ocid. split_and!; [done..|]. rewrite Hi.
  repeat (apply bind_Some in Hp as (? & _ & Hp); cbv zeta in Hp).
  injection Hp as <-. cbn [list_to_map foldr uncurry fst snd].
  by rewrite lookup_insert_eq.
Qed.

(** C6, amended.  Normalisation never rejects a release for its identifier:
    the tender it returns carries [tender.id], else [ocid], else the empty
    text, exactly as found.  The store writes a tender under any text
    identifier, the empty one included, and refuses only a null one. *)
Theorem convertir_a_proceso_identificador :
  (∀ release p, convertir_a_proceso release = Some p →
     ∃ tender ocid,
       py_get release "tender" (VDict ∅) = Some tender
       ∧ py_get release "ocid" (VStr "") = Some ocid
       ∧ py_get tender "id" ocid = p !! "nomenclatura")
  ∧ (λ d : dict, get d "nomenclatura" VNone) <$> convertir_a_proceso release_vacio
    = Some (VStr "")
  ∧ (∀ s p t x,
       get p "nomenclatura" VNone = VStr x → is_Some (fila_de p t) →
       fst (guardar_proceso p t s) = true
       ∧ ∃ f, f ∈ procesos (snd (guardar_proceso p t s))
              ∧ f !! "nomenclatura" = Some (VStr x))
  ∧ (∀ s p t,
       get p "nomenclatura" VNone = VNone → guardar_proceso p t s = (false, s)).
Proof.
  split_and!.
  - apply convertir_a_proceso_nomenclatura.
  - vm_compute. reflexivity.
  - intros s p t x Hx [fila Hfila].
    destruct (insert_or_replace_filas p t s fila x Hfila Hx)
      as (s' & Hrun & Hprocs & _).
    unfold guardar_proceso. rewrite Hrun. cbn [fst snd]. split; [done|].
    eexists. split.
    + rewrite Hprocs. apply elem_of_app. right. left.
    + rewrite lookup_insert_ne by done.
      by apply (fila_de_nomenclatura p t).
  - apply guardar_proceso_sin_nomenclatura.
Qed.

End Normalizador.

(** * Properties of the synchronisation *)

Section Sincronizacion.

Context `{Builtins}.

Lemma paginar_primera_falla fuel servidor deps tipos limite page_size page releases total :
  servidor page page_size = ErrorDeRed
  ∨ servidor page page_size = Respuesta 200 None →
  paginar (S fuel) servidor deps tipos limite page_size page releases total
  = Some releases.
Proof.
  intros Hs. cbn [paginar]. destruct (total <? limite); [|done].
  destruct Hs as [-> | ->]; done.
Qed.

Lemma sincronizar_sqlite_sin_releases fuel servidor deps tipos limite inicio ahora s :
  (∀ n, servidor 1 n = ErrorDeRed ∨ servidor 1 n = Respuesta 200 None) →
  sincronizar_sqlite (S fuel) servidor deps tipos limite inicio ahora s =
  Some (Resultado false 0 0 0
          (Qc_of_Z (a_microsegundos ahora - a_microsegundos inicio)
           / Qc_of_Z 1000000)%Qc
          "No se encontraron procesos en OCDS", s).
Proof.
  intros Hs. unfold sincronizar_sqlite, buscar_procesos, descargar_releases,
    _obtener_desde_api.
  by rewrite paginar_primera_falla by apply Hs.
Qed.

End Sincronizacion.

(** C5 on the code.  When the first request fails (network error or a body
    that is not JSON), [sincronizar_sqlite] reports failure and leaves the
    whole store as it was: no row is written, and [sync_metadata] is not set
    to an error state either.  When a later request fails, the tenders
    fetched so far are written and the run is recorded as [completado]. *)
Theorem sincronizar_sqlite_fallo_de_fetch :
  (∀ `{Builtins} fuel deps tipos limite inicio ahora s,
     sincronizar_sqlite (S fuel) (λ _ _, ErrorDeRed) deps tipos limite inicio ahora s
     = Some (Resultado false 0 0 0
               (Qc_of_Z (a_microsegundos ahora - a_microsegundos inicio)
                / Qc_of_Z 1000000)%Qc
               "No se encontraron procesos en OCDS", s))
  ∧ (∀ `{Builtins} fuel deps tipos limite inicio ahora s,
     sincronizar_sqlite (S fuel) (λ _ _, Respuesta 200 None) deps tipos limite
       inicio ahora s
     = Some (Resultado false 0 0 0
               (Qc_of_Z (a_microsegundos ahora - a_microsegundos inicio)
                / Qc_of_Z 1000000)%Qc
               "No se encontraron procesos en OCDS", s))
  ∧ (let r := sincronizar_sqlite (H := builtins_ejemplo) 5
                (λ _ _, ErrorDeRed) None None 500 t_manana t_mediodia db_inicial in
     sync_estado ∘ sync ∘ snd <$> r = Some "pendiente")
  ∧ (let r := sincronizar_sqlite (H := builtins_ejemplo) 5
                servidor_cae_en_pagina_2 (Some ["TODOS"]) None 500
                t_manana t_mediodia db_inicial in
     exito ∘ fst <$> r = Some true
     ∧ guardados ∘ fst <$> r = Some 1
     ∧ sync_estado ∘ sync ∘ snd <$> r = Some "completado"
     ∧ columna "nomenclatura" (procesos ∘ snd <$> r) = Some [VStr "LP-1"]).
Proof.
  split_and!.
  - intros. apply sincronizar_sqlite_sin_releases. by left.
  - intros. apply sincronizar_sqlite_sin_releases. by right.
  - vm_compute. reflexivity.
  - cbv zeta. split_and!; vm_compute; reflexivity.
Qed.

(** * More properties of the store *)

Section Invariante.

Context `{Builtins}.

Lemma id_de_insert (fila : dict) i :
  id_de (<["id" := VNum (Qc_of_Z i)]> fila) = Some i.
Proof. unfold id_de. by rewrite lookup_insert_eq. Qed.

Lemma nomenclatura_de_insert_id (fila : dict) v :
  nomenclatura_de (<["id" := v]> fila) = nomenclatura_de fila.
Proof. unfold nomenclatura_de. by rewrite lookup_insert_ne. Qed.

Lemma nomenclatura_es_de x (f : dict) :
  nomenclatura_es x f = true ↔ nomenclatura_de f = Some x.
Proof.
  unfold nomenclatura_es, nomenclatura_de.
  destruct (f !! "nomenclatura") as [[| | |s| |]|]; try (split; done).
  rewrite String.eqb_eq. split; congruence.
Qed.

Lemma insert_or_replace_Some proceso ahora s s' :
  insert_or_replace proceso ahora s = Some s' →
  ∃ fila nom,
    fila_de proceso ahora = Some fila
    ∧ fila !! "nomenclatura" = Some (VStr nom)
    ∧ s' = DB (filter (λ f, nomenclatura_es nom f = false) (procesos s)
               ++ [<["id" := VNum (Qc_of_Z (secuencia s + 1))]> fila])
              (secuencia s + 1) (sync s).
Proof.
  unfold insert_or_replace. destruct (fila_de proceso ahora) as [fila|]; [|done].
  cbn [mbind option_bind].
  destruct (fila !! "nomenclatura") as [[| | |nom| |]|] eqn:Hn; try done.
  intros [= <-]. by exists fila, nom.
Qed.

Lemma Forall_filter_de {A} (P Q : A → Prop) `{!∀ x, Decision (Q x)} (l : list A) :
  Forall P l → Forall P (filter Q l).
Proof.
  rewrite !Forall_forall. intros Hl x [_ Hx]%list_elem_of_filter. by apply Hl.
Qed.

Lemma insert_or_replace_ok proceso ahora s s' :
  db_ok s → insert_or_replace proceso ahora s = Some s' → db_ok s'.
Proof.
  intros (Hseq & Hnom & Hnd & Hid & Hidnd)
         (fila & nom & _ & Hfn & ->)%insert_or_replace_Some.
  assert (Hfila : nomenclatura_de fila = Some nom)
    by (unfold nomenclatura_de; by rewrite Hfn).
  unfold db_ok. cbn [procesos secuencia].
  rewrite !Forall_app, !fmap_app, !Forall_singleton. cbn [fmap list_fmap].
  rewrite id_de_insert, nomenclatura_de_insert_id, Hfila.
  split_and!.
  - lia.
  - by apply Forall_filter_de.
  - by eexists.
  - apply NoDup_app. split_and!.
    + eapply sublist_NoDup; [exact Hnd|]. apply fmap_sublist, sublist_filter.
    + intros o (f & -> & [Hf _]%list_elem_of_filter)%list_elem_of_fmap
        Ho%list_elem_of_singleton.
      apply nomenclatura_es_de in Ho. congruence.
    + apply NoDup_singleton.
  - apply Forall_filter_de. eapply Forall_impl; [exact Hid|].
    intros f (i & ? & ?). exists i. split; [done|lia].
  - exists (secuencia s + 1). split; [done|lia].
  - apply NoDup_app. split_and!.
    + eapply sublist_NoDup; [exact Hidnd|]. apply fmap_sublist, sublist_filter.
    + intros o (f & -> & [_ Hf]%list_elem_of_filter)%list_elem_of_fmap
        Ho%list_elem_of_singleton.
      rewrite Forall_forall in Hid. destruct (Hid f Hf) as (i & Hi & ?).
      rewrite Hi in Ho. injection Ho as ->. lia.
    + apply NoDup_singleton.
Qed.




Lemma insert_or_replace_almacenable proceso ahora s :
  is_Some (insert_or_replace proceso ahora s) ↔ almacenable ahora proceso = true.
Proof.
  unfold insert_or_replace, almacenable.
  destruct (fila_de proceso ahora) as [fila|]; cbn [mbind option_bind].
  - destruct (fila !! "nomenclatura") as [[| | |nom| |]|];
      split; (done || (intros [? ?]; done) || by eexists).
  - split; [by intros [? ?]|done].
Qed.



Lemma db_inicial_ok : db_ok db_inicial.
Proof.
  unfold db_ok, db_inicial. cbn [procesos secuencia fmap list_fmap].
  split_and!; [lia|constructor|constructor|constructor|constructor].
Qed.

Lemma guardar_procesos_batch_ok lote ahora : ∀ s,
  db_ok s → db_ok (snd (guardar_procesos_batch lote ahora s)).
Proof.
  induction lote as [|p lote IH]; intros s Hs; [done|].
  cbn [guardar_procesos_batch].
  destruct (insert_or_replace p ahora s) as [s1|] eqn:Hrun.
  - specialize (IH s1 (insert_or_replace_ok _ _ _ _ Hs Hrun)).
    by destruct (guardar_procesos_batch lote ahora s1).
  - by apply IH.
Qed.

Lemma limpiar_datos_antiguos_ok s ahora dias n s' :
  db_ok s → limpiar_datos_antiguos s ahora dias = Some (n, s') → db_ok s'.
Proof.
  intros (Hsec & Hnom & Hnd & Hid & Hndid). unfold limpiar_datos_antiguos.
  destruct (restar_horas ahora (24 * dias)) as [t|]; [|done].
  cbn [mbind option_bind]. intros [= _ <-].
  unfold db_ok. cbn [procesos secuencia]. split_and!.
  - done.
  - by apply Forall_filter_de.
  - eapply sublist_NoDup; [exact Hnd|]. apply fmap_sublist, sublist_filter.
  - by apply Forall_filter_de.
  - eapply sublist_NoDup; [exact Hndid|]. apply fmap_sublist, sublist_filter.
Qed.

(** X1. The two constraints of the [procesos] table hold in every store the
    code can reach: from a store where every row has a text [nomenclatura]
    that no other row has, and a rowid between 1 and the last rowid given
    out that no other row has, every write, batch, metadata update and purge
    leads to such a store again. *)
Theorem almacen_invariante (s : db) (ahora : datetime) :
  db_ok s →
  (∀ p, db_ok (snd (guardar_proceso p ahora s)))
  ∧ (∀ lote, db_ok (snd (guardar_procesos_batch lote ahora s)))
  ∧ (∀ estado mensaje duracion,
       db_ok (actualizar_sync_metadata estado mensaje duracion ahora s))
  ∧ (∀ dias n s', limpiar_datos_antiguos s ahora dias = Some (n, s') → db_ok s').
Proof.
  intros Hs. split_and!.
  - intros p. unfold guardar_proceso.
    destruct (insert_or_replace p ahora s) as [s1|] eqn:Hrun; [|done].
    by apply (insert_or_replace_ok _ _ _ _ Hs Hrun).
  - intros lote. by apply guardar_procesos_batch_ok.
  - done.
  - intros dias n s'. by apply limpiar_datos_antiguos_ok.
Qed.


Lemma guardar_procesos_batch_no_almacenable p lote ahora s :
  almacenable ahora p = false →
  guardar_procesos_batch (p :: lote) ahora s = guardar_procesos_batch lote ahora s.
Proof.
  intros Hp. cbn [guardar_procesos_batch].
  destruct (insert_or_replace p ahora s) as [s1|] eqn:Hrun; [|done].
  assert (almacenable ahora p = true); [|congruence].
  apply (insert_or_replace_almacenable p ahora s). by eexists.
Qed.


(** X3. A batch counts the tenders the INSERT accepts and skips the others
    without a trace: it returns the number of storable tenders of the batch,
    gives out that many rowids, leaves the metadata alone, and ends in the
    store that the storable tenders alone would have produced. *)
Theorem guardar_procesos_batch_cuenta (lote : list dict) (ahora : datetime) (s : db) :
  let aceptados := filter (λ p, almacenable ahora p = true) lote in
  let r := guardar_procesos_batch lote ahora s in
  fst r = Z.of_nat (length aceptados)
  ∧ secuencia (snd r) = secuencia s + fst r
  ∧ sync (snd r) = sync s
  ∧ r = guardar_procesos_batch aceptados ahora s.
Proof.
  cbv zeta. revert s. induction lote as [|p lote IH]; intros s.
  - cbn [guardar_procesos_batch filter list_filter length fst snd].
    split_and!; [done|lia|done|done].
  - destruct (almacenable ahora p) eqn:Hp.
    + rewrite filter_cons_True by done.
      apply (insert_or_replace_almacenable p ahora s) in Hp as [s1 Hrun].
      cbn [guardar_procesos_batch length]. rewrite Hrun.
      destruct (IH s1) as (Hn & Hsec & Hsync & Heq). rewrite <- Heq.
      destruct (insert_or_replace_Some _ _ _ _ Hrun) as (? & ? & _ & _ & Hs1).
      destruct (guardar_procesos_batch lote ahora s1) as [n s2].
      cbn [fst snd] in *. rewrite Hs1 in Hsec, Hsync. cbn [secuencia sync] in *.
      split_and!; [lia|lia|done|done].
    + rewrite filter_cons_False by congruence.
      rewrite guardar_procesos_batch_no_almacenable by done. apply IH.
Qed.


End Invariante.

(** [almacen_invariante] on the store of a new file. *)
Lemma almacen_invariante_ejemplo :
  (∀ p, db_ok (snd (guardar_proceso (H := builtins_ejemplo) p t_manana db_inicial)))
  ∧ (∀ lote, db_ok (snd (guardar_procesos_batch (H := builtins_ejemplo)
                           lote t_manana db_inicial)))
  ∧ (∀ estado mensaje duracion,
       db_ok (actualizar_sync_metadata estado mensaje duracion t_manana db_inicial))
  ∧ (∀ dias n s',
       limpiar_datos_antiguos db_inicial t_manana dias = Some (n, s') → db_ok s').
Proof.
  apply (almacen_invariante (H := builtins_ejemplo) db_inicial t_manana).
  unfold db_ok, db_inicial. cbn [procesos secuencia fmap list_fmap].
  split_and!; [lia|constructor|constructor|constructor|constructor].
Defined.

(** ** The order of texts and numbers *)

Lemma ascii_compare_Gt_trans (a b c : ascii) :
  Ascii.compare a b = Gt → Ascii.compare b c = Gt → Ascii.compare a c = Gt.
Proof. unfold Ascii.compare. rewrite !N.compare_gt_iff. lia. Qed.

Lemma ascii_compare_refl (a : ascii) : Ascii.compare a a = Eq.
Proof. unfold Ascii.compare. apply N.compare_refl. Qed.

Lemma string_compare_Gt_trans (a : string) : ∀ b c,
  String.compare a b = Gt → String.compare b c = Gt → String.compare a c = Gt.
Proof.
  induction a as [|x a IH]; intros [|y b] [|z c]; simpl; try done.
  destruct (Ascii.compare x y) eqn:Hxy; [|done|];
    (destruct (Ascii.compare y z) eqn:Hyz; [|done|]); intros Hab Hbc.
  - apply Ascii.compare_eq_iff in Hxy as ->, Hyz as ->.
    rewrite ascii_compare_refl. by apply (IH b).
  - apply Ascii.compare_eq_iff in Hxy as ->. by rewrite Hyz.
  - apply Ascii.compare_eq_iff in Hyz as ->. by rewrite Hxy.
  - by rewrite (ascii_compare_Gt_trans _ _ _ Hxy Hyz).
Qed.

Lemma string_compare_refl (a : string) : String.compare a a = Eq.
Proof. induction a as [|x a IH]; simpl; [done|]. by rewrite ascii_compare_refl. Qed.

Lemma Qc_compare_Gt_trans (a b c : Qc) :
  (a ?= b)%Qc = Gt → (b ?= c)%Qc = Gt → (a ?= c)%Qc = Gt.
Proof.
  rewrite <- !Qcgt_alt. intros Hab Hbc. by apply (Qclt_trans c b a).
Qed.

Lemma Qc_compare_refl (a : Qc) : (a ?= a)%Qc = Eq.
Proof. by apply Qceq_alt. Qed.

Lemma sql_compare_antisym a b : sql_compare a b = CompOpp (sql_compare b a).
Proof.
  destruct a, b; simpl; try done.
  - unfold Qccompare. by rewrite <- Qcompare_antisym.
  - apply String.compare_antisym.
Qed.

Lemma sql_compare_Gt_trans a b c :
  sql_compare a b = Gt → sql_compare b c = Gt → sql_compare a c = Gt.
Proof.
  destruct a, b, c; simpl; try done.
  - apply Qc_compare_Gt_trans.
  - apply string_compare_Gt_trans.
Qed.

Lemma sql_compare_Eq_l a b c :
  sql_compare a b = Eq → sql_compare a c = sql_compare b c.
Proof.
  destruct a, b; simpl; try done; destruct c; simpl; try done.
  - by intros ->%Qceq_alt.
  - by intros ->%String.compare_eq_iff.
Qed.

Lemma sql_compare_Eq_r a b c :
  sql_compare b c = Eq → sql_compare a b = sql_compare a c.
Proof.
  intros Hbc. rewrite (sql_compare_antisym a b), (sql_compare_antisym a c).
  f_equal. symmetry. apply sql_compare_Eq_l.
  by rewrite sql_compare_antisym, Hbc.
Qed.

Lemma sql_compare_no_Lt_trans a b c :
  sql_compare a b ≠ Lt → sql_compare b c ≠ Lt → sql_compare a c ≠ Lt.
Proof.
  destruct (sql_compare a b) eqn:Hab; [|done|]; intros _.
  - by rewrite (sql_compare_Eq_l _ _ _ Hab).
  - destruct (sql_compare b c) eqn:Hbc; [|done|]; intros _.
    + by rewrite <- (sql_compare_Eq_r _ _ _ Hbc), Hab.
    + by rewrite (sql_compare_Gt_trans _ _ _ Hab Hbc).
Qed.

(** ** The ORDER BY of [buscar] *)

Lemma antes_total f g : antes f g = false → antes g f = true.
Proof.
  unfold antes.
  rewrite (sql_compare_antisym (get g "fecha_publicacion" VNone)),
          (sql_compare_antisym (get g "actualizado_en" VNone)).
  destruct (sql_compare (get f "fecha_publicacion" VNone) _); simpl; [|done..].
  by destruct (sql_compare (get f "actualizado_en" VNone) _).
Qed.

Lemma antes_trans f g h :
  antes f g = true → antes g h = true → antes f h = true.
Proof.
  unfold antes.
  destruct (sql_compare (get f "fecha_publicacion" VNone)
                        (get g "fecha_publicacion" VNone)) eqn:Hfg; [|done|].
  - rewrite (sql_compare_Eq_l _ _ _ Hfg).
    destruct (sql_compare (get g "fecha_publicacion" VNone)
                          (get h "fecha_publicacion" VNone)); [|done..].
    intros Hfg2 Hgh2.
    pose proof (sql_compare_no_Lt_trans (get f "actualizado_en" VNone)
                  (get g "actualizado_en" VNone) (get h "actualizado_en" VNone)) as Ht.
    destruct (sql_compare (get f "actualizado_en" VNone)
                          (get g "actualizado_en" VNone)); [|done|];
      (destruct (sql_compare (get g "actualizado_en" VNone)
                             (get h "actualizado_en" VNone)); [|done|]);
      (destruct (sql_compare (get f "actualizado_en" VNone)
                             (get h "actualizado_en" VNone)); [done| |done]);
      exfalso; by apply Ht.
  - intros _.
    destruct (sql_compare (get g "fecha_publicacion" VNone)
                          (get h "fecha_publicacion" VNone)) eqn:Hgh; [|done|].
    + by rewrite <- (sql_compare_Eq_r _ _ _ Hgh), Hfg.
    + by rewrite (sql_compare_Gt_trans _ _ _ Hfg Hgh).
Qed.

Lemma insertar_ordenada f l :
  StronglySorted (λ a b, antes a b = true) l →
  StronglySorted (λ a b, antes a b = true) (insertar f l).
Proof.
  induction 1 as [|g l Hl IH Hg]; simpl.
  - by repeat constructor.
  - destruct (antes f g) eqn:Hfg.
    + constructor; [by constructor|]. constructor; [done|].
      eapply Forall_impl; [exact Hg|]. intros h Hgh. by apply (antes_trans f g h).
    + constructor; [done|]. rewrite insertar_perm. constructor; [|done].
      by apply antes_total.
Qed.

Lemma ordenar_ordenada l : StronglySorted (λ a b, antes a b = true) (ordenar l).
Proof.
  induction l as [|f l IH]; [constructor|]. by apply insertar_ordenada.
Qed.

Lemma limitar_ordenada n l :
  StronglySorted (λ a b, antes a b = true) l →
  StronglySorted (λ a b, antes a b = true) (limitar n l).
Proof.
  unfold limitar. destruct (n <? 0); [done|]. intros Hl.
  rewrite <- (take_drop (Z.to_nat n) l) in Hl.
  by apply StronglySorted_app_1_l in Hl.
Qed.

Lemma limitar_length n (l : list dict) :
  Z.of_nat (length (limitar n l)) =
  if n <? 0 then Z.of_nat (length l) else Z.min n (Z.of_nat (length l)).
Proof.
  unfold limitar. destruct (Z.ltb_spec n 0); [done|].
  rewrite length_take. lia.
Qed.

Lemma limitar_submseteq n (l : list dict) : limitar n l ⊆+ l.
Proof.
  unfold limitar. destruct (n <? 0); [done|].
  apply sublist_submseteq, sublist_take.
Qed.

(** ** What a query returns *)

Section Consultas.

Context `{Builtins}.

Lemma buscar_Some s ahora d t e x limite frescos W res :
  buscar s ahora d t e x limite frescos W = Some res →
  ∃ corte, res = limitar limite (ordenar (seleccion d t e x corte s)).
Proof.
  unfold buscar. destruct frescos.
  - destruct (restar_horas ahora W) as [tc|]; [|done].
    cbn [mbind option_bind]. intros [= <-]. by eexists.
  - cbn [mbind option_bind]. intros [= <-]. by eexists.
Qed.

Lemma coincide_sin_corte d t e x corte (f : dict) :
  coincide d t e x corte f = true → coincide d t e x None f = true.
Proof.
  destruct corte as [c|]; [|done]. rewrite coincide_corte.
  by intros [? _]%andb_prop.
Qed.

(** X5. Whatever [buscar] returns was in the store and passes the filters
    asked for: no row is returned more often than it is stored, every row
    returned satisfies the WHERE clause of the four filters, and with a
    limit that is not negative at most that many rows come back. *)
Theorem buscar_resultados (s : db) (ahora : datetime)
    (d t e x : option string) (limite : Z) (frescos : bool) (W : Z)
    (res : list dict) :
  buscar s ahora d t e x limite frescos W = Some res →
  res ⊆+ procesos s
  ∧ (∀ f, f ∈ res → coincide d t e x None f = true)
  ∧ (0 ≤ limite → Z.of_nat (length res) ≤ limite).
Proof.
  intros [corte ->]%buscar_Some. split_and!.
  - etrans; [apply limitar_submseteq|]. rewrite ordenar_perm.
    apply sublist_submseteq, sublist_filter.
  - intros f Hf%limitar_elem. rewrite ordenar_perm in Hf.
    apply list_elem_of_filter in Hf as [Hc _].
    apply (coincide_sin_corte _ _ _ _ corte). by apply Is_true_true.
  - intros Hl. rewrite limitar_length.
    destruct (Z.ltb_spec limite 0); lia.
Qed.

(** X6. [buscar] returns its rows in the order of its ORDER BY: of any two
    rows of the result, the earlier one has the greater [fecha_publicacion]
    as SQLite compares values, or the same one and an [actualizado_en] that
    is not smaller. *)
Theorem buscar_ordenado (s : db) (ahora : datetime)
    (d t e x : option string) (limite : Z) (frescos : bool) (W : Z)
    (res : list dict) :
  buscar s ahora d t e x limite frescos W = Some res →
  StronglySorted (λ f g, antes f g = true) res.
Proof.
  intros [corte ->]%buscar_Some. apply limitar_ordenada, ordenar_ordenada.
Qed.

(** X7. Without the freshness filter [buscar] cannot fail, and it leaves out
    no matching row except by its limit: it returns as many rows as match,
    or [limite] of them when that is fewer and not negative; when nothing is
    cut off, the result is the matching rows of the store, reordered. *)
Theorem buscar_completo (s : db) (ahora : datetime)
    (d t e x : option string) (limite W : Z) :
  let coinciden := seleccion d t e x None s in
  ∃ res,
    buscar s ahora d t e x limite false W = Some res
    ∧ Z.of_nat (length res) =
        (if limite <? 0 then Z.of_nat (length coinciden)
         else Z.min limite (Z.of_nat (length coinciden)))
    ∧ (limite < 0 ∨ Z.of_nat (length coinciden) ≤ limite → res ≡ₚ coinciden).
Proof.
  cbv zeta. unfold seleccion. eexists. split; [reflexivity|]. split.
  - by rewrite limitar_length, (Permutation_length (ordenar_perm _)).
  - intros Hl. rewrite limitar_todo; [apply ordenar_perm|].
    by rewrite (Permutation_length (ordenar_perm _)).
Qed.

Lemma coincide_solo_corte corte (f : dict) :
  coincide None None None None (Some corte) f =
  sql_ge (get f "actualizado_en" VNone) (VStr corte).
Proof. by rewrite coincide_corte. Qed.

Lemma no_vacia_length {A} (l : list A) : no_vacia l = (0 <? Z.of_nat (length l)).
Proof. by destruct l. Qed.

Lemma no_vacia_perm {A} (l k : list A) : l ≡ₚ k → no_vacia l = no_vacia k.
Proof. intros Hp. rewrite !no_vacia_length. by rewrite Hp. Qed.

Lemma no_vacia_limitar n (l : list dict) : n ≠ 0 → no_vacia (limitar n l) = no_vacia l.
Proof.
  intros Hn. unfold limitar. destruct (Z.ltb_spec n 0); [done|].
  destruct l as [|f l]; [by rewrite take_nil|].
  destruct (Z.to_nat n) eqn:Hz; [lia|done].
Qed.

(** X8. [datos_frescos_disponibles] answers whether a freshness-only query
    would return anything: for the same instant and window, and any limit
    other than zero, it is [True] exactly when [buscar] with no other filter
    returns a row, and it fails exactly when that query fails. *)
Theorem datos_frescos_disponibles_buscar (s : db) (ahora : datetime) (W limite : Z) :
  limite ≠ 0 →
  datos_frescos_disponibles s ahora W =
  no_vacia <$> buscar s ahora None None None None limite true W.
Proof.
  intros Hl. unfold datos_frescos_disponibles, buscar.
  destruct (restar_horas ahora W) as [tc|]; [|done].
  cbn [mbind option_bind fmap option_fmap option_map]. f_equal.
  rewrite no_vacia_limitar by done.
  rewrite (no_vacia_perm _ _ (ordenar_perm _)), no_vacia_length.
  rewrite (list_filter_iff _
             (λ f, coincide None None None None (Some (isoformat tc)) f)); [done|].
  intros f. by rewrite coincide_solo_corte.
Qed.

End Consultas.

(** ** Counting and statistics *)

Lemma suma_insert (m : gmap clave Z) k n :
  m !! k = None → suma (<[k := n]> m) = n + suma m.
Proof.
  intros Hk. unfold suma. rewrite map_fold_insert_L; [done| |done].
  intros. lia.
Qed.

Lemma suma_incremento (m : gmap clave Z) k :
  suma (<[k := default 0 (m !! k) + 1]> m) = suma m + 1.
Proof.
  destruct (m !! k) as [n|] eqn:Hk; cbn [default from_option id].
  - rewrite <- (insert_delete_eq m).
    rewrite suma_insert by apply lookup_delete_eq.
    rewrite <- (insert_id m k n) at 2 by done.
    rewrite <- (insert_delete_eq m k n).
    rewrite suma_insert by apply lookup_delete_eq. lia.
  - rewrite suma_insert by done. lia.
Qed.

Lemma agrupar_lookup col filas k :
  agrupar col filas !! k =
  match grupo col k filas with
  | [] => None
  | g => Some (Z.of_nat (length g))
  end.
Proof.
  unfold grupo. induction filas as [|f filas IH]; [done|].
  cbn [agrupar foldr]. fold (agrupar col filas).
  destruct (decide (clave_sql (get f col VNone) = k)) as [Hk|Hk].
  - rewrite filter_cons_True by done. rewrite Hk, lookup_insert_eq, IH.
    destruct (filter _ filas); cbn [default from_option id length]; f_equal; lia.
  - rewrite filter_cons_False by done. by rewrite lookup_insert_ne.
Qed.

Lemma agrupar_suma col filas : suma (agrupar col filas) = Z.of_nat (length filas).
Proof.
  induction filas as [|f filas IH]; [done|].
  cbn [agrupar foldr]. fold (agrupar col filas).
  rewrite suma_incremento, IH. cbn [length]. lia.
Qed.

(** X9. The statistics add up: each of the two GROUP BY tables of
    [obtener_estadisticas] has an entry exactly for the values that occur in
    its column, holding the number of rows with that value, and the entries
    of each table sum to [total_procesos], the number of rows. *)
Theorem obtener_estadisticas_suma (s : db) :
  let e := obtener_estadisticas s in
  e_total_procesos e = Z.of_nat (length (procesos s))
  ∧ suma (e_por_departamento e) = e_total_procesos e
  ∧ suma (e_por_tipo e) = e_total_procesos e
  ∧ (∀ k, e_por_departamento e !! k =
          match grupo "departamento" k (procesos s) with
          | [] => None
          | g => Some (Z.of_nat (length g))
          end)
  ∧ (∀ k, e_por_tipo e !! k =
          match grupo "tipo_objeto" k (procesos s) with
          | [] => None
          | g => Some (Z.of_nat (length g))
          end).
Proof.
  cbv zeta. unfold obtener_estadisticas.
  cbn [e_total_procesos e_por_departamento e_por_tipo].
  split_and!; [done|apply agrupar_suma|apply agrupar_suma|
               intros k; apply agrupar_lookup|intros k; apply agrupar_lookup].
Qed.

Section Conteo.

Context `{Builtins}.

Lemma coincide_conteo_coincide d t (f : dict) :
  coincide_conteo d t f = true → coincide d t None None None f = true.
Proof.
  unfold coincide_conteo, coincide. cbn [dado].
  rewrite !andb_true_r. intros [Hd Ht]%andb_prop. rewrite Hd, andb_true_l.
  destruct (dado t) as [t'|]; [|done]. by rewrite Ht.
Qed.

Lemma coincide_coincide_conteo d t (f : dict) :
  (∀ t', dado t = Some t' → tipo_map (lower t') = None) →
  coincide d t None None None f = coincide_conteo d t f.
Proof.
  intros Ht. unfold coincide_conteo, coincide. cbn [dado].
  rewrite !andb_true_r. f_equal.
  destruct (dado t) as [t'|]; [|done].
  rewrite (Ht t' eq_refl). cbn [default from_option id]. apply orb_diag.
Qed.

Lemma filter_length_le {A} (P Q : A → Prop) `{!∀ x, Decision (P x)}
    `{!∀ x, Decision (Q x)} (l : list A) :
  (∀ x, P x → Q x) → (length (filter P l) ≤ length (filter Q l))%nat.
Proof.
  intros HPQ. induction l as [|a l IH]; [done|].
  destruct (decide (P a)) as [HP|HP].
  - rewrite (filter_cons_True P) by done.
    rewrite (filter_cons_True Q) by auto. cbn [length]. lia.
  - rewrite (filter_cons_False P) by done.
    destruct (decide (Q a)).
    + rewrite (filter_cons_True Q) by done. cbn [length]. lia.
    + by rewrite (filter_cons_False Q).
Qed.

Lemma filter_todos {A} (P : A → Prop) `{!∀ x, Decision (P x)} (l : list A) :
  Forall P l → filter P l = l.
Proof.
  induction 1 as [|a l Ha _ IH]; [done|].
  rewrite filter_cons_True by done. by rewrite IH.
Qed.

(** X10. [contar_procesos] never counts more rows than an unlimited
    [buscar] with the same department and type returns, and counts exactly
    those rows when the type asked for is not one of the three category keys
    that [buscar] translates. *)
Theorem contar_procesos_buscar (s : db) (ahora : datetime)
    (d t : option string) (limite W : Z) :
  limite < 0 →
  ∃ res,
    buscar s ahora d t None None limite false W = Some res
    ∧ contar_procesos s d t ≤ Z.of_nat (length res)
    ∧ ((∀ t', dado t = Some t' → tipo_map (lower t') = None) →
       contar_procesos s d t = Z.of_nat (length res)).
Proof.
  intros Hl. eexists. split; [reflexivity|].
  rewrite limitar_todo by (by left).
  rewrite (Permutation_length (ordenar_perm _)). unfold contar_procesos. split.
  - apply inj_le, filter_length_le. intros f Hf.
    apply Is_true_true, coincide_conteo_coincide. by apply Is_true_true.
  - intros Ht. do 2 f_equal. apply list_filter_iff. intros f.
    by rewrite (coincide_coincide_conteo _ _ _ Ht).
Qed.

(** X11. The two disagree on the category keys: in a store whose rows all
    have the type ["Obra"], [contar_procesos] with type ["obras"] counts
    nothing, while [buscar] with type ["obras"] and no limit returns every
    row. *)
Theorem contar_procesos_obras (s : db) (ahora : datetime) (limite W : Z) :
  limite < 0 →
  Forall (λ f, get f "tipo_objeto" VNone = VStr "Obra") (procesos s) →
  contar_procesos s None (Some "obras") = 0
  ∧ ∃ res, buscar s ahora None (Some "obras") None None limite false W = Some res
           ∧ res ≡ₚ procesos s.
Proof.
  intros Hl Hs. split.
  - unfold contar_procesos. rewrite filter_ninguno; [done|].
    intros f Hf Hc. rewrite Forall_forall in Hs.
    unfold coincide_conteo in Hc. cbn [dado String.eqb] in Hc.
    rewrite (Hs f Hf) in Hc. by vm_compute in Hc.
  - eexists. split; [reflexivity|].
    rewrite limitar_todo by (by left). rewrite ordenar_perm.
    rewrite filter_todos; [done|].
    eapply Forall_impl; [exact Hs|]. intros f Hf. cbv beta in Hf.
    unfold coincide. cbn [dado]. rewrite Hf. by vm_compute.
Qed.

End Conteo.

(** ** The purge *)

Lemma sql_lt_isoformat t u :
  datetime_valida t = true → datetime_valida u = true →
  sql_lt (VStr (isoformat t)) (VStr (isoformat u)) = true ↔
  a_microsegundos t < a_microsegundos u.
Proof.
  intros Ht Hu. unfold sql_lt, sql_compare. rewrite isoformat_compare by done.
  destruct (Z.compare_spec (a_microsegundos t) (a_microsegundos u));
    split; (done || lia).
Qed.

Lemma sql_ge_no_lt a b c :
  sql_ge a b = true → sql_ge b c = true → sql_lt a c = false.
Proof.
  intros Hab Hbc.
  assert (sql_compare a b ≠ Lt) as H1.
  { intros E. unfold sql_ge in Hab. rewrite E in Hab. by destruct a, b. }
  assert (sql_compare b c ≠ Lt) as H2.
  { intros E. unfold sql_ge in Hbc. rewrite E in Hbc. by destruct b, c. }
  pose proof (sql_compare_no_Lt_trans _ _ _ H1 H2) as H3.
  unfold sql_lt. destruct (sql_compare a c); [|done|]; by destruct a, c.
Qed.

Lemma filter_length_partes {A} (b : A → bool) (l : list A) :
  (length (filter (λ a, b a = true) l) + length (filter (λ a, b a = false) l)
   = length l)%nat.
Proof.
  induction l as [|a l IH]; [done|]. destruct (b a) eqn:Hb.
  - rewrite filter_cons_True, filter_cons_False by congruence. cbn [length]. lia.
  - rewrite filter_cons_False, filter_cons_True by congruence. cbn [length]. lia.
Qed.

Section Purga.

Context `{Builtins}.

Lemma limpiar_datos_antiguos_Some s ahora dias corte :
  restar_horas ahora (24 * dias) = Some corte →
  limpiar_datos_antiguos s ahora dias =
  Some (Z.of_nat (length (filter
          (λ f, sql_lt (get f "actualizado_en" VNone) (VStr (isoformat corte)) = true)
          (procesos s))),
        DB (filter
          (λ f, sql_lt (get f "actualizado_en" VNone) (VStr (isoformat corte)) = false)
          (procesos s)) (secuencia s) (sync s)).
Proof. intros Hc. unfold limpiar_datos_antiguos. by rewrite Hc. Qed.

(** X12. A purge deletes by age alone.  After a tender is written at [T],
    a purge at [ahora] that keeps [dias] days succeeds whenever its cut-off
    date exists, reports as many rows as it removes, and leaves the row of
    the tender in place when [ahora - T] is at most [dias] days, the cut-off
    itself included; when the row is older, no row is left under its
    identifier.  The purge does not touch the synchronisation metadata, so
    the [total_procesos] recorded there is not adjusted. *)
Theorem limpiar_datos_antiguos_conserva (s : db) (p : dict) (x : string)
    (T ahora corte : datetime) (dias : Z) (fila : dict) :
  datetime_valida T = true → datetime_valida ahora = true →
  get p "nomenclatura" VNone = VStr x →
  fila_de p T = Some fila →
  restar_horas ahora (24 * dias) = Some corte →
  let s1 := snd (guardar_proceso p T s) in
  let fila' := <["id" := VNum (Qc_of_Z (secuencia s + 1))]> fila in
  let edad := a_microsegundos ahora - a_microsegundos T in
  ∃ n s',
    limpiar_datos_antiguos s1 ahora dias = Some (n, s')
    ∧ n + Z.of_nat (length (procesos s')) = Z.of_nat (length (procesos s1))
    ∧ sync s' = sync s1
    ∧ (edad ≤ 24 * dias * una_hora → filas_de x s' = [fila'])
    ∧ (24 * dias * una_hora < edad → filas_de x s' = []).
Proof.
  intros HT Hahora Hx Hfila Hcorte s1 fila' edad.
  destruct (insert_or_replace_filas p T s fila x Hfila Hx)
    as (s2 & Hrun & _ & Hfilas & _).
  assert (Hs1 : s1 = s2) by (unfold s1, guardar_proceso; by rewrite Hrun).
  rewrite Hs1. clear s1 Hs1. fold fila' in Hfilas.
  destruct (restar_horas_spec _ _ _ Hahora Hcorte) as [Hvc Hus].
  assert (Hact : get fila' "actualizado_en" VNone = VStr (isoformat T)).
  { unfold get, fila'. rewrite lookup_insert_ne by done.
    by rewrite (fila_de_actualizado _ _ _ Hfila). }
  rewrite (limpiar_datos_antiguos_Some _ _ _ _ Hcorte).
  eexists _, _. split; [reflexivity|]. cbn [procesos sync].
  split; [|split; [done|]].
  - pose proof (filter_length_partes
      (λ f : dict, sql_lt (get f "actualizado_en" VNone) (VStr (isoformat corte)))
      (procesos s2)). lia.
  - unfold filas_de. cbn [procesos].
    rewrite list_filter_filter.
    rewrite (list_filter_iff _
      (λ f, sql_lt (get f "actualizado_en" VNone) (VStr (isoformat corte)) = false
            ∧ nomenclatura_es x f = true)) by (intros f; tauto).
    rewrite <- list_filter_filter, Hfilas. split; intros Hedad.
    + rewrite filter_cons_True, filter_nil; [done|]. rewrite Hact.
      apply not_true_is_false. rewrite sql_lt_isoformat by done.
      unfold edad in Hedad. lia.
    + rewrite filter_cons_False, filter_nil; [done|]. rewrite Hact.
      apply not_false_iff_true. apply sql_lt_isoformat; [done..|].
      unfold edad in Hedad. lia.
Qed.

(** X13. A purge removes nothing that a freshness query could still
    return: when the cut-off of a query ([luego] minus [W] hours) is not
    before the cut-off of the purge ([ahora] minus [dias] days), the query
    with the freshness filter on, and [datos_frescos_disponibles], give the
    same answers on the purged store as on the store before the purge. *)
Theorem limpiar_datos_antiguos_frescos (s s' : db) (ahora luego : datetime)
    (dias W n : Z) (d t e x : option string) (limite : Z) :
  datetime_valida ahora = true → datetime_valida luego = true →
  a_microsegundos ahora - 24 * dias * una_hora
    ≤ a_microsegundos luego - W * una_hora →
  limpiar_datos_antiguos s ahora dias = Some (n, s') →
  buscar s' luego d t e x limite true W = buscar s luego d t e x limite true W
  ∧ datos_frescos_disponibles s' luego W = datos_frescos_disponibles s luego W.
Proof.
  intros Hahora Hluego Hcortes Hrun.
  destruct (restar_horas ahora (24 * dias)) as [cp|] eqn:Hcp;
    [|unfold limpiar_datos_antiguos in Hrun; by rewrite Hcp in Hrun].
  rewrite (limpiar_datos_antiguos_Some _ _ _ _ Hcp) in Hrun.
  injection Hrun as _ <-.
  destruct (restar_horas_spec _ _ _ Hahora Hcp) as [Hvp Hup].
  unfold buscar, datos_frescos_disponibles.
  destruct (restar_horas luego W) as [cq|] eqn:Hcq; [|done].
  destruct (restar_horas_spec _ _ _ Hluego Hcq) as [Hvq Huq].
  cbn [mbind option_bind procesos].
  assert (Hfresca : ∀ f : dict,
    sql_ge (get f "actualizado_en" VNone) (VStr (isoformat cq)) = true →
    sql_lt (get f "actualizado_en" VNone) (VStr (isoformat cp)) = false).
  { intros f Hf. apply (sql_ge_no_lt _ _ _ Hf).
    apply sql_ge_isoformat; [done..|]. lia. }
  split; do 2 f_equal.
  - f_equal. rewrite list_filter_filter. apply list_filter_iff. intros f.
    split; [tauto|]. intros Hc. split; [done|].
    apply Hfresca. apply Is_true_true in Hc. rewrite coincide_corte in Hc.
    by apply andb_prop in Hc as [_ ?].
  - do 2 f_equal. rewrite list_filter_filter. apply list_filter_iff. intros f.
    split; [tauto|]. intros Hc. split; [done|].
    apply Hfresca. by apply Is_true_true.
Qed.

End Purga.

(** ** The properties above on the example stores *)

(** [buscar_resultados] on a query for fresh rows. *)
Lemma buscar_resultados_ejemplo :
  let res := default [] (buscar (H := builtins_ejemplo) almacen_ejemplo t_tarde
                           None None None None 50 true 12) in
  res ⊆+ procesos almacen_ejemplo
  ∧ (∀ f, f ∈ res → coincide (H := builtins_ejemplo) None None None None None f = true)
  ∧ (0 ≤ 50 → Z.of_nat (length res) ≤ 50).
Proof.
  apply (buscar_resultados (H := builtins_ejemplo) almacen_ejemplo t_tarde
           None None None None 50 true 12).
  apply Some_default_is_Some, (@bool_decide_unpack _ (is_Some_dec _)).
  vm_compute. exact I.
Defined.

(** [buscar_ordenado] on a query by text. *)
Lemma buscar_ordenado_ejemplo :
  StronglySorted (λ f g, antes f g = true)
    (default [] (buscar (H := builtins_ejemplo) almacen_ejemplo t_tarde
                   None None None (Some "X") 50 false 12)).
Proof.
  apply (buscar_ordenado (H := builtins_ejemplo) almacen_ejemplo t_tarde
           None None None (Some "X") 50 false 12).
  apply Some_default_is_Some, (@bool_decide_unpack _ (is_Some_dec _)).
  vm_compute. exact I.
Defined.

(** [datos_frescos_disponibles_buscar] with the default limit. *)
Lemma datos_frescos_disponibles_buscar_ejemplo :
  datos_frescos_disponibles almacen_ejemplo t_tarde 12 =
  no_vacia <$> buscar (H := builtins_ejemplo) almacen_ejemplo t_tarde
                 None None None None 50 true 12.
Proof.
  apply (datos_frescos_disponibles_buscar (H := builtins_ejemplo)
           almacen_ejemplo t_tarde 12 50).
  lia.
Defined.

(** [contar_procesos_buscar] for a department. *)
Lemma contar_procesos_buscar_ejemplo :
  ∃ res,
    buscar (H := builtins_ejemplo) almacen_ejemplo t_tarde
      (Some "CUSCO") None None None (-1) false 12 = Some res
    ∧ contar_procesos (H := builtins_ejemplo) almacen_ejemplo (Some "CUSCO") None
        ≤ Z.of_nat (length res)
    ∧ ((∀ t', dado None = Some t' → tipo_map (lower t') = None) →
       contar_procesos (H := builtins_ejemplo) almacen_ejemplo (Some "CUSCO") None
         = Z.of_nat (length res)).
Proof.
  apply (contar_procesos_buscar (H := builtins_ejemplo) almacen_ejemplo t_tarde
           (Some "CUSCO") None (-1) 12).
  lia.
Defined.

(** [contar_procesos_obras] on a store of one public work. *)
Lemma contar_procesos_obras_ejemplo :
  contar_procesos (H := builtins_ejemplo) almacen_obras None (Some "obras") = 0
  ∧ ∃ res, buscar (H := builtins_ejemplo) almacen_obras t_tarde
             None (Some "obras") None None (-1) false 12 = Some res
           ∧ res ≡ₚ procesos almacen_obras.
Proof.
  apply (contar_procesos_obras (H := builtins_ejemplo) almacen_obras t_tarde (-1) 12).
  - lia.
  - constructor; [vm_compute; reflexivity|constructor].
Defined.

(** [limpiar_datos_antiguos_conserva] on a row written twelve hours before a
    purge that keeps thirty days. *)
Lemma limpiar_datos_antiguos_conserva_ejemplo :
  let s1 := snd (guardar_proceso (H := builtins_ejemplo) tender_A t_manana db_inicial) in
  let fila' := <["id" := VNum (Qc_of_Z (secuencia db_inicial + 1))]> fila_A in
  let edad := a_microsegundos t_tarde - a_microsegundos t_manana in
  ∃ n s',
    limpiar_datos_antiguos s1 t_tarde 30 = Some (n, s')
    ∧ n + Z.of_nat (length (procesos s')) = Z.of_nat (length (procesos s1))
    ∧ sync s' = sync s1
    ∧ (edad ≤ 24 * 30 * una_hora → filas_de "X" s' = [fila'])
    ∧ (24 * 30 * una_hora < edad → filas_de "X" s' = []).
Proof.
  apply (limpiar_datos_antiguos_conserva (H := builtins_ejemplo) db_inicial tender_A "X"
           t_manana t_tarde (DateTime (Fecha 2025 12 16) 20 0 0 0) 30 fila_A).
  - reflexivity.
  - reflexivity.
  - reflexivity.
  - apply Some_default_is_Some, (@bool_decide_unpack _ (is_Some_dec _)).
    vm_compute. exact I.
  - vm_compute. reflexivity.
Defined.

(** [limpiar_datos_antiguos_frescos] on a purge at [t_manana] and a query
    twelve hours later. *)
Lemma limpiar_datos_antiguos_frescos_ejemplo :
  buscar (H := builtins_ejemplo)
    (default db_inicial (snd <$> limpiar_datos_antiguos almacen_ejemplo t_manana 30))
    t_tarde None None None None 50 true 12
  = buscar (H := builtins_ejemplo) almacen_ejemplo t_tarde None None None None 50 true 12
  ∧ datos_frescos_disponibles
      (default db_inicial (snd <$> limpiar_datos_antiguos almacen_ejemplo t_manana 30))
      t_tarde 12
    = datos_frescos_disponibles almacen_ejemplo t_tarde 12.
Proof.
  apply (limpiar_datos_antiguos_frescos (H := builtins_ejemplo) almacen_ejemplo _
           t_manana t_tarde 30 12
           (default 0 (fst <$> limpiar_datos_antiguos almacen_ejemplo t_manana 30))).
  - reflexivity.
  - reflexivity.
  - vm_compute. discriminate.
  - vm_compute. reflexivity.
Defined.

(** * More properties of the fetch *)

Lemma filtrar_pagina_spec deps tipos limite pagina : ∀ releases total,
  ∃ ok nuevos,
    filtrar_pagina deps tipos limite pagina releases total =
      (ok, (releases ++ nuevos)%list, total + Z.of_nat (length nuevos))
    ∧ nuevos `prefix_of` filter (λ r, pasa_filtros deps tipos r = true) pagina
    ∧ (total < limite → total + Z.of_nat (length nuevos) ≤ limite).
Proof.
  induction pagina as [|r pagina IH]; intros releases total.
  - exists true, []. cbn [filtrar_pagina length]. rewrite app_nil_r, Z.add_0_r.
    split_and!; [done|done|lia].
  - cbn [filtrar_pagina]. cbv zeta.
    assert (Hsalta : pasa_filtros deps tipos r = false →
      ∃ ok nuevos,
        filtrar_pagina deps tipos limite pagina releases total =
          (ok, (releases ++ nuevos)%list, total + Z.of_nat (length nuevos))
        ∧ nuevos `prefix_of` filter (λ r, pasa_filtros deps tipos r = true) (r :: pagina)
        ∧ (total < limite → total + Z.of_nat (length nuevos) ≤ limite)).
    { intros Hr. destruct (IH releases total) as (ok & nuevos & Hrun & Hpre & Hlim).
      exists ok, nuevos. split_and!; [done| |done].
      by rewrite filter_cons_False by congruence. }
    assert (Htoma : pasa_filtros deps tipos r = true →
      ∃ ok nuevos,
        (if limite <=? total + 1
         then (true, (releases ++ [r])%list, total + 1)
         else filtrar_pagina deps tipos limite pagina (releases ++ [r])%list (total + 1)) =
          (ok, (releases ++ nuevos)%list, total + Z.of_nat (length nuevos))
        ∧ nuevos `prefix_of` filter (λ r, pasa_filtros deps tipos r = true) (r :: pagina)
        ∧ (total < limite → total + Z.of_nat (length nuevos) ≤ limite)).
    { intros Hr. rewrite filter_cons_True by done.
      destruct (Z.leb_spec limite (total + 1)) as [Hl|Hl].
      - exists true, [r]. cbn [length]. split_and!; [done| |lia].
        by apply prefix_cons, prefix_nil.
      - destruct (IH (releases ++ [r])%list (total + 1))
          as (ok & nuevos & Hrun & Hpre & Hlim).
        exists ok, (r :: nuevos). rewrite Hrun, <- app_assoc. cbn [length app].
        split_and!; [f_equal; lia|by apply prefix_cons|lia]. }
    destruct (match deps with [] => false | _ :: _ => true end
              && negb (existsb (String.eqb "TODOS") (upper <$> deps))) eqn:Hd.
    + destruct (py_upper (_extraer_ubicacion r)) as [u|] eqn:Hu.
      * destruct (existsb (λ d, contiene (upper d) u) deps) eqn:He.
        -- destruct (match tipos with [] => false | _ :: _ => true end
                     && negb (existsb (λ t, es_texto t (_extraer_tipo r)) tipos))
             eqn:Ht; [apply Hsalta|apply Htoma];
             unfold pasa_filtros; by rewrite Hd, Hu, He, Ht.
        -- apply Hsalta. unfold pasa_filtros. by rewrite Hd, Hu, He.
      * exists false, []. cbn [length]. rewrite app_nil_r, Z.add_0_r.
        split_and!; [done|apply prefix_nil|lia].
    + destruct (match tipos with [] => false | _ :: _ => true end
                && negb (existsb (λ t, es_texto t (_extraer_tipo r)) tipos))
        eqn:Ht; [apply Hsalta|apply Htoma];
        unfold pasa_filtros; by rewrite Hd, Ht.
Qed.

Lemma paginar_spec servidor deps tipos limite page_size fuel :
  ∀ page releases total res,
    paginar fuel servidor deps tipos limite page_size page releases total = Some res →
    ∃ nuevos,
      res = (releases ++ nuevos)%list
      ∧ (total + Z.of_nat (length nuevos) ≤ Z.max total limite)
      ∧ Forall (λ r, pasa_filtros deps tipos r = true
                     ∧ servido servidor page_size r) nuevos.
Proof.
  induction fuel as [|fuel IH]; intros page releases total res; [done|].
  assert (Hnada : Some releases = Some res →
    ∃ nuevos, res = (releases ++ nuevos)%list
      ∧ (total + Z.of_nat (length nuevos) ≤ Z.max total limite)
      ∧ Forall (λ r, pasa_filtros deps tipos r = true
                     ∧ servido servidor page_size r) nuevos).
  { intros [= <-]. exists []. cbn [length]. rewrite app_nil_r.
    split_and!; [done|lia|constructor]. }
  cbn [paginar]. destruct (Z.ltb_spec total limite) as [Hlt|Hge]; [|done].
  destruct (servidor page page_size) as [|status_code json] eqn:Hserv; [done|].
  destruct (Z.eqb_spec status_code 200) as [->|_]; [|done].
  destruct json as [data|]; [|done]. cbn [mbind option_bind].
  destruct (py_get data "releases" (VList [])) as [releases_page|] eqn:Hrp; [|done].
  destruct (truthy releases_page); cbn [negb]; [|done].
  destruct (py_iter releases_page) as [pagina|] eqn:Hit; [|done].
  destruct (filtrar_pagina_spec deps tipos limite pagina releases total)
    as (ok & nuevos & Hrun & Hpre & Hlim).
  rewrite Hrun.
  assert (Hnuevos : Forall (λ r, pasa_filtros deps tipos r = true
                                 ∧ servido servidor page_size r) nuevos).
  { apply Forall_forall. intros r Hr.
    assert (r ∈ filter (λ r, pasa_filtros deps tipos r = true) pagina) as Hf.
    { destruct Hpre as [k ->]. apply elem_of_app. by left. }
    apply list_elem_of_filter in Hf as [Hpasa Hin]. split; [done|].
    by exists page, data, releases_page, pagina. }
  assert (Haqui : Some (releases ++ nuevos)%list = Some res →
    ∃ nuevos, res = (releases ++ nuevos)%list
      ∧ (total + Z.of_nat (length nuevos) ≤ Z.max total limite)
      ∧ Forall (λ r, pasa_filtros deps tipos r = true
                     ∧ servido servidor page_size r) nuevos).
  { intros [= <-]. exists nuevos. split_and!; [done|lia|done]. }
  destruct ok; cbn [negb]; [|done].
  destruct (py_get data "links" (VDict ∅)) as [links|]; [|done].
  cbn [mbind option_bind].
  destruct (py_get links "next" VNone) as [next|]; [|done].
  destruct (truthy next); [|done].
  intros (mas & -> & Hlen & Hmas)%IH.
  exists (nuevos ++ mas)%list. rewrite app_assoc, length_app.
  split_and!; [done|lia|by apply Forall_app].
Qed.

Lemma _obtener_desde_api_sin_limite fuel servidor limite
    (departamentos tipos_objeto : option (list string)) releases :
  limite ≤ 0 →
  descargar_releases fuel servidor limite departamentos tipos_objeto = Some releases →
  releases = [].
Proof.
  intros Hl. unfold descargar_releases, _obtener_desde_api. cbv zeta.
  intros (nuevos & -> & Hlen & _)%paginar_spec.
  destruct nuevos; [done|]. cbn [length] in Hlen. lia.
Qed.

(** X14. Every release that [_obtener_desde_api] returns was in a page the
    server answered with status 200 and passes the department and type
    filters, and it never returns more than [limite] releases (none when
    [limite] is not positive). *)
Theorem obtener_desde_api_releases (fuel : nat) (servidor : Z → Z → respuesta)
    (departamentos tipos_ocds : list string) (limite : Z) (releases : list pyval) :
  _obtener_desde_api fuel servidor departamentos tipos_ocds limite = Some releases →
  Z.of_nat (length releases) ≤ Z.max 0 limite
  ∧ Forall (λ r, pasa_filtros departamentos tipos_ocds r = true
                 ∧ servido servidor (Z.min limite 100) r) releases.
Proof.
  unfold _obtener_desde_api. intros (nuevos & -> & Hlen & Hn)%paginar_spec.
  by rewrite app_nil_l.
Qed.

Lemma paginar_termina servidor deps tipos limite page_size n fuel :
  ∀ page releases total,
    page ≤ n < page + Z.of_nat fuel →
    ultima_pagina (servidor n page_size) = true →
    is_Some (paginar fuel servidor deps tipos limite page_size page releases total).
Proof.
  induction fuel as [|fuel IH]; intros page releases total Hn Hult; [lia|].
  cbn [paginar]. destruct (total <? limite); [|by eexists].
  destruct (decide (page = n)) as [->|Hne].
  - unfold ultima_pagina in Hult.
    destruct (servidor n page_size) as [|status_code json]; [by eexists|].
    destruct (status_code =? 200); [|by eexists].
    destruct json as [data|]; [|by eexists]. cbn [mbind option_bind] in *.
    destruct (py_get data "releases" (VList [])) as [releases_page|]; [|by eexists].
    destruct (negb (truthy releases_page)); [by eexists|].
    destruct (py_iter releases_page) as [pagina|]; [|by eexists].
    destruct (filtrar_pagina _ _ _ _ _ _) as [[ok releases'] total'].
    destruct (negb ok); [by eexists|].
    destruct (py_get data "links" (VDict ∅)) as [links|]; [|by eexists].
    cbn [mbind option_bind] in *.
    destruct (py_get links "next" VNone) as [next|]; [|by eexists].
    destruct (truthy next); [done|by eexists].
  - destruct (servidor page page_size) as [|status_code json]; [by eexists|].
    destruct (status_code =? 200); [|by eexists].
    destruct (data ← json; py_get data "releases" (VList []))
      as [releases_page|]; [|by eexists].
    destruct (negb (truthy releases_page)); [by eexists|].
    destruct (py_iter releases_page) as [pagina|]; [|by eexists].
    destruct (filtrar_pagina _ _ _ _ _ _) as [[ok releases'] total'].
    destruct (negb ok); [by eexists|].
    destruct (data ← json; links ← py_get data "links" (VDict ∅);
              py_get links "next" VNone) as [next|]; [|by eexists].
    destruct (truthy next); [|by eexists].
    apply IH; [lia|done].
Qed.

(** X15. The page loop of [_obtener_desde_api] ends as soon as the server
    gives an answer that is not a 200 with a link to a next page: if the
    answer to page [n] is such an answer, [n] rounds of the loop are enough
    for the call to return. *)
Theorem obtener_desde_api_termina (fuel : nat) (servidor : Z → Z → respuesta)
    (departamentos tipos_ocds : list string) (limite n : Z) :
  1 ≤ n ≤ Z.of_nat fuel →
  ultima_pagina (servidor n (Z.min limite 100)) = true →
  is_Some (_obtener_desde_api fuel servidor departamentos tipos_ocds limite).
Proof.
  intros Hn Hult. unfold _obtener_desde_api.
  apply (paginar_termina _ _ _ _ _ n); [lia|done].
Qed.

(** [descargar_releases] drops the type names it does not know. *)
Lemma tipos_desconocidos (tipos : list string) :
  Forall (λ t, TIPOS_INTERNOS_MAP (lower t) = None) tipos →
  concat ((λ tipo, default [] (TIPOS_INTERNOS_MAP (lower tipo))) <$> tipos) = [].
Proof.
  induction 1 as [|t tipos Ht _ IH]; [done|].
  cbn [fmap list_fmap concat]. by rewrite Ht, IH.
Qed.

(** X16. A list of types none of which is one of the four known names
    turns the type filter off: [descargar_releases] then fetches what it
    fetches for an empty list of types, and every release passes the type
    part of the filter. *)
Theorem descargar_releases_tipos_desconocidos (fuel : nat)
    (servidor : Z → Z → respuesta) (limite : Z)
    (departamentos : option (list string)) (tipos : list string) :
  Forall (λ t, TIPOS_INTERNOS_MAP (lower t) = None) tipos →
  descargar_releases fuel servidor limite departamentos (Some tipos) =
  descargar_releases fuel servidor limite departamentos (Some [])
  ∧ ∀ release, pasa_filtros [] [] release = true.
Proof.
  intros Ht. split; [|done]. unfold descargar_releases.
  cbn [default from_option id]. by rewrite (tipos_desconocidos _ Ht).
Qed.

(** * More properties of the normaliser *)

Lemma TIPOS_OCDS_MAP_valores k :
  default "Obra" (TIPOS_OCDS_MAP k)
    ∈ ["Bien"; "Obra"; "Servicio"; "Consultoría de Obra"].
Proof.
  assert (Hobra : "Obra" ∈ ["Bien"; "Obra"; "Servicio"; "Consultoría de Obra"])
    by (right; left).
  unfold TIPOS_OCDS_MAP.
  repeat (match goal with
          | |- context [match ?x with _ => _ end] => destruct x
          end; try exact Hobra).
  all: cbn [default from_option id]; repeat constructor.
Qed.

Lemma status_map_valores k :
  default "Convocado" (status_map k)
    ∈ ["Convocado"; "Adjudicado"; "Cancelado"; "Desierto"].
Proof.
  assert (Hc : "Convocado" ∈ ["Convocado"; "Adjudicado"; "Cancelado"; "Desierto"])
    by left.
  unfold status_map.
  repeat (match goal with
          | |- context [match ?x with _ => _ end] => destruct x
          end; try exact Hc).
  all: cbn [default from_option id]; repeat constructor.
Qed.

Section NormalizadorCampos.

Context `{Builtins}.

(** X17. Every tender that [convertir_a_proceso] returns has exactly the
    seventeen fields of [ProcesoSEACE]; its [tipo_objeto] is one of the four
    category names and its [estado] one of the four state names, whatever
    the release says; its [valor_referencial] is a number; its
    [departamento] is what [_extraer_ubicacion] finds; and the three dates
    the OCDS feed does not carry are [None]. *)
Theorem convertir_a_proceso_campos (release : pyval) (p : dict) :
  convertir_a_proceso release = Some p →
  dom p = list_to_set (C := gset string) campos_proceso
  ∧ (∃ t, p !! "tipo_objeto" = Some (VStr t)
          ∧ t ∈ ["Bien"; "Obra"; "Servicio"; "Consultoría de Obra"])
  ∧ (∃ e, p !! "estado" = Some (VStr e)
          ∧ e ∈ ["Convocado"; "Adjudicado"; "Cancelado"; "Desierto"])
  ∧ (∃ q, p !! "valor_referencial" = Some (VNum q))
  ∧ p !! "departamento" = Some (_extraer_ubicacion release)
  ∧ p !! "fecha_registro_participantes" = Some VNone
  ∧ p !! "fecha_integracion_bases" = Some VNone
  ∧ p !! "fecha_buena_pro" = Some VNone.
Proof.
  unfold convertir_a_proceso. intros Hp.
  repeat (apply bind_Some in Hp as (? & _ & Hp); cbv zeta in Hp).
  apply (inj Some) in Hp. subst p. split.
  - by rewrite dom_list_to_map_L.
  - cbn [list_to_map foldr uncurry fst snd]. split_and!.
    + eexists. split; [by repeat (rewrite lookup_insert_ne by done);
                          rewrite lookup_insert_eq|].
      apply TIPOS_OCDS_MAP_valores.
    + eexists. split; [by repeat (rewrite lookup_insert_ne by done);
                          rewrite lookup_insert_eq|].
      apply status_map_valores.
    + eexists. by repeat (rewrite lookup_insert_ne by done); rewrite lookup_insert_eq.
    + by repeat (rewrite lookup_insert_ne by done); rewrite lookup_insert_eq.
    + by repeat (rewrite lookup_insert_ne by done); rewrite lookup_insert_eq.
    + by repeat (rewrite lookup_insert_ne by done); rewrite lookup_insert_eq.
    + by repeat (rewrite lookup_insert_ne by done); rewrite lookup_insert_eq.
Qed.

Lemma convertir_hasta_spec limite releases : ∀ procesos,
  convertir_hasta limite releases procesos =
  (procesos ++ take (Z.to_nat (Z.max 1 (limite - Z.of_nat (length procesos))))
                 (omap convertir_a_proceso releases))%list.
Proof.
  induction releases as [|r releases IH]; intros procesos.
  - cbn [convertir_hasta omap list_omap]. by rewrite take_nil, app_nil_r.
  - cbn [convertir_hasta omap list_omap].
    destruct (convertir_a_proceso r) as [p|]; [|apply IH].
    destruct (Z.leb_spec limite (Z.of_nat (length (procesos ++ [p])))) as [Hl|Hl];
      rewrite length_app in Hl; cbn [length] in Hl.
    + replace (Z.to_nat (Z.max 1 (limite - Z.of_nat (length procesos))))
        with 1%nat by lia.
      cbn [take]. by rewrite take_0.
    + rewrite IH, <- app_assoc, length_app. cbn [length app].
      replace (Z.to_nat (Z.max 1 (limite - Z.of_nat (length procesos))))
        with (S (Z.to_nat (Z.max 1 (limite - Z.of_nat (length procesos + 1)))))
        by lia.
      done.
Qed.


(** X18. [buscar_procesos] returns the conversions of the releases it
    fetched with twice its limit, in the order fetched, skipping the
    releases that fail to convert and stopping at [limite] tenders; with a
    limit that is not positive it returns nothing. *)
Theorem buscar_procesos_resultado (fuel : nat) (servidor : Z → Z → respuesta)
    (departamentos tipos_objeto : option (list string)) (limite : Z)
    (procesos : list dict) :
  buscar_procesos fuel servidor departamentos tipos_objeto limite = Some procesos →
  ∃ releases,
    descargar_releases fuel servidor (limite * 2)
      (Some (default ["ANCASH"; "LIMA"] departamentos))
      (Some (default ["obras"; "consultoria_obras"] tipos_objeto)) = Some releases
    ∧ procesos = take (Z.to_nat limite) (omap convertir_a_proceso releases)
    ∧ Z.of_nat (length procesos) ≤ Z.max 0 limite.
Proof.
  unfold buscar_procesos. cbv zeta.
  destruct (descargar_releases _ _ _ _ _) as [releases|] eqn:Hd; [|done].
  cbn [mbind option_bind]. intros [= <-]. exists releases. split; [done|].
  rewrite convertir_hasta_spec. cbn [length app]. rewrite Z.sub_0_r.
  destruct (Z.le_gt_cases limite 0) as [Hl|Hl].
  - apply _obtener_desde_api_sin_limite in Hd as ->; [|lia].
    cbn [omap list_omap]. rewrite !take_nil. cbn [length]. split; [done|lia].
  - replace (Z.max 1 limite) with limite by lia. split; [done|].
    rewrite length_take. lia.
Qed.

End NormalizadorCampos.

(** * More properties of the synchronisation *)

Section SincronizacionInforme.

Context `{Builtins}.





End SincronizacionInforme.

(** ** The properties above on the example server *)

(** [obtener_desde_api_releases] on a server that fails at its second
    page. *)
Lemma obtener_desde_api_releases_ejemplo :
  let releases :=
    default [] (_obtener_desde_api 5 servidor_cae_en_pagina_2 ["TODOS"] [] 500) in
  Z.of_nat (length releases) ≤ Z.max 0 500
  ∧ Forall (λ r, pasa_filtros ["TODOS"] [] r = true
                 ∧ servido servidor_cae_en_pagina_2 (Z.min 500 100) r) releases.
Proof.
  apply (obtener_desde_api_releases 5 servidor_cae_en_pagina_2 ["TODOS"] [] 500).
  apply Some_default_is_Some, (@bool_decide_unpack _ (is_Some_dec _)).
  vm_compute. exact I.
Defined.

(** [obtener_desde_api_termina] on the same server. *)
Lemma obtener_desde_api_termina_ejemplo :
  is_Some (_obtener_desde_api 5 servidor_cae_en_pagina_2 ["ANCASH"; "LIMA"]
             ["works"] 500).
Proof.
  apply (obtener_desde_api_termina 5 servidor_cae_en_pagina_2
           ["ANCASH"; "LIMA"] ["works"] 500 2).
  - lia.
  - reflexivity.
Defined.

(** [descargar_releases_tipos_desconocidos] on a type name that is not a
    key. *)
Lemma descargar_releases_tipos_desconocidos_ejemplo :
  descargar_releases 5 servidor_cae_en_pagina_2 500 None (Some ["obra"; "suministros"])
  = descargar_releases 5 servidor_cae_en_pagina_2 500 None (Some [])
  ∧ ∀ release, pasa_filtros [] [] release = true.
Proof.
  apply (descargar_releases_tipos_desconocidos 5 servidor_cae_en_pagina_2 500 None
           ["obra"; "suministros"]).
  constructor; [vm_compute; reflexivity|].
  constructor; [vm_compute; reflexivity|constructor].
Defined.

(** [convertir_a_proceso_campos] on a release with an identifier and a
    date. *)
Lemma convertir_a_proceso_campos_ejemplo :
  let p := default ∅ (convertir_a_proceso (H := builtins_ejemplo)
                        (release_de "LP-1" "2026-01-31T00:00:00Z")) in
  dom p = list_to_set (C := gset string) campos_proceso
  ∧ (∃ t, p !! "tipo_objeto" = Some (VStr t)
          ∧ t ∈ ["Bien"; "Obra"; "Servicio"; "Consultoría de Obra"])
  ∧ (∃ e, p !! "estado" = Some (VStr e)
          ∧ e ∈ ["Convocado"; "Adjudicado"; "Cancelado"; "Desierto"])
  ∧ (∃ q, p !! "valor_referencial" = Some (VNum q))
  ∧ p !! "departamento"
    = Some (_extraer_ubicacion (release_de "LP-1" "2026-01-31T00:00:00Z"))
  ∧ p !! "fecha_registro_participantes" = Some VNone
  ∧ p !! "fecha_integracion_bases" = Some VNone
  ∧ p !! "fecha_buena_pro" = Some VNone.
Proof.
  apply (convertir_a_proceso_campos (H := builtins_ejemplo)
           (release_de "LP-1" "2026-01-31T00:00:00Z")).
  apply Some_default_is_Some, (@bool_decide_unpack _ (is_Some_dec _)).
  vm_compute. exact I.
Defined.

(** [buscar_procesos_resultado] on the example server. *)
Lemma buscar_procesos_resultado_ejemplo :
  let procesos :=
    default [] (buscar_procesos (H := builtins_ejemplo) 5 servidor_cae_en_pagina_2
                  (Some ["TODOS"]) None 500) in
  ∃ releases,
    descargar_releases 5 servidor_cae_en_pagina_2 (500 * 2)
      (Some (default ["ANCASH"; "LIMA"] (Some ["TODOS"])))
      (Some (default ["obras"; "consultoria_obras"] None)) = Some releases
    ∧ procesos = take (Z.to_nat 500)
                   (omap (convertir_a_proceso (H := builtins_ejemplo)) releases)
    ∧ Z.of_nat (length procesos) ≤ Z.max 0 500.
Proof.
  apply (buscar_procesos_resultado (H := builtins_ejemplo) 5 servidor_cae_en_pagina_2
           (Some ["TODOS"]) None 500).
  apply Some_default_is_Some, (@bool_decide_unpack _ (is_Some_dec _)).
  vm_compute. exact I.
Defined.


(** * More properties of the business filters *)

(** ** Deduplication *)

Lemma primeras_ocurrencias_sin_duplicados (h : heap) (l : list loc) :
  NoDup (identificador h <$> l) → primeras_ocurrencias h l = l.
Proof.
  induction l as [|p l IH]; [done|]. cbn [fmap list_fmap].
  intros [Hp Hl]%NoDup_cons. cbn [primeras_ocurrencias].
  rewrite (IH Hl). f_equal. apply filter_todos, Forall_forall.
  intros q Hq Heq. apply Hp. rewrite <- Heq. by apply list_elem_of_fmap_2.
Qed.

(** X20. On tenders, [deduplicar_procesos] returns a sublist of its input
    in which no identifier occurs twice and every identifier of the input
    occurs, and deduplicating its result again changes nothing. *)
Theorem deduplicar_procesos_unicos (h : heap) (l : list loc) :
  Forall (tiene_identificador h) l →
  ∃ out,
    deduplicar_procesos l h = (Some out, h)
    ∧ out `sublist_of` l
    ∧ NoDup (identificador h <$> out)
    ∧ (∀ p, p ∈ l → ∃ q, q ∈ out ∧ identificador h q = identificador h p)
    ∧ deduplicar_procesos out h = (Some out, h).
Proof.
  intros Hl.
  assert (Hrun : ∀ k, Forall (tiene_identificador h) k →
    deduplicar_procesos k h = (Some (primeras_ocurrencias h k), h)).
  { intros k Hk. unfold deduplicar_procesos.
    rewrite deduplicar_desde_primeras by done. cbn [app]. do 2 f_equal.
    apply filter_todos, Forall_forall. intros q _. set_solver. }
  exists (primeras_ocurrencias h l).
  pose proof (primeras_ocurrencias_sublist h l) as Hsub.
  pose proof (primeras_ocurrencias_NoDup h l) as Hnd.
  split_and!; [by apply Hrun|done|done|apply primeras_ocurrencias_cubre|].
  rewrite Hrun.
  - by rewrite primeras_ocurrencias_sin_duplicados.
  - apply Forall_forall. intros q Hq. rewrite Forall_forall in Hl.
    apply Hl. by eapply elem_of_sublist.
Qed.

(** ** Urgency *)

Lemma es_urgente_monotono hoy lim1 lim2 (h : heap) p :
  lim1 ≤ lim2 → es_urgente hoy lim1 h p = true → es_urgente hoy lim2 h p = true.
Proof.
  intros Hl. unfold es_urgente. destruct (dias_de hoy h p) as [d|]; [|done].
  intros [? ?]%andb_prop. apply andb_true_intro. split; [done|lia].
Qed.

Lemma dias_de_marcado hoy lim (h h' : heap) (l : list loc) :
  (∀ q, h' q = if decide (q ∈ l) then marcado hoy lim h q else h q) →
  ∀ p, dias_de hoy h' p = dias_de hoy h p.
Proof.
  intros Hh' p. unfold dias_de, get. rewrite Hh'.
  destruct (decide (p ∈ l)); [|done]. by rewrite marcado_fecha.
Qed.

Lemma es_urgente_marcado hoy lim lim' (h h' : heap) (l : list loc) :
  (∀ q, h' q = if decide (q ∈ l) then marcado hoy lim h q else h q) →
  ∀ p, es_urgente hoy lim' h' p = es_urgente hoy lim' h p.
Proof.
  intros Hh' p. unfold es_urgente. by rewrite (dias_de_marcado _ _ _ _ _ Hh').
Qed.

Lemma marcado_dos_veces hoy lim1 lim2 (h h1 : heap) (l : list loc) :
  lim1 ≤ lim2 →
  (∀ q, h1 q = if decide (q ∈ l) then marcado hoy lim1 h q else h q) →
  ∀ q, q ∈ l → marcado hoy lim2 h1 q = marcado hoy lim2 h q.
Proof.
  intros Hl Hh1 q Hq. unfold marcado at 1.
  rewrite (dias_de_marcado _ _ _ _ _ Hh1), Hh1, decide_True by done.
  unfold marcado. destruct (dias_de hoy h q) as [d|]; [|done].
  destruct (Z.leb_spec 0 d); cbn [andb]; [|done].
  destruct (Z.leb_spec d lim1), (Z.leb_spec d lim2); try done; try lia.
  by rewrite insert_insert_eq.
Qed.

Lemma filtrar_urgentes_de_nuevo_aux (hoy : fecha) (lim1 lim2 : Z)
    (h : heap) (l : list loc) :
  lim1 ≤ lim2 →
  ∃ h1 h2,
    filtrar_urgentes hoy l lim1 h
      = (Some (filter (λ p, es_urgente hoy lim1 h p) l), h1)
    ∧ filtrar_urgentes hoy l lim2 h1
      = (Some (filter (λ p, es_urgente hoy lim2 h p) l), h2)
    ∧ (∀ q, h2 q = if decide (q ∈ l) then marcado hoy lim2 h q else h q).
Proof.
  intros Hl.
  destruct (filtrar_urgentes_desde_spec hoy lim1 l [] h) as (h1 & Hrun1 & Hh1).
  destruct (filtrar_urgentes_desde_spec hoy lim2 l [] h1) as (h2 & Hrun2 & Hh2).
  cbn [app] in Hrun1, Hrun2.
  assert (Hf : filter (λ p, es_urgente hoy lim2 h1 p) l =
               filter (λ p, es_urgente hoy lim2 h p) l).
  { apply list_filter_iff. intros p.
    by rewrite (es_urgente_marcado _ _ _ _ _ _ Hh1). }
  exists h1, h2. split_and!; [exact Hrun1|by rewrite <- Hf|].
  intros q. rewrite Hh2. destruct (decide (q ∈ l)) as [Hq|Hq].
  - by apply (marcado_dos_veces hoy lim1 lim2 h h1 l).
  - rewrite Hh1. by rewrite decide_False.
Qed.

(** X21. Asking [filtrar_urgentes] again with a wider window, on the dicts
    the first call has marked, gives the tenders the wider window would
    have given on the untouched dicts; the tenders of the first call are
    among them, in the same order, and every dict ends as one call with the
    wider window would have left it. *)
Theorem filtrar_urgentes_de_nuevo (hoy : fecha) (lim1 lim2 : Z)
    (h : heap) (l : list loc) :
  lim1 ≤ lim2 →
  ∃ out1 h1 out2 h2,
    filtrar_urgentes hoy l lim1 h = (Some out1, h1)
    ∧ filtrar_urgentes hoy l lim2 h1 = (Some out2, h2)
    ∧ out2 = filter (λ p, es_urgente hoy lim2 h p) l
    ∧ out1 `sublist_of` out2
    ∧ (∀ q, h2 q = if decide (q ∈ l) then marcado hoy lim2 h q else h q).
Proof.
  intros Hl.
  destruct (filtrar_urgentes_de_nuevo_aux hoy lim1 lim2 h l Hl)
    as (h1 & h2 & Hrun1 & Hrun2 & Hh2).
  eexists _, h1, _, h2. split_and!; [exact Hrun1|exact Hrun2|done| |done].
  clear -Hl. induction l as [|p l IH]; [done|].
  rewrite !filter_cons.
  destruct (decide (es_urgente hoy lim1 h p)) as [H1|H1].
  - rewrite decide_True.
    + by apply sublist_skip.
    + apply Is_true_true. apply Is_true_true in H1.
      by apply (es_urgente_monotono hoy lim1 lim2).
  - destruct (decide (es_urgente hoy lim2 h p)); [by apply sublist_cons|done].
Qed.

(** ** The daily summary *)




Section ResumenSpec.

Context `{Builtins} `{Formato}.



End ResumenSpec.

(** ** The filtering stage of the daily job *)

Lemma deduplicar_desde_sublist (l : list loc) : ∀ vistos unicos (h : heap) out,
  fst (deduplicar_desde l vistos unicos h) = Some out →
  ∃ nuevos, out = (unicos ++ nuevos)%list ∧ nuevos `sublist_of` l.
Proof.
  induction l as [|p l IH]; intros vistos unicos h out.
  - cbn. intros [= <-]. exists []. by rewrite app_nil_r.
  - cbn [deduplicar_desde]. m_unfold.
    destruct (truthy (get (h p) "nomenclatura" (VStr ""))).
    + destruct (py_hash_key (get (h p) "nomenclatura" (VStr ""))) as [k|]; [|done].
      cbn. case_decide.
      * intros (nuevos & -> & Hs)%IH. exists nuevos. split; [done|].
        by apply sublist_cons.
      * intros (nuevos & -> & Hs)%IH. exists (p :: nuevos).
        rewrite <- app_assoc. split; [done|]. by apply sublist_skip.
    + intros (nuevos & -> & Hs)%IH. exists nuevos. split; [done|].
      by apply sublist_cons.
Qed.

Section Etapa.

Context `{Builtins}.

Lemma filtrar_por_monto_Some (l : list loc) (F : Qc) (h : heap) out :
  fst (filtrar_por_monto l F h) = Some out →
  out = filter (λ p, alcanza_monto F h p) l.
Proof.
  revert out. induction l as [|p l IH]; intros out.
  - cbn. by intros [= <-].
  - cbn [filtrar_por_monto]. m_unfold. fold (monto h p).
    destruct (monto h p) as [x|] eqn:Hx; [|done].
    destruct (filtrar_por_monto l F h) as [[r|] h1]; [|done].
    cbn [fst] in *. rewrite (IH r eq_refl). intros [= <-].
    case_bool_decide.
    + rewrite filter_cons_True; [done|].
      unfold alcanza_monto. rewrite Hx. by apply bool_decide_pack.
    + rewrite filter_cons_False; [done|].
      unfold alcanza_monto. rewrite Hx. by intros ?%bool_decide_unpack.
Qed.

(** X23. The filtering stage of the daily job narrows the rows step by
    step: the deduplicated rows are a sublist of the rows read, the rows
    kept by amount are those of them whose amount reaches 8 UIT, and the
    urgent rows are those of the latter due within 0 to 3 days, so the three
    counts the job reports never increase from one to the next; the stage
    writes [dias_restantes] on the urgent rows and changes nothing else. *)
Theorem etapa_filtrar_resultado (hoy : fecha) (l : list loc) (h h' : heap)
    (procesos procesos_filtrados urgentes : list loc) :
  etapa_filtrar hoy l h = (Some (procesos, procesos_filtrados, urgentes), h') →
  procesos `sublist_of` l
  ∧ procesos_filtrados
    = filter (λ p, alcanza_monto (Qc_of_Z MONTO_MINIMO_8_UIT) h p) procesos
  ∧ urgentes = filter (λ p, es_urgente hoy 3 h p) procesos_filtrados
  ∧ (length urgentes ≤ length procesos_filtrados ≤ length procesos)%nat
  ∧ (length procesos ≤ length l)%nat
  ∧ (∀ q, h' q = if decide (q ∈ urgentes) then marcado hoy 3 h q else h q).
Proof.
  unfold etapa_filtrar. unfold mbind at 1, M_bind.
  pose proof (deduplicar_procesos_heap l h) as Hh1.
  pose proof (deduplicar_desde_sublist l ∅ [] h) as Hsub.
  fold (deduplicar_procesos l) in Hsub.
  destruct (deduplicar_procesos l h) as [[ps|] h1]; [|done].
  cbn [fst snd] in *. subst h1.
  destruct (Hsub ps eq_refl) as (nuevos & -> & Hs). cbn [app] in *.
  unfold mbind at 1, M_bind.
  pose proof (filtrar_por_monto_heap nuevos (Qc_of_Z MONTO_MINIMO_8_UIT) h) as Hh2.
  pose proof (filtrar_por_monto_Some nuevos (Qc_of_Z MONTO_MINIMO_8_UIT) h) as Hf.
  destruct (filtrar_por_monto nuevos _ h) as [[fs|] h2]; [|done].
  cbn [fst snd] in *. subst h2. specialize (Hf fs eq_refl).
  unfold mbind at 1, M_bind.
  destruct (filtrar_urgentes_desde_spec hoy 3 fs [] h) as (h3 & Hrun & Hh3).
  unfold filtrar_urgentes. rewrite Hrun. cbn [app].
  unfold mret, M_ret. intros [= <- <- <- <-].
  split_and!; [done|done|done| | | |].
  - apply sublist_length, sublist_filter.
  - rewrite Hf. apply sublist_length, sublist_filter.
  - by apply sublist_length.
  - intros q. rewrite Hh3. destruct (decide (q ∈ fs)) as [Hq|Hq].
    + destruct (decide (q ∈ filter (λ p, es_urgente hoy 3 h p) fs)) as [Hu|Hu];
        [done|]. apply marcado_no_urgente. apply not_true_is_false. intros Hu'.
      apply Hu, list_elem_of_filter. by rewrite Is_true_true.
    + rewrite decide_False; [done|].
      by intros [_ ?]%list_elem_of_filter.
Qed.

End Etapa.

(** ** Deduplicating what the store returns *)

Lemma deduplicar_desde_sin_duplicados (h : heap) (l : list loc) :
  Forall (λ p, ∃ s, h p !! "nomenclatura" = Some (VStr s)) l →
  NoDup (identificador h <$> l) →
  ∀ vistos unicos,
    (∀ p, p ∈ l → KStr (identificador h p) ∉ vistos) →
    deduplicar_desde l vistos unicos h =
    (Some (unicos ++ filter (λ p, identificador h p ≠ "") l)%list, h).
Proof.
  induction 1 as [|p l [s Hs] _ IH]; intros Hnd vistos unicos Hv.
  - cbn. by rewrite app_nil_r.
  - cbn [fmap list_fmap] in Hnd. apply NoDup_cons in Hnd as [Hp Hnd].
    assert (Hid : identificador h p = s) by (unfold identificador; by rewrite Hs).
    rewrite filter_cons, Hid.
    destruct (decide (s = "")) as [->|Hne].
    + rewrite decide_False by (intros ?; done).
      cbn [deduplicar_desde]. m_unfold. unfold get. rewrite Hs. cbn.
      apply IH; [done|]. intros q Hq. apply Hv. by right.
    + rewrite decide_True by done.
      rewrite (deduplicar_desde_cons h p l vistos unicos s) by done.
      rewrite decide_False
        by (rewrite <- Hid; apply Hv; left).
      rewrite IH; [by rewrite <- app_assoc|done|].
      intros q Hq. rewrite not_elem_of_union, not_elem_of_singleton. split.
      * intros [= Heq]. apply Hp. rewrite Hid, <- Heq.
        by apply list_elem_of_fmap_2.
      * apply Hv. by right.
Qed.

Lemma NoDup_submseteq_de {A} (l k : list A) : NoDup k → l ⊆+ k → NoDup l.
Proof.
  intros Hk [k' Hp]%submseteq_Permutation. rewrite Hp in Hk.
  by apply NoDup_app in Hk as [? _].
Qed.

Section TrasBuscar.

Context `{Builtins}.

(** X24. On rows that [buscar] returned from a store that meets the table
    constraints, [deduplicar_procesos] finds no duplicate: it returns the
    rows in the order given and leaves out exactly those whose identifier
    is the empty text. *)
Theorem deduplicar_procesos_tras_buscar (s : db) (ahora : datetime)
    (d t e x : option string) (limite : Z) (frescos : bool) (W : Z)
    (res : list dict) (h : heap) (l : list loc) :
  db_ok s →
  buscar s ahora d t e x limite frescos W = Some res →
  h <$> l = res →
  deduplicar_procesos l h =
  (Some (filter (λ p, identificador h p ≠ "") l), h).
Proof.
  intros (_ & Hnom & Hnd & _) [corte ->]%buscar_Some Hl.
  assert (Hsub : h <$> l ⊆+ procesos s).
  { rewrite Hl. etrans; [apply limitar_submseteq|]. rewrite ordenar_perm.
    apply sublist_submseteq, sublist_filter. }
  assert (Htexto : ∀ f : dict, is_Some (nomenclatura_de f) →
            ∃ z, f !! "nomenclatura" = Some (VStr z)).
  { intros f [z Hz]. unfold nomenclatura_de in Hz.
    destruct (f !! "nomenclatura") as [[| | |z'| |]|]; try done. by exists z'. }
  assert (Hid : ∀ p, p ∈ l → nomenclatura_de (h p) = Some (identificador h p)).
  { intros p Hp. rewrite Forall_forall in Hnom.
    destruct (Htexto (h p)) as [z Hz].
    { apply Hnom. eapply elem_of_submseteq; [|exact Hsub].
      by apply list_elem_of_fmap_2. }
    unfold nomenclatura_de, identificador. by rewrite Hz. }
  unfold deduplicar_procesos.
  rewrite deduplicar_desde_sin_duplicados; [done| | |set_solver].
  - apply Forall_forall. intros p Hp. apply Htexto. rewrite (Hid p Hp). by eexists.
  - apply (NoDup_fmap_1 Some). rewrite <- list_fmap_compose.
    assert (Heq : (Some ∘ identificador h) <$> l = (nomenclatura_de ∘ h) <$> l).
    { apply list_fmap_ext. intros i p Hp. cbn. symmetry. apply Hid.
      by eapply list_elem_of_lookup_2. }
    rewrite Heq, list_fmap_compose.
    eapply NoDup_submseteq_de; [exact Hnd|]. by apply fmap_submseteq.
Qed.

End TrasBuscar.

(** ** Reading dates *)

Lemma cifra_propiedades d :
  0 ≤ d ≤ 9 →
  digito (cifra d) = Some d
  ∧ es_espacio (cifra d) = false
  ∧ Ascii.eqb (cifra d) "/" = false
  ∧ Ascii.eqb (cifra d) " " = false
  ∧ Ascii.eqb (cifra d) "-" = false
  ∧ Ascii.eqb (cifra d) "+" = false.
Proof.
  intros Hd.
  assert (d = 0 ∨ d = 1 ∨ d = 2 ∨ d = 3 ∨ d = 4 ∨ d = 5 ∨ d = 6 ∨ d = 7
          ∨ d = 8 ∨ d = 9) as Hd' by lia.
  clear Hd. repeat (destruct Hd' as [->|Hd']); try subst d; by vm_compute.
Qed.

Lemma list_ascii_of_string_app (s t : string) :
  list_ascii_of_string (s ++ t) = (list_ascii_of_string s ++ list_ascii_of_string t)%list.
Proof.
  induction s as [|c s IH]; simpl; [done|]. by rewrite IH.
Qed.

(** The characters of [relleno w n] are decimal digits. *)
Lemma relleno_cifras w : ∀ n,
  Forall (λ c, ∃ d, 0 ≤ d ≤ 9 ∧ c = cifra d) (list_ascii_of_string (relleno w n)).
Proof.
  induction w as [|w IH]; intros n; [constructor|].
  cbn [relleno]. rewrite list_ascii_of_string_app. apply Forall_app. split; [apply IH|].
  repeat constructor. exists (n mod 10). split; [|done].
  Z.div_mod_to_equations. lia.
Qed.

Lemma split_sin_separador sep (s : string) :
  Forall (λ c, Ascii.eqb c sep = false) (list_ascii_of_string s) →
  split sep s = [s].
Proof.
  induction s as [|c s IH]; [done|]. cbn [list_ascii_of_string split].
  intros [Hc Hs]%Forall_cons. by rewrite Hc, (IH Hs).
Qed.

Lemma split_app sep (a b : string) :
  Forall (λ c, Ascii.eqb c sep = false) (list_ascii_of_string a) →
  split sep (a ++ String sep b) = a :: split sep b.
Proof.
  induction a as [|c a IH]; simpl.
  - intros _. by rewrite Ascii.eqb_refl.
  - intros [Hc Ha]%Forall_cons. by rewrite Hc, (IH Ha).
Qed.

Lemma leer_relleno w : ∀ n acc b rest,
  leer_digitos (list_ascii_of_string (relleno w n) ++ rest) acc b =
  leer_digitos rest (acc * 10 ^ Z.of_nat w + n mod 10 ^ Z.of_nat w)
    (b || negb (Nat.eqb w 0)).
Proof.
  induction w as [|w IH]; intros n acc b rest.
  - cbn [relleno list_ascii_of_string app Nat.eqb negb]. rewrite orb_false_r.
    f_equal. rewrite Z.pow_0_r, Z.mod_1_r. lia.
  - cbn [relleno]. rewrite list_ascii_of_string_app, <- app_assoc, IH.
    cbn [list_ascii_of_string app leer_digitos].
    destruct (cifra_propiedades (n mod 10)) as (-> & _);
      [Z.div_mod_to_equations; lia|].
    cbn [Nat.eqb negb]. rewrite orb_true_r. f_equal.
    rewrite Nat2Z.inj_succ, Z.pow_succ_r by lia.
    rewrite (Z.rem_mul_r n 10 (10 ^ Z.of_nat w)) by lia. lia.
Qed.

Lemma quitar_espacios_cifras (l : list ascii) :
  Forall (λ c, ∃ d, 0 ≤ d ≤ 9 ∧ c = cifra d) l → quitar_espacios l = l.
Proof.
  destruct 1 as [|c l (d & Hd & ->) _]; [done|]. cbn [quitar_espacios].
  by destruct (cifra_propiedades d Hd) as (_ & -> & _).
Qed.

Lemma py_int_relleno w n :
  w ≠ 0%nat → 0 ≤ n < 10 ^ Z.of_nat w → py_int (relleno w n) = Some n.
Proof.
  intros Hw Hn. unfold py_int. pose proof (relleno_cifras w n) as Hc.
  rewrite (quitar_espacios_cifras _ Hc).
  rewrite (quitar_espacios_cifras (rev _)) by (by apply Forall_rev).
  rewrite rev_involutive.
  destruct (list_ascii_of_string (relleno w n)) as [|c r] eqn:Hl.
  - destruct w; [done|]. cbn [relleno] in Hl.
    rewrite list_ascii_of_string_app in Hl. by destruct (list_ascii_of_string _).
  - apply Forall_cons in Hc as [(d & Hd & ->) _].
    destruct (cifra_propiedades d Hd) as (_ & _ & _ & _ & -> & ->).
    rewrite <- Hl, <- (app_nil_r (list_ascii_of_string _)), leer_relleno.
    cbn [leer_digitos orb]. destruct w; [done|]. cbn [Nat.eqb negb].
    f_equal. rewrite Z.mod_small by lia. lia.
Qed.

Lemma cifras_sin (sep : ascii) (l : list ascii) :
  (∀ d, 0 ≤ d ≤ 9 → Ascii.eqb (cifra d) sep = false) →
  Forall (λ c, ∃ d, 0 ≤ d ≤ 9 ∧ c = cifra d) l →
  Forall (λ c, Ascii.eqb c sep = false) l.
Proof.
  intros Hsep Hl. eapply Forall_impl; [exact Hl|].
  intros c (d & Hd & ->). by apply Hsep.
Qed.

Lemma analizar_fecha_strftime (f : fecha) :
  fecha_valida f = true → analizar_fecha (strftime_dmy f) = Some f.
Proof.
  intros Hf. pose proof (fecha_valida_rango f Hf) as Hr.
  pose proof (dias_del_mes_rango (anio f) (mes f)) as Hm.
  assert (Hbarra : ∀ w n, Forall (λ c, Ascii.eqb c "/" = false)
                            (list_ascii_of_string (relleno w n))).
  { intros w n. apply cifras_sin; [|apply relleno_cifras].
    intros d Hd. by destruct (cifra_propiedades d Hd) as (_ & _ & -> & _). }
  assert (Hesp : ∀ w n, Forall (λ c, Ascii.eqb c " " = false)
                          (list_ascii_of_string (relleno w n))).
  { intros w n. apply cifras_sin; [|apply relleno_cifras].
    intros d Hd. by destruct (cifra_propiedades d Hd) as (_ & _ & _ & -> & _). }
  unfold analizar_fecha, strftime_dmy.
  rewrite (split_sin_separador " ").
  - cbn [hd].
    change ("/" ++ ?s) with (String "/" s).
    rewrite split_app by apply Hbarra.
    change (relleno 2 (mes f) ++ "/" ++ relleno 4 (anio f))
      with (relleno 2 (mes f) ++ String "/" (relleno 4 (anio f))).
    rewrite split_app by apply Hbarra.
    rewrite split_sin_separador by apply Hbarra.
    rewrite !py_int_relleno by (done || lia).
    cbn [mbind option_bind]. unfold datetime_ymd. destruct f as [y m d].
    cbn [anio mes dia] in *. by rewrite Hf.
  - rewrite !list_ascii_of_string_app. repeat apply Forall_app_2; try apply Hesp.
    all: by repeat constructor.
Qed.

(** X25. [calcular_dias_restantes] reads back every date written as
    [DD/MM/YYYY]: for a date of the years 1 to 9999 in that form, with or
    without a time of day after a space, it returns the number of calendar
    days from today to that date. *)
Theorem calcular_dias_restantes_strftime (hoy f : fecha) (t : string) :
  fecha_valida f = true →
  calcular_dias_restantes hoy (VStr (strftime_dmy f))
    = Some (toordinal f - toordinal hoy)
  ∧ calcular_dias_restantes hoy (VStr (strftime_dmy f ++ " " ++ t))
    = Some (toordinal f - toordinal hoy).
Proof.
  intros Hf. pose proof (analizar_fecha_strftime f Hf) as Ha.
  assert (Hesp : sin_espacio (strftime_dmy f) = true).
  { unfold sin_espacio, strftime_dmy. rewrite !list_ascii_of_string_app.
    rewrite !forallb_app. cbn [list_ascii_of_string forallb].
    assert (He : ∀ w n, forallb (λ c, negb (Ascii.eqb c " "))
                          (list_ascii_of_string (relleno w n)) = true).
    { intros w n. apply forallb_forall. intros c Hc%list_elem_of_In.
      pose proof (relleno_cifras w n) as Hr. rewrite Forall_forall in Hr.
      destruct (Hr c Hc) as (d & Hd & ->).
      by destruct (cifra_propiedades d Hd) as (_ & _ & _ & -> & _). }
    by rewrite !He. }
  split; apply calcular_dias_restantes_Some; eexists _, f;
    (split; [reflexivity|split; [|done]]); [done|].
  by rewrite analizar_fecha_sin_hora.
Qed.

Lemma split_hd_caracteres sep (s : string) (c : ascii) :
  c ∈ list_ascii_of_string (hd "" (split sep s)) → c ∈ list_ascii_of_string s.
Proof.
  induction s as [|a s IH]; [done|]. cbn [split list_ascii_of_string].
  destruct (Ascii.eqb a sep).
  - cbn. by intros ?%elem_of_nil.
  - destruct (split sep s) as [|w ws]; cbn [hd list_ascii_of_string] in *.
    + intros ->%list_elem_of_singleton. left.
    + intros [->|Hc]%elem_of_cons; [left|right; by apply IH].
Qed.

Lemma analizar_fecha_sin_barra (s : string) :
  sin_barra s = true → analizar_fecha s = None.
Proof.
  unfold sin_barra. rewrite forallb_forall. intros Hs.
  unfold analizar_fecha.
  rewrite (split_sin_separador "/" (hd "" (split " " s))); [done|].
  apply Forall_forall. intros c Hc%split_hd_caracteres.
  apply negb_true_iff, Hs. by apply list_elem_of_In.
Qed.

(** X26. A deadline is read only in the form [DD/MM/YYYY]: for a text
    without a slash, such as an ISO date, [calcular_dias_restantes] returns
    [None], and [filtrar_urgentes] returns no tender and writes nothing when
    every deadline of the list is such a text. *)
Theorem filtrar_urgentes_sin_barra (hoy : fecha) (dias_limite : Z)
    (h : heap) (l : list loc) :
  (∀ p, p ∈ l → ∃ s, h p !! "fecha_presentacion_propuestas" = Some (VStr s)
                     ∧ sin_barra s = true) →
  (∀ p, p ∈ l →
     calcular_dias_restantes hoy
       (get (h p) "fecha_presentacion_propuestas" VNone) = None)
  ∧ ∃ h', filtrar_urgentes hoy l dias_limite h = (Some [], h')
          ∧ ∀ q, h' q = h q.
Proof.
  intros Hl.
  assert (Hd : ∀ p, p ∈ l → dias_de hoy h p = None).
  { intros p (s & Hs & Hb)%Hl. unfold dias_de, get. rewrite Hs. cbn [default from_option id].
    unfold calcular_dias_restantes.
    destruct (negb (truthy (VStr s))); [done|].
    by rewrite (analizar_fecha_sin_barra s Hb). }
  split; [exact Hd|].
  destruct (filtrar_urgentes_desde_spec hoy dias_limite l [] h) as (h' & Hrun & Hh').
  exists h'. unfold filtrar_urgentes. rewrite Hrun. cbn [app]. split.
  - rewrite filter_ninguno; [done|].
    intros p Hp Hu. apply Is_true_true in Hu. unfold es_urgente in Hu.
    by rewrite (Hd p Hp) in Hu.
  - intros q. rewrite Hh'.
    destruct (decide (q ∈ l)) as [Hq|Hq]; [|done].
    unfold marcado. by rewrite (Hd q Hq).
Qed.

(** ** Freshness after a write *)

Section FrescuraTrasGuardar.

Context `{Builtins}.

(** X27. After a tender is written at [T], [datos_frescos_disponibles] at
    [ahora] with a window of [W] hours is [True] exactly when the write is
    at most [W] hours old (the cut-off included) or some row stored under
    another identifier is fresh. *)
Theorem datos_frescos_disponibles_tras_guardar (s : db) (p : dict) (x : string)
    (T ahora corte : datetime) (W : Z) (fila : dict) :
  datetime_valida T = true → datetime_valida ahora = true →
  get p "nomenclatura" VNone = VStr x →
  fila_de p T = Some fila →
  restar_horas ahora W = Some corte →
  let edad := a_microsegundos ahora - a_microsegundos T in
  let otras := filter (λ f, nomenclatura_es x f = false) (procesos s) in
  datos_frescos_disponibles (snd (guardar_proceso p T s)) ahora W =
  Some (bool_decide (edad ≤ W * una_hora)
        || no_vacia (filter (λ f, sql_ge (get f "actualizado_en" VNone)
                                          (VStr (isoformat corte))) otras)).
Proof.
  intros HT Hahora Hx Hfila Hcorte edad otras.
  destruct (insert_or_replace_filas p T s fila x Hfila Hx)
    as (s1 & Hrun & Hprocs & _).
  unfold guardar_proceso. rewrite Hrun. cbn [snd].
  destruct (restar_horas_spec _ _ _ Hahora Hcorte) as [Hvc Hus].
  unfold datos_frescos_disponibles. rewrite Hcorte. cbn [mbind option_bind].
  f_equal. rewrite Hprocs, filter_app, length_app. fold otras.
  rewrite no_vacia_length.
  assert (Hact : get (<["id" := VNum (Qc_of_Z (secuencia s + 1))]> fila)
                   "actualizado_en" VNone = VStr (isoformat T)).
  { unfold get. rewrite lookup_insert_ne by done.
    by rewrite (fila_de_actualizado _ _ _ Hfila). }
  case_bool_decide as Hedad.
  - rewrite filter_cons_True.
    + cbn [length orb]. apply Z.ltb_lt. lia.
    + rewrite Hact. apply Is_true_true, sql_ge_isoformat; [done..|].
      unfold edad in Hedad. lia.
  - rewrite filter_cons_False.
    + rewrite filter_nil. cbn [length orb]. f_equal. lia.
    + rewrite Hact. intros Hge%Is_true_true.
      apply sql_ge_isoformat in Hge; [|done..]. unfold edad in Hedad. lia.
Qed.

End FrescuraTrasGuardar.

(** ** The properties above on the example tenders *)

(** [deduplicar_procesos_unicos] on three tenders, the third a duplicate. *)
Lemma deduplicar_procesos_unicos_ejemplo :
  ∃ out,
    deduplicar_procesos [0; 1; 2]%nat heap_ejemplo = (Some out, heap_ejemplo)
    ∧ out `sublist_of` [0; 1; 2]%nat
    ∧ NoDup (identificador heap_ejemplo <$> out)
    ∧ (∀ p, p ∈ [0; 1; 2]%nat →
         ∃ q, q ∈ out ∧ identificador heap_ejemplo q = identificador heap_ejemplo p)
    ∧ deduplicar_procesos out heap_ejemplo = (Some out, heap_ejemplo).
Proof.
  apply (deduplicar_procesos_unicos heap_ejemplo [0; 1; 2]%nat).
  repeat constructor.
  - exists "AS-1". split; [reflexivity|discriminate].
  - exists "AS-2". split; [reflexivity|discriminate].
  - exists "AS-1". split; [reflexivity|discriminate].
Defined.

(** [filtrar_urgentes_de_nuevo] with the two windows of the daily summary. *)
Lemma filtrar_urgentes_de_nuevo_ejemplo :
  ∃ out1 h1 out2 h2,
    filtrar_urgentes (Fecha 2026 1 15) [0; 1; 2]%nat 3 heap_ejemplo = (Some out1, h1)
    ∧ filtrar_urgentes (Fecha 2026 1 15) [0; 1; 2]%nat 7 h1 = (Some out2, h2)
    ∧ out2 = filter (λ p, es_urgente (Fecha 2026 1 15) 7 heap_ejemplo p) [0; 1; 2]%nat
    ∧ out1 `sublist_of` out2
    ∧ (∀ q, h2 q = if decide (q ∈ [0; 1; 2]%nat)
                   then marcado (Fecha 2026 1 15) 7 heap_ejemplo q
                   else heap_ejemplo q).
Proof.
  apply (filtrar_urgentes_de_nuevo (Fecha 2026 1 15) 3 7 heap_ejemplo [0; 1; 2]%nat).
  lia.
Defined.

Lemma par_Some {A B} (d : A) (x : option A * B) :
  is_Some (fst x) → x = (Some (default d (fst x)), snd x).
Proof. destruct x as [[a|] b]; [done|]. by intros [? ?]. Qed.


(** [etapa_filtrar_resultado] on the three tenders. *)
Lemma etapa_filtrar_resultado_ejemplo :
  let corrida := etapa_filtrar (H := builtins_ejemplo) (Fecha 2026 1 15)
                   [0; 1; 2]%nat heap_ejemplo in
  let listas := default ([], [], []) (fst corrida) in
  let procesos := listas.1.1 in
  let procesos_filtrados := listas.1.2 in
  let urgentes := listas.2 in
  procesos `sublist_of` [0; 1; 2]%nat
  ∧ procesos_filtrados
    = filter (λ p, alcanza_monto (H := builtins_ejemplo)
                     (Qc_of_Z MONTO_MINIMO_8_UIT) heap_ejemplo p) procesos
  ∧ urgentes = filter (λ p, es_urgente (Fecha 2026 1 15) 3 heap_ejemplo p)
                 procesos_filtrados
  ∧ (length urgentes ≤ length procesos_filtrados ≤ length procesos)%nat
  ∧ (length procesos ≤ length [0; 1; 2]%nat)%nat
  ∧ (∀ q, snd corrida q = if decide (q ∈ urgentes)
                          then marcado (Fecha 2026 1 15) 3 heap_ejemplo q
                          else heap_ejemplo q).
Proof.
  apply (etapa_filtrar_resultado (H := builtins_ejemplo) (Fecha 2026 1 15)
           [0; 1; 2]%nat heap_ejemplo).
  rewrite <- !surjective_pairing.
  apply par_Some, (@bool_decide_unpack _ (is_Some_dec _)).
  vm_compute. exact I.
Defined.

Lemma lista_de_dos {A} (d : A) (r : list A) :
  length r = 2%nat → r = [default d (r !! 0%nat); default d (r !! 1%nat)].
Proof. by destruct r as [|a [|b [|c r]]]. Qed.

(** [deduplicar_procesos_tras_buscar] on the rows of a query. *)
Lemma deduplicar_procesos_tras_buscar_ejemplo :
  deduplicar_procesos [0; 1]%nat heap_filas =
  (Some (filter (λ p, identificador heap_filas p ≠ "") [0; 1]%nat), heap_filas).
Proof.
  apply (deduplicar_procesos_tras_buscar (H := builtins_ejemplo) almacen_ejemplo t_tarde
           None None None None 50 false 12 (heap_filas <$> [0; 1]%nat)
           heap_filas [0; 1]%nat).
  - apply (guardar_procesos_batch_ok (H := builtins_ejemplo)), db_inicial_ok.
  - unfold heap_filas. cbn [fmap list_fmap].
    rewrite <- (lista_de_dos ∅ filas_ejemplo) by (vm_compute; reflexivity).
    apply Some_default_is_Some, (@bool_decide_unpack _ (is_Some_dec _)).
    vm_compute. exact I.
  - reflexivity.
Defined.

(** [calcular_dias_restantes_strftime] on 17 January 2026. *)
Lemma calcular_dias_restantes_strftime_ejemplo :
  calcular_dias_restantes (Fecha 2026 1 15) (VStr (strftime_dmy (Fecha 2026 1 17)))
    = Some (toordinal (Fecha 2026 1 17) - toordinal (Fecha 2026 1 15))
  ∧ calcular_dias_restantes (Fecha 2026 1 15)
      (VStr (strftime_dmy (Fecha 2026 1 17) ++ " " ++ "10:00"))
    = Some (toordinal (Fecha 2026 1 17) - toordinal (Fecha 2026 1 15)).
Proof.
  apply (calcular_dias_restantes_strftime (Fecha 2026 1 15) (Fecha 2026 1 17) "10:00").
  reflexivity.
Defined.

(** [filtrar_urgentes_sin_barra] on a tender with an ISO deadline. *)
Lemma filtrar_urgentes_sin_barra_ejemplo :
  (∀ p, p ∈ [0%nat] →
     calcular_dias_restantes (Fecha 2026 1 15)
       (get (heap_iso p) "fecha_presentacion_propuestas" VNone) = None)
  ∧ ∃ h', filtrar_urgentes (Fecha 2026 1 15) [0%nat] 30 heap_iso = (Some [], h')
          ∧ ∀ q, h' q = heap_iso q.
Proof.
  apply (filtrar_urgentes_sin_barra (Fecha 2026 1 15) 30 heap_iso [0%nat]).
  intros p _. exists "2026-01-20T00:00:00Z". split; reflexivity.
Defined.

(** [datos_frescos_disponibles_tras_guardar] on a row written twelve hours
    before the question. *)
Lemma datos_frescos_disponibles_tras_guardar_ejemplo :
  let edad := a_microsegundos t_tarde - a_microsegundos t_manana in
  let otras := filter (λ f, nomenclatura_es "X" f = false) (procesos db_inicial) in
  datos_frescos_disponibles
    (snd (guardar_proceso (H := builtins_ejemplo) tender_A t_manana db_inicial))
    t_tarde 12 =
  Some (bool_decide (edad ≤ 12 * una_hora)
        || no_vacia (filter (λ f, sql_ge (get f "actualizado_en" VNone)
                                          (VStr (isoformat t_manana))) otras)).
Proof.
  apply (datos_frescos_disponibles_tras_guardar (H := builtins_ejemplo) db_inicial
           tender_A "X" t_manana t_tarde t_manana 12 fila_A).
  - reflexivity.
  - reflexivity.
  - reflexivity.
  - apply Some_default_is_Some, (@bool_decide_unpack _ (is_Some_dec _)).
    vm_compute. exact I.
  - vm_compute. reflexivity.
Defined.

(** * Finding a stored tender again *)

Lemma like_porcentaje (p t : list ascii) :
  like p t = true → like ("%"%char :: p) t = true.
Proof. intros Hl. destruct t; simpl; by rewrite Hl. Qed.

Lemma like_mismo (x : list ascii) : like (x ++ ["%"%char]) x = true.
Proof.
  induction x as [|c x IH]; [done|].
  cbn [app like]. destruct (Ascii.eqb c "%") eqn:Hp.
  - apply orb_true_iff. right.
    change (like ("%"%char :: x ++ ["%"%char]) x = true).
    by apply like_porcentaje.
  - destruct (Ascii.eqb c "_") eqn:Hg.
    + apply Ascii.eqb_eq in Hg as ->. exact IH.
    + by rewrite Ascii.eqb_refl, IH.
Qed.

Lemma like_contiene_mismo (x : list ascii) :
  like ("%"%char :: x ++ ["%"%char]) x = true.
Proof. apply like_porcentaje, like_mismo. Qed.

Section Reencontrar.

Context `{Builtins}.

(** X28. A stored tender is found again by its identifier: after
    [guardar_proceso] has written a tender, [buscar] with the identifier as
    its text filter, no other filter, no freshness filter and no limit
    returns the row just written. *)
Theorem buscar_por_nomenclatura (s : db) (p : dict) (x : string)
    (T ahora : datetime) (fila : dict) (limite W : Z) :
  get p "nomenclatura" VNone = VStr x →
  fila_de p T = Some fila →
  limite < 0 →
  ∃ res,
    buscar (snd (guardar_proceso p T s)) ahora None None None (Some x)
      limite false W = Some res
    ∧ <["id" := VNum (Qc_of_Z (secuencia s + 1))]> fila ∈ res.
Proof.
  intros Hx Hfila Hl.
  destruct (insert_or_replace_filas p T s fila x Hfila Hx)
    as (s1 & Hrun & Hprocs & _).
  unfold guardar_proceso. rewrite Hrun. cbn [snd].
  eexists. split; [reflexivity|].
  rewrite limitar_todo by (by left). rewrite ordenar_perm.
  apply list_elem_of_filter. split.
  - apply Is_true_true. unfold coincide. cbn [dado andb].
    rewrite !andb_true_r.
    destruct (String.eqb x "") eqn:Hv; [done|].
    unfold get at 1. rewrite lookup_insert_ne by done.
    rewrite (fila_de_nomenclatura _ _ _ _ Hfila Hx). cbn [default from_option id].
    unfold sql_like at 1. cbn [sql_texto].
    replace (list_ascii_of_string ("%" ++ x ++ "%"))
      with ("%"%char :: list_ascii_of_string x ++ ["%"%char])%list.
    + by rewrite like_contiene_mismo.
    + change ("%" ++ x ++ "%") with (String "%" (x ++ "%")).
      cbn [list_ascii_of_string]. by rewrite list_ascii_of_string_app.
  - rewrite Hprocs. apply elem_of_app. right. left.
Qed.

End Reencontrar.

(** [buscar_por_nomenclatura] on tender A. *)
Lemma buscar_por_nomenclatura_ejemplo :
  ∃ res,
    buscar (H := builtins_ejemplo)
      (snd (guardar_proceso (H := builtins_ejemplo) tender_A t_manana db_inicial))
      t_tarde None None None (Some "X") (-1) false 12 = Some res
    ∧ <["id" := VNum (Qc_of_Z (secuencia db_inicial + 1))]> fila_A ∈ res.
Proof.
  apply (buscar_por_nomenclatura (H := builtins_ejemplo) db_inicial tender_A "X"
           t_manana t_tarde fila_A (-1) 12).
  - reflexivity.
  - apply Some_default_is_Some, (@bool_decide_unpack _ (is_Some_dec _)).
    vm_compute. exact I.
  - lia.
Defined.

(** * The category of a normalised tender *)

Lemma TIPOS_OCDS_MAP_Bien k :
  default "Obra" (TIPOS_OCDS_MAP k) = "Bien" → k = KStr "goods".
Proof.
  unfold TIPOS_OCDS_MAP.
  repeat (match goal with
          | |- context [match ?x with _ => _ end] => destruct x
          end; try done).
Qed.

Lemma _extraer_tipo_goods (release : pyval) :
  _extraer_tipo release = VStr "goods" ↔
  ∃ tender, py_get release "tender" (VDict ∅) = Some tender
            ∧ py_get tender "mainProcurementCategory" (VStr "") = Some (VStr "goods").
Proof.
  unfold _extraer_tipo. split.
  - destruct (py_get release "tender" (VDict ∅)) as [tender|]; [|done].
    cbn [mbind option_bind]. intros Ht. exists tender. split; [done|].
    destruct (py_get tender "mainProcurementCategory" (VStr "")) as [categoria|];
      [|done].
    cbn [mbind option_bind] in Ht. destruct (truthy categoria).
    + cbn [default from_option id] in Ht. by rewrite Ht.
    + destruct (py_get tender "procurementMethodDetails" (VStr "")) as [d|]; [|done].
      cbn [mbind option_bind] in Ht. destruct (py_lower d) as [details|]; [|done].
      cbn [mbind option_bind default from_option id] in Ht.
      by repeat match type of Ht with
                | context [if ?b then _ else _] => destruct b
                end.
  - intros (tender & -> & Hc). cbn [mbind option_bind]. by rewrite Hc.
Qed.

Section Categoria.

Context `{Builtins}.

(** X29. A normalised tender is a [Bien] exactly when its release names
    the category [goods] in [tender.mainProcurementCategory]: a release
    without a category is classified from its procedure details, which
    never gives [Bien]. *)
Theorem convertir_a_proceso_bien (release : pyval) (p : dict) :
  convertir_a_proceso release = Some p →
  p !! "tipo_objeto" = Some (VStr "Bien") ↔
  ∃ tender, py_get release "tender" (VDict ∅) = Some tender
            ∧ py_get tender "mainProcurementCategory" (VStr "") = Some (VStr "goods").
Proof.
  unfold convertir_a_proceso. intros Hp. rewrite <- _extraer_tipo_goods.
  repeat (apply bind_Some in Hp as (? & ? & Hp); cbv zeta in Hp).
  apply (inj Some) in Hp. subst p.
  cbn [list_to_map foldr uncurry fst snd].
  do 3 rewrite lookup_insert_ne by done. rewrite lookup_insert_eq.
  match goal with
  | Hk : py_hash_key (_extraer_tipo release) = Some ?k |- _ =>
      pose proof (TIPOS_OCDS_MAP_Bien k) as HB;
      destruct (_extraer_tipo release) as [| |q|t| |] eqn:Ht; try done;
      cbn [py_hash_key] in Hk; apply (inj Some) in Hk; subst k
  end.
  all: split;
    [intros [= Hb]; specialize (HB Hb); congruence
    |intros Heq; by simplify_eq].
Qed.

End Categoria.

(** [convertir_a_proceso_bien] on a release of the category [goods]. *)
Lemma convertir_a_proceso_bien_ejemplo :
  default ∅ (convertir_a_proceso (H := builtins_ejemplo) release_bienes)
    !! "tipo_objeto" = Some (VStr "Bien") ↔
  ∃ tender, py_get release_bienes "tender" (VDict ∅) = Some tender
            ∧ py_get tender "mainProcurementCategory" (VStr "") = Some (VStr "goods").
Proof.
  apply (convertir_a_proceso_bien (H := builtins_ejemplo) release_bienes).
  apply Some_default_is_Some, (@bool_decide_unpack _ (is_Some_dec _)).
  vm_compute. exact I.
Defined.
